(** * Tf2Speech: the chat-message routing and speech-queue engine

    A shallow embedding of the decision engine of [main_32bit_full.py]
    (class [TTSReplicaWASAPI]): [on_chat_message], [process_voice_command],
    [speak], [clear_user_from_queue], [get_announcement_text],
    [get_random_voice_for_user], [force_stop_tts], [stop_all_speech] and one
    iteration of the worker loop [process_speech_queue].  A second part adds
    what surrounds them: the producers of the chat events
    ([TF2LogMonitor.parse_line], [DRGLogMonitor]), [speak_longform],
    [apply_voice] and [apply_default_voice], and the settings that are read
    back from text ([save_auto_block], [save_user_voices],
    [validate_command_trigger], [auto_generate_voice_commands]).

    Conventions of the embedding.
    - A Python [str] is a [string]; the character tests below are the ASCII
      restrictions of Python's Unicode-aware ones ([str.lower], [str.strip],
      [str.isdigit], and [\s], [\d] of the [re] module), so the embedding
      speaks of texts within ASCII.  A statement that rests on these tests
      beyond repeating the program's own test says so with [ascii_text].
    - The attributes of [self] the engine reads or writes form the record
      [App]; a method is a function on [App], and a method that can raise
      returns an [outcome].
    - Calls into the speech back ends, sleeps, writes to the chat display and
      the saves to disk are recorded, in program order, in the [trace] field;
      [apply_voice] and [apply_default_voice], which only talk to the engine,
      are recorded as calls.  [logger.info]/[logger.debug] lines are not
      recorded (the one whose arguments can raise is modelled by the read it
      performs), warnings and errors are.  The list boxes that mirror the
      voice preferences in the GUI are left out.
    - Of the back end, [DirectOutputTTS] of [sapi5_direct.py], the methods
      [is_speaking] and [stop] are embedded; what the COM engine reports is
      a parameter.
    - The queue is a list, head first; the draw of [random.choice] and what
      the other threads do while the worker sleeps are parameters. *)

From Stdlib Require Import Strings.String Strings.Ascii List Bool Arith ZArith Lia Floats.
From stdpp Require Import base option list strings gmap.

Local Open Scope string_scope.
Local Open Scope list_scope.

(** ** Python string operations *)

Module PyStr.

Definition code (c : ascii) : nat := nat_of_ascii c.

(** [c.isspace()] on ASCII: TAB..CR, FS..US and the blank. *)
Definition is_space (c : ascii) : bool :=
  let n := code c in
  ((9 <=? n)%nat && (n <=? 13)%nat) || ((28 <=? n)%nat && (n <=? 32)%nat).

(** [c.isdigit()] on ASCII, also [\d]. *)
Definition is_digit (c : ascii) : bool :=
  let n := code c in (48 <=? n)%nat && (n <=? 57)%nat.

Definition is_upper (c : ascii) : bool :=
  let n := code c in (65 <=? n)%nat && (n <=? 90)%nat.

Definition is_lower (c : ascii) : bool :=
  let n := code c in (97 <=? n)%nat && (n <=? 122)%nat.

(** The class [[a-zA-Z0-9_]]. *)
Definition is_word (c : ascii) : bool :=
  is_lower c || is_upper c || is_digit c || (code c =? 95)%nat.

Definition lower_char (c : ascii) : ascii :=
  if is_upper c then ascii_of_nat (code c + 32) else c.

(** [s.lower()] *)
Fixpoint lower (s : string) : string :=
  match s with
  | EmptyString => EmptyString
  | String c s' => String (lower_char c) (lower s')
  end.

(** [s.lstrip()] *)
Fixpoint lstrip (s : string) : string :=
  match s with
  | EmptyString => EmptyString
  | String c s' => if is_space c then lstrip s' else s
  end.

(** [s.rstrip()] *)
Fixpoint rstrip (s : string) : string :=
  match s with
  | EmptyString => EmptyString
  | String c s' =>
      match rstrip s' with
      | EmptyString => if is_space c then EmptyString else String c EmptyString
      | r => String c r
      end
  end.

(** [s.strip()] *)
Definition strip (s : string) : string := rstrip (lstrip s).

(** [s.lstrip(ch)] for a one-character argument. *)
Fixpoint lstrip_char (ch : ascii) (s : string) : string :=
  match s with
  | EmptyString => EmptyString
  | String c s' => if Ascii.eqb c ch then lstrip_char ch s' else s
  end.

(** [s.startswith(p)] *)
Definition startswith (s p : string) : bool := String.prefix p s.

(** [needle in hay] *)
Fixpoint contains (needle hay : string) : bool :=
  String.prefix needle hay ||
  match hay with
  | EmptyString => false
  | String _ hay' => contains needle hay'
  end.

(** [s[n:]] *)
Fixpoint drop (n : nat) (s : string) : string :=
  match n, s with
  | O, _ => s
  | S n', String _ s' => drop n' s'
  | S _, EmptyString => EmptyString
  end.

(** [s.isdigit()]: every character a digit, and at least one. *)
Fixpoint all_digits (s : string) : bool :=
  match s with
  | EmptyString => true
  | String c s' => is_digit c && all_digits s'
  end.

Definition isdigit (s : string) : bool :=
  match s with
  | EmptyString => false
  | _ => all_digits s
  end.

(** [s.split(' ', maxsplit)]; [maxsplit = None] is the call without a
    bound.  The separator is the single blank and empty fields are kept. *)
Fixpoint split_blank (maxsplit : option nat) (s : string) : list string :=
  match s with
  | EmptyString => [EmptyString]
  | String c s' =>
      if Ascii.eqb c " "%char then
        match maxsplit with
        | Some O =>
            match split_blank maxsplit s' with
            | f :: fs => String c f :: fs
            | [] => [String c EmptyString]
            end
        | Some (S k) => EmptyString :: split_blank (Some k) s'
        | None => EmptyString :: split_blank None s'
        end
      else
        match split_blank maxsplit s' with
        | f :: fs => String c f :: fs
        | [] => [String c EmptyString]
        end
  end.

(** [s.replace(old, new)] for a non-empty [old]; [skip] counts the
    characters of a replaced occurrence still to be passed over. *)
Fixpoint replace_from (old new : string) (skip : nat) (s : string) : string :=
  match s with
  | EmptyString => EmptyString
  | String c s' =>
      match skip with
      | S k => replace_from old new k s'
      | O =>
          if String.prefix old s
          then new +:+ replace_from old new (String.length old - 1) s'
          else String c (replace_from old new O s')
      end
  end.

Definition replace (s old new : string) : string := replace_from old new O s.

(** Truthiness of a [str]. *)
Definition truthy (s : string) : bool :=
  match s with EmptyString => false | _ => true end.

End PyStr.

(** ** The fragment of Python's [re] the program uses

    Every pattern of the source is built from literals, the classes [\s],
    [\d], [[a-zA-Z0-9_]] and [.], greedy [+] and [*] on a class, an optional
    group, capture groups and the anchor [$].  [re.match] anchors at the
    start, so the leading [^] of the patterns is implied.  The matcher is
    the usual backtracking one, written with a success continuation. *)

Module Re.

Inductive t : Type :=
| Lit (s : string)                 (* literal text, also re.escape(...) *)
| Plus (cls : ascii -> bool)       (* cls+  greedy *)
| Star (cls : ascii -> bool)       (* cls*  greedy *)
| Seq (r1 r2 : t)                  (* r1 r2 *)
| Opt (r : t)                      (* (?:r)? greedy *)
| Group (n : nat) (r : t)          (* capture group number n *)
| Eol.                             (* $ *)

(** [.] without DOTALL: anything but the newline. *)
Definition dot (c : ascii) : bool := negb (Ascii.eqb c "010"%char).

Definition captures := list (nat * string).

(** The longest run first, then shorter ones. *)
Fixpoint star {A} (cls : ascii -> bool) (s : string)
         (k : string -> option A) : option A :=
  match s with
  | String c s' =>
      if cls c then
        match star cls s' k with
        | Some r => Some r
        | None => k s
        end
      else k s
  | EmptyString => k s
  end.

(** The text [s] consumed up to the rest [rest]. *)
Definition consumed (s rest : string) : string :=
  String.substring 0 (String.length s - String.length rest) s.

Fixpoint run (r : t) (s : string) (caps : captures)
         (k : string -> captures -> option captures) : option captures :=
  match r with
  | Lit l =>
      if String.prefix l s then k (PyStr.drop (String.length l) s) caps else None
  | Plus cls =>
      match s with
      | String c s' => if cls c then star cls s' (fun rest => k rest caps) else None
      | EmptyString => None
      end
  | Star cls => star cls s (fun rest => k rest caps)
  | Seq r1 r2 => run r1 s caps (fun rest caps' => run r2 rest caps' k)
  | Opt r' =>
      match run r' s caps k with
      | Some res => Some res
      | None => k s caps
      end
  | Group n r' =>
      run r' s caps (fun rest caps' => k rest ((n, consumed s rest) :: caps'))
  | Eol =>
      (* end of the string, or just before a final newline *)
      match s with
      | EmptyString => k s caps
      | String c EmptyString => if Ascii.eqb c "010"%char then k s caps else None
      | _ => None
      end
  end.

(** [re.match(r, s)]: [None], or the groups of the match object. *)
Definition rmatch (r : t) (s : string) : option captures :=
  run r s [] (fun _ caps => Some caps).

(** [m.group(n)]: [None] when the group did not take part in the match. *)
Fixpoint group (n : nat) (caps : captures) : option string :=
  match caps with
  | [] => None
  | (i, g) :: rest => if Nat.eqb i n then Some g else group n rest
  end.

Definition is_match (r : t) (s : string) : bool :=
  match rmatch r s with Some _ => true | None => false end.

End Re.

(** ** Data model *)

(** An entry of [self.message_queue]: the dict
    [{'text': ..., 'voice': ..., 'username': ...}]; [None] is a Python [None]. *)
Record QueuedMsg : Type := mkQueued {
  q_text : string;
  q_voice : option string;
  q_username : option string
}.

(** The parsed chat event handed to [on_chat_message]. *)
Record ChatMsg : Type := mkChat {
  m_username : string;
  m_message : string;
  m_is_dead : bool;
  m_is_team : bool
}.

(** Observable effects, in program order. *)
Inductive event : Type :=
| ChatDisplay (line : string)        (* chat_display.insert(tk.END, line) *)
| AudioStop                          (* audio_manager.stop() *)
| AudioStopAll                       (* audio_manager.stop_all_speech() *)
| DectalkStop                        (* dectalk_native.stop_speech() *)
| Sleep50ms                          (* time.sleep(0.05) *)
| SaveBlocked                        (* save_blocked() *)
| SaveAdmins                         (* save_admins() *)
| SaveConfig                         (* save_config() *)
| ApplyVoice (name : string)         (* apply_voice(name) *)
| ApplyDefaultVoice                  (* apply_default_voice() *)
| AudioSpeak (text : string)         (* audio_manager.speak(text, use_sync=False) *)
| DectalkSetDevice                   (* dectalk_native.set_audio_device(...) *)
| DectalkSpeak (text profile : string)      (* dectalk_native.speak(...) *)
| DectalkManagerSpeak (text voice : string) (* dectalk_manager.speak(...) *)
| LogWarning (text : string)         (* logger.warning(...) *)
| LogError (text : string).          (* logger.error(...) *)

(** The configuration the engine reads and never writes. *)
Record Config : Type := mkConfig {
  auto_block_var : bool;                 (* self.auto_block_var.get() *)
  auto_block_keywords : list string;     (* config['auto_block_keywords'] *)
  private_mode_var : bool;               (* self.private_mode_var.get() *)
  tts_command_prefix : string;           (* get_current_game_config()['tts_command_prefix'] *)
  voice_toggle_command : string;
  voice_commands : list (string * string);   (* dict, in insertion order *)
  random_voice_enabled : bool;
  random_voice_exclusions : list string;
  dectalk_profiles : list string;        (* the keys of self.dectalk_profiles *)
  announcement_enabled : gmap string bool;
  announcements : gmap string string;
  announcement_voice : string;
  audio_manager : bool;                  (* self.audio_manager is not None *)
  dectalk_module : bool;                 (* DECTALK_NATIVE_AVAILABLE: the real class, not the
                                            dummy, with which init_audio leaves no audio manager *)
  dectalk_native_available : bool;       (* self.dectalk_native.is_available() *)
  dectalk_manager_use : bool;            (* self.dectalk_manager and .use_dectalk *)
  audio_device : string                  (* config['audio_device'] *)
}.

(** The attributes the engine writes.  [last_speaker = None] is the
    attribute not being set on the object: [__init__] assigns
    [self.last_speakers] (a dict that is never read) and
    [self.currently_speaking_user], but not [self.last_speaker], whose only
    assignment is in the prefixed branch of [on_chat_message]. *)
Record App : Type := mkApp {
  config : Config;
  blocked_listbox : list string;
  admin_listbox : list string;
  message_queue : list QueuedMsg;        (* head = next to be popped *)
  currently_speaking_user : option string;
  last_speaker : option string;
  user_voice_preferences : gmap string string;
  trace : list event
}.

Inductive exn : Type :=
| AttributeError (attr : string).

Inductive outcome (A : Type) : Type :=
| Returned (a : A) (s : App)
| Raised (e : exn) (s : App).
Arguments Returned {A} a s.
Arguments Raised {A} e s.

(** ** A state monad with exceptions for the methods of the object *)

Definition M (A : Type) : Type := App -> outcome A.

Definition ret {A} (a : A) : M A := fun s => Returned a s.

Definition bind {A B} (m : M A) (k : A -> M B) : M B :=
  fun s => match m s with
           | Returned a s' => k a s'
           | Raised e s' => Raised e s'
           end.

Definition raise {A} (e : exn) : M A := fun s => Raised e s.
Definition gets {A} (f : App -> A) : M A := fun s => Returned (f s) s.
Definition modify (f : App -> App) : M unit := fun s => Returned tt (f s).

Declare Scope py_scope.
Delimit Scope py_scope with py.
Notation "x <- m ;; k" := (bind m (fun x => k))
  (at level 100, m at next level, k at level 200, right associativity) : py_scope.
Notation "m ;;; k" := (bind m (fun _ => k))
  (at level 100, k at level 200, right associativity) : py_scope.
Notation "'when' b 'then_do' m" := (if b then m else ret tt)
  (at level 99, b at level 9, m at level 99) : py_scope.
Local Open Scope py_scope.

Definition set_blocked (l : list string) (s : App) : App :=
  mkApp (config s) l (admin_listbox s) (message_queue s)
        (currently_speaking_user s) (last_speaker s) (user_voice_preferences s) (trace s).
Definition set_admins (l : list string) (s : App) : App :=
  mkApp (config s) (blocked_listbox s) l (message_queue s)
        (currently_speaking_user s) (last_speaker s) (user_voice_preferences s) (trace s).
Definition set_queue (q : list QueuedMsg) (s : App) : App :=
  mkApp (config s) (blocked_listbox s) (admin_listbox s) q
        (currently_speaking_user s) (last_speaker s) (user_voice_preferences s) (trace s).
Definition set_speaking (u : option string) (s : App) : App :=
  mkApp (config s) (blocked_listbox s) (admin_listbox s) (message_queue s)
        u (last_speaker s) (user_voice_preferences s) (trace s).
Definition set_last_speaker (u : option string) (s : App) : App :=
  mkApp (config s) (blocked_listbox s) (admin_listbox s) (message_queue s)
        (currently_speaking_user s) u (user_voice_preferences s) (trace s).
Definition set_prefs (p : gmap string string) (s : App) : App :=
  mkApp (config s) (blocked_listbox s) (admin_listbox s) (message_queue s)
        (currently_speaking_user s) (last_speaker s) p (trace s).
Definition log_event (e : event) (s : App) : App :=
  mkApp (config s) (blocked_listbox s) (admin_listbox s) (message_queue s)
        (currently_speaking_user s) (last_speaker s) (user_voice_preferences s)
        (trace s ++ [e]).

Definition emit (e : event) : M unit := modify (log_event e).
Definition cfg {A} (f : Config -> A) : M A := gets (fun s => f (config s)).

(** [x in l] for a list of strings; a Python [None] is in no such list. *)
Definition py_in (x : string) (l : list string) : bool := bool_decide (x ∈ l).
Definition py_in_opt (x : option string) (l : list string) : bool :=
  match x with Some u => py_in u l | None => false end.

(** Truthiness of a value that is [None] or a [str]. *)
Definition truthy_opt (x : option string) : bool :=
  match x with Some u => PyStr.truthy u | None => false end.

(** [d.get(k)] and [k in d] for the dict [voice_commands]. *)
Fixpoint dict_get (d : list (string * string)) (k : string) : option string :=
  match d with
  | [] => None
  | (k', v) :: d' => if String.eqb k' k then Some v else dict_get d' k
  end.
Definition dict_has (d : list (string * string)) (k : string) : bool :=
  match dict_get d k with Some _ => true | None => false end.

(** Reading [self.last_speaker]: raises while the attribute is not set. *)
Definition read_last_speaker : M string :=
  fun s => match last_speaker s with
           | Some u => Returned u s
           | None => Raised (AttributeError "last_speaker") s
           end.

(** ** Methods that cannot raise: functions on [App] *)

Definition nl : string := String "010"%char EmptyString.

Definition announcement_user : string := "__announcement__".

(** [self.message_queue.put(m)] *)
Definition queue_put (m : QueuedMsg) (s : App) : App :=
  set_queue (message_queue s ++ [m]) s.

(** [speak(self, text, voice_name=None, username=None)] *)
Definition speak (text : string) (voice_name username : option string) (s : App) : App :=
  if audio_manager (config s)
  then queue_put (mkQueued text voice_name username) s
  else s.

(** [speak_with_voice(self, text, voice_name, username=None)] *)
Definition speak_with_voice (text voice_name : string) (username : option string)
           (s : App) : App :=
  if negb (audio_manager (config s)) then s
  else speak text (Some voice_name) username s.

(** [get_announcement_text(self, announcement_type, text="", username=None)] *)
Definition get_announcement_text (c : Config) (announcement_type text : string)
           (username : option string) : option string :=
  let toggle_key :=
    if String.eqb announcement_type "AUTOBLOCK" then "AUTOBLOCK TRIGGERED"
    else announcement_type in
  if negb (default true (announcement_enabled c !! toggle_key)) then None
  else
    let text :=
      if negb (PyStr.truthy text)
      then default "" (announcements c !! announcement_type)
      else text in
    if negb (PyStr.truthy text) then None
    else
      match username with
      | Some u => if PyStr.truthy u then Some (u +:+ " " +:+ text) else Some text
      | None => Some text
      end.

(** The three stop attempts of [clear_user_from_queue]:
    [for _ in range(3): stop_all_speech(); time.sleep(0.05)]. *)
Fixpoint stop_attempts (n : nat) (s : App) : App :=
  match n with
  | O => s
  | S n' => stop_attempts n' (log_event Sleep50ms (log_event AudioStopAll s))
  end.

(** [msg.get('username') != username] for a string [username]. *)
Definition other_user (username : string) (m : QueuedMsg) : bool :=
  negb (bool_decide (q_username m = Some username)).

(** [clear_user_from_queue(self, username, add_to_blocked=True)] *)
Definition clear_user_from_queue (username : option string) (add_to_blocked : bool)
           (s : App) : App :=
  match username with
  | None => s
  | Some u =>
      if negb (PyStr.truthy u) then s
      else
        (* add to the blocked list immediately if requested *)
        let s :=
          if add_to_blocked && negb (py_in u (blocked_listbox s))
          then set_blocked (blocked_listbox s ++ [u]) s
          else s in
        (* stop current speech if it is from this user *)
        let s :=
          if bool_decide (currently_speaking_user s = Some u) && audio_manager (config s)
          then set_speaking None (stop_attempts 3 s)
          else s in
        (* empty the queue, keep the other users' messages, put them back *)
        set_queue (filter (fun m => other_user u m = true) (message_queue s)) s
  end.

(** The pool of [get_random_voice_for_user]. *)
Definition available_voices (c : Config) : list string :=
  let sapi :=
    omap (fun '(_, voice_name) =>
            if PyStr.truthy voice_name && PyStr.truthy (PyStr.strip voice_name)
               && negb (py_in voice_name (random_voice_exclusions c))
            then Some voice_name else None)
         (voice_commands c) in
  let dectalk :=
    omap (fun profile_name =>
            let dectalk_voice := "[DECtalk] " +:+ profile_name in
            if negb (py_in dectalk_voice (random_voice_exclusions c))
            then Some dectalk_voice else None)
         (dectalk_profiles c) in
  sapi ++ dectalk.

(** [get_random_voice_for_user(self, username)]; [rnd] is the draw of
    [random.choice], reduced to an index of the pool. *)
Definition get_random_voice_for_user (username : string) (rnd : nat) (s : App)
  : option string * App :=
  let pool := available_voices (config s) in
  match pool with
  | [] =>
      (None, log_event (LogWarning "No voices available for random assignment (all excluded?)") s)
  | v0 :: _ =>
      let chosen_voice := nth (rnd mod length pool) pool v0 in
      (Some chosen_voice,
       log_event SaveConfig
         (set_prefs (<[username := chosen_voice]> (user_voice_preferences s)) s))
  end.

(** [force_stop_tts(self)] *)
Definition force_stop_tts (s : App) : App :=
  if audio_manager (config s) then log_event AudioStop s else s.

(** [stop_all_speech(self)].  With the dummy [DECtalkNative] class (the
    import of the real one having failed) [stop_speech] does not exist; the
    [AttributeError] is caught by the method's own [except], which skips the
    clearing of the queue. *)
Definition stop_all_speech (s : App) : App :=
  if audio_manager (config s) then
    let s := log_event AudioStopAll s in
    if dectalk_module (config s)
    then set_queue [] (log_event DectalkStop s)
    else log_event (LogError "Failed to stop all speech") s
  else s.

(** *** The patterns of [process_voice_command] and [on_chat_message] *)

(** The tail [\s+(\d+)(?:\s+(REST))?$] shared by the first two patterns;
    here and below REST stands for the greedy dot-star of the source. *)
Definition re_number_and_text : Re.t :=
  Re.Seq (Re.Plus PyStr.is_space)
   (Re.Seq (Re.Group 1 (Re.Plus PyStr.is_digit))
     (Re.Seq (Re.Opt (Re.Seq (Re.Plus PyStr.is_space) (Re.Group 2 (Re.Star Re.dot))))
             Re.Eol)).

(** [rf'^/{re.escape(toggle_cmd)}\s+(\d+)(?:\s+(REST))?$'] *)
Definition re_toggle (toggle_cmd : string) : Re.t :=
  Re.Seq (Re.Lit "/") (Re.Seq (Re.Lit toggle_cmd) re_number_and_text).

(** [r'^/v\s+(\d+)(?:\s+(REST))?$'] *)
Definition re_v_number_text : Re.t := Re.Seq (Re.Lit "/v") re_number_and_text.

(** [r'^/([a-zA-Z0-9_]+)(?:\s+(REST))?$'] *)
Definition re_trigger_text : Re.t :=
  Re.Seq (Re.Lit "/")
   (Re.Seq (Re.Group 1 (Re.Plus PyStr.is_word))
     (Re.Seq (Re.Opt (Re.Seq (Re.Plus PyStr.is_space) (Re.Group 2 (Re.Star Re.dot))))
             Re.Eol)).

(** [r'^/v\s+\d+'] *)
Definition re_v_number : Re.t :=
  Re.Seq (Re.Lit "/v") (Re.Seq (Re.Plus PyStr.is_space) (Re.Plus PyStr.is_digit)).

(** [r'^/([a-zA-Z0-9_]+)'] (and the same pattern without the group) *)
Definition re_slash_word : Re.t :=
  Re.Seq (Re.Lit "/") (Re.Group 1 (Re.Plus PyStr.is_word)).

(** [m.group(1)] of a group that always takes part, and
    [m.group(2) if m.group(2) else ""]. *)
Definition group1 (caps : Re.captures) : string := default "" (Re.group 1 caps).
Definition group2_or_empty (caps : Re.captures) : string := default "" (Re.group 2 caps).

(** [if text: speak(text, username=username)] and its variants. *)
Definition speak_if_text (text : string) (voice_name username : option string)
           (s : App) : App :=
  if PyStr.truthy text then speak text voice_name username s else s.

Definition speak_with_voice_if_text (text voice_name : string) (username : option string)
           (s : App) : App :=
  if PyStr.truthy text then speak_with_voice text voice_name username s else s.

(** [process_voice_command(self, message, username=None)] *)
Definition process_voice_command (message : string) (username : option string)
           (s : App) : App :=
  let original_message := message in
  let vc := voice_commands (config s) in
  if PyStr.startswith message "/" then
    let toggle_cmd := PyStr.lstrip_char "/"%char (voice_toggle_command (config s)) in
    match Re.rmatch (re_toggle toggle_cmd) message with
    | Some caps =>
        (* user voice toggle command, e.g. /vt *)
        let voice_num := group1 caps in
        let text := group2_or_empty caps in
        let cmd := "v " +:+ voice_num in
        if truthy_opt username && dict_has vc cmd then
          let voice_name := default "" (dict_get vc cmd) in
          if negb (PyStr.truthy voice_name) then
            let s := log_event (LogWarning ("Voice command 'v " +:+ voice_num +:+ "' has no voice mapped")) s in
            speak_if_text text None username s
          else
            let s := set_prefs (<[default "" username := voice_name]> (user_voice_preferences s)) s in
            let s := log_event SaveConfig s in
            speak_with_voice_if_text text voice_name username s
        else
          let s := log_event (LogWarning ("Voice command 'v " +:+ voice_num +:+ "' is not configured or no username")) s in
          speak_if_text text None username s
    | None =>
    match Re.rmatch re_v_number_text message with
    | Some caps =>
        (* /v [number] [text] *)
        let voice_num := group1 caps in
        let text := group2_or_empty caps in
        let cmd := "v " +:+ voice_num in
        match dict_get vc cmd with
        | Some voice_name => speak_with_voice_if_text text voice_name username s
        | None =>
            let s := log_event (LogWarning ("Voice command 'v " +:+ voice_num +:+ "' is not configured")) s in
            speak_if_text text None username s
        end
    | None =>
    match Re.rmatch re_trigger_text message with
    | Some caps =>
        (* /[command] [text] *)
        let trigger := group1 caps in
        let text := group2_or_empty caps in
        match dict_get vc trigger with
        | Some voice_name => speak_with_voice_if_text text voice_name username s
        | None =>
            if PyStr.startswith trigger "v" && (1 <? String.length trigger)%nat then
              (* legacy v[number] *)
              let voice_num := PyStr.drop 1 trigger in
              let legacy_cmd := "v " +:+ voice_num in
              match dict_get vc legacy_cmd with
              | Some voice_name => speak_with_voice_if_text text voice_name username s
              | None =>
                  let s := log_event (LogWarning ("Voice command '" +:+ legacy_cmd +:+ "' is not configured")) s in
                  speak_if_text text None username s
              end
            else
              let s := log_event (LogWarning ("Unknown command trigger: " +:+ trigger)) s in
              speak original_message None None s
        end
    | None =>
        (* slash but no valid command pattern *)
        speak original_message None None s
    end end end
  else if PyStr.startswith message "v " then
    (* legacy format: v [number] [text] *)
    match PyStr.split_blank (Some 2) message with
    | _ :: voice_num :: rest =>
        let cmd := "v " +:+ voice_num in
        let text := match rest with t :: _ => t | [] => "" end in
        match dict_get vc cmd with
        | Some voice_name => speak_with_voice_if_text text voice_name username s
        | None =>
            let s := log_event (LogWarning ("Voice command 'v " +:+ voice_num +:+ "' is not configured")) s in
            speak_if_text text None None s
        end
    | _ => speak original_message None None s
    end
  else
    (* a custom command without slash *)
    match PyStr.split_blank (Some 1) message with
    | trigger :: rest =>
        match dict_get vc trigger with
        | Some voice_name =>
            let text := match rest with t :: _ => t | [] => "" end in
            speak_with_voice_if_text text voice_name username s
        | None => speak message None username s
        end
    | [] => speak message None username s
    end.

(** ** [on_chat_message]

    The method is one long sequence of guarded blocks that end in [return];
    each block below is named after the comment that opens it in the source
    and ends by calling the block that follows it there, so the blocks
    appear in reverse order. *)

Definition call (f : App -> App) : M unit := modify f.

(** The line shown in the chat display. *)
Definition display_text (msg : ChatMsg) : string :=
  let prefix := "" in
  let prefix := if m_is_dead msg then prefix +:+ "*DEAD*" else prefix in
  let prefix := if m_is_team msg then prefix +:+ "(TEAM) " else prefix in
  prefix +:+ m_username msg +:+ " : " +:+ m_message msg +:+ nl.

(** [while not queue.empty(): temp.append(queue.get_nowait())] *)
Definition drain_queue : M (list QueuedMsg) :=
  fun s => Returned (message_queue s) (set_queue [] s).

(** [for m in temp: queue.put(m)] *)
Definition requeue (temp_messages : list QueuedMsg) : M unit :=
  modify (fun s => set_queue (message_queue s ++ temp_messages) s).

Definition put_announcement (announcement_text : string) : M unit :=
  announcement_voice <- cfg announcement_voice ;;
  call (queue_put (mkQueued announcement_text (Some announcement_voice)
                            (Some announcement_user))).

(** "Insert announcement at front of queue": guarded by [if announcement_text:]. *)
Definition announce_at_front (announcement_text : option string) : M unit :=
  match announcement_text with
  | Some t =>
      if PyStr.truthy t then
        temp_messages <- drain_queue ;;
        put_announcement t ;;;
        requeue temp_messages
      else ret tt
  | None => ret tt
  end.

(** "Check for voice commands - support flexible patterns", down to the end
    of the method. *)
Definition voice_command_rules (msg : ChatMsg) (message : string) : M unit :=
  vc <- cfg voice_commands ;;
  if Re.is_match re_v_number message then
    call (process_voice_command message (Some (m_username msg)))
  else
    let slash_trigger :=
      if PyStr.startswith message "/" then
        match Re.rmatch re_slash_word message with
        | Some caps =>
            let trigger := group1 caps in
            dict_has vc trigger
            || (PyStr.startswith trigger "v" && PyStr.isdigit (PyStr.drop 1 trigger))
        | None => false
        end
      else false in
    if slash_trigger then
      call (process_voice_command message (Some (m_username msg)))
    else if PyStr.startswith message "v " && (2 <? String.length message)%nat
            && match String.get 2 message with
               | Some c => PyStr.is_digit c
               | None => false
               end then
      call (process_voice_command message (Some (m_username msg)))
    else
      let first_word := hd "" (PyStr.split_blank None message) in
      if dict_has vc first_word then
        call (process_voice_command message (Some (m_username msg)))
      else
        (* regular message: not spoken *)
        ret tt.

(** "Check private mode for regular messages" *)
Definition private_mode_gate (msg : ChatMsg) (message : string)
           (admins : list string) : M unit :=
  private_mode <- cfg private_mode_var ;;
  if private_mode && negb (py_in (m_username msg) admins) then ret tt
  else voice_command_rules msg message.

(** The choice of a voice for a message that names none: the user's
    preference, else (random assignment on) a fresh draw that becomes the
    preference, else the default voice, which is the answer [None].  The
    source spells this sequence out twice, in the prefixed branch of
    [on_chat_message] and in [process_speech_queue]. *)
Definition resolve_voice (username : option string) (rnd : nat) (s : App)
  : option string * App :=
  match username with
  | Some u =>
      match (if PyStr.truthy u then user_voice_preferences s !! u else None) with
      | Some user_voice => (Some user_voice, s)
      | None =>
          if PyStr.truthy u && random_voice_enabled (config s) then
            match get_random_voice_for_user u rnd s with
            | (Some random_voice, s') =>
                if PyStr.truthy random_voice then (Some random_voice, s') else (None, s')
            | (None, s') => (None, s')
            end
          else (None, s)
      end
  | None => (None, s)
  end.

(** The text of a prefixed message that is no voice command. *)
Definition speak_plain (text_to_speak : string) (username : string) (rnd : nat)
           (s : App) : App :=
  match resolve_voice (Some username) rnd s with
  | (Some voice_name, s') => speak text_to_speak (Some voice_name) (Some username) s'
  | (None, s') => speak text_to_speak None (Some username) (log_event ApplyDefaultVoice s')
  end.

(** "FOURTH: Check for TTS commands" *)
Definition tts_rule (msg : ChatMsg) (message : string) (admins : list string)
           (rnd : nat) : M unit :=
  current_tts_prefix <- cfg tts_command_prefix ;;
  let tts_command_trigger := current_tts_prefix +:+ " " in
  if PyStr.startswith message tts_command_trigger then
    let text_to_speak :=
      PyStr.strip (PyStr.drop (String.length tts_command_trigger) message) in
    private_mode <- cfg private_mode_var ;;
    admins' <- gets admin_listbox ;;
    if private_mode && negb (py_in (m_username msg) admins') then ret tt
    else
      (if PyStr.startswith text_to_speak "/" then
         call (process_voice_command text_to_speak (Some (m_username msg)))
       else if PyStr.startswith text_to_speak "v " then
         call (process_voice_command text_to_speak (Some (m_username msg)))
       else call (speak_plain text_to_speak (m_username msg) rnd)) ;;;
      (* track the last speaker when they actually use TTS *)
      call (set_last_speaker (Some (m_username msg)))
  else private_mode_gate msg message admins.

(** The block of ['!block clear']; its [return] is inside the admin test. *)
Definition block_clear_rule (msg : ChatMsg) (message : string)
           (admins : list string) (rnd : nat) : M unit :=
  if String.eqb (PyStr.strip (PyStr.lower message)) "!block clear" then
    if py_in (m_username msg) admins then
      blocked <- gets blocked_listbox ;;
      let size := length blocked in
      if (0 <? size)%nat then
        let last_user := nth (size - 1) blocked "" in
        call (set_blocked (delete (size - 1) blocked)) ;;;
        emit SaveBlocked ;;;
        c <- gets config ;;
        announce_at_front (get_announcement_text c "BLOCK REMOVE" "" (Some last_user))
      else ret tt
    else tts_rule msg message admins rnd
  else tts_rule msg message admins rnd.

(** The block of ['!admin add']; its [return] is inside the admin test. *)
Definition admin_add_rule (msg : ChatMsg) (message : string)
           (admins : list string) (rnd : nat) : M unit :=
  if String.eqb (PyStr.strip (PyStr.lower message)) "!admin add" then
    if py_in (m_username msg) admins then
      last <- read_last_speaker ;;
      if PyStr.truthy last && negb (String.eqb last (m_username msg)) then
        call (fun s => set_admins (admin_listbox s ++ [last]) s) ;;;
        emit SaveAdmins ;;;
        c <- gets config ;;
        announce_at_front (get_announcement_text c "ADMIN ADD" "" (Some last))
      else ret tt
    else block_clear_rule msg message admins rnd
  else block_clear_rule msg message admins rnd.

(** The block of ['!block'] and ['!block add']. *)
Definition block_rule (msg : ChatMsg) (message : string)
           (admins : list string) (rnd : nat) : M unit :=
  let lowered := PyStr.strip (PyStr.lower message) in
  if String.eqb lowered "!block add" || String.eqb lowered "!block" then
    if py_in (m_username msg) admins then
      (* the "Admin confirmed" log line formats self.last_speaker *)
      last <- read_last_speaker ;;
      current <- gets currently_speaking_user ;;
      let user_to_block := if truthy_opt current then current else Some last in
      if truthy_opt user_to_block
         && negb (bool_decide (user_to_block = Some (m_username msg))) then
        call (clear_user_from_queue user_to_block true) ;;;
        emit SaveBlocked ;;;
        temp_messages <- drain_queue ;;
        c <- gets config ;;
        match get_announcement_text c "BLOCK ADD" "" user_to_block with
        | Some t => when (PyStr.truthy t) then_do put_announcement t
        | None => ret tt
        end ;;;
        requeue temp_messages
      else ret tt
    else ret tt
  else admin_add_rule msg message admins rnd.

(** The block of ['!stop']. *)
Definition stop_rule (msg : ChatMsg) (message : string)
           (admins : list string) (rnd : nat) : M unit :=
  if String.eqb (PyStr.strip (PyStr.lower message)) "!stop" then
    if py_in (m_username msg) admins then
      call stop_all_speech ;;;
      emit (ChatDisplay ("[SYSTEM] Speech stopped by " +:+ m_username msg +:+ nl))
    else ret tt
  else block_rule msg message admins rnd.

(** "THIRD: Check for admin commands FIRST (before !tts processing)" *)
Definition admin_commands (msg : ChatMsg) (rnd : nat) : M unit :=
  let message := PyStr.strip (m_message msg) in
  admins <- gets admin_listbox ;;
  current_tts_prefix <- cfg tts_command_prefix ;;
  let tts_stop_command := current_tts_prefix +:+ " stop" in
  if String.eqb (PyStr.strip (PyStr.lower message)) (PyStr.lower tts_stop_command) then
    if py_in (m_username msg) admins then call force_stop_tts
    else ret tt
  else stop_rule msg message admins rnd.

(** The keyword test of the auto-block scan; the first keyword that passes
    it ends the loop. *)
Definition keyword_hits (message_lower : string) (keyword : string) : bool :=
  PyStr.truthy keyword && PyStr.contains (PyStr.lower keyword) message_lower.

Definition auto_block_scan (keywords : list string) (message : string) : option string :=
  List.find (keyword_hits (PyStr.lower message)) keywords.

(** The body of the loop at a matching keyword. *)
Definition auto_block (msg : ChatMsg) : M unit :=
  call (clear_user_from_queue (Some (m_username msg)) true) ;;;
  emit SaveBlocked ;;;
  c <- gets config ;;
  announce_at_front (get_announcement_text c "AUTOBLOCK" "" (Some (m_username msg))) ;;;
  (* update_ui_after_autoblock, scheduled on the main thread *)
  emit (ChatDisplay ("[SYSTEM] Auto-blocked user: " +:+ m_username msg +:+ nl)).

(** "SECOND: Check auto-block keywords BEFORE any other processing" *)
Definition auto_block_check (msg : ChatMsg) (rnd : nat) : M unit :=
  enabled <- cfg auto_block_var ;;
  keywords <- cfg auto_block_keywords ;;
  match (if enabled then auto_block_scan keywords (m_message msg) else None) with
  | Some _ => auto_block msg
  | None => admin_commands msg rnd
  end.

(** [on_chat_message(self, msg)]; [rnd] is the draw a random voice
    assignment would use. *)
Definition on_chat_message (msg : ChatMsg) (rnd : nat) : M unit :=
  emit (ChatDisplay (display_text msg)) ;;;
  (* FIRST: check if blocked *)
  blocked_users <- gets blocked_listbox ;;
  if py_in (m_username msg) blocked_users then ret tt
  else auto_block_check msg rnd.

(** ** The queue worker: one turn of the loop of [process_speech_queue]

    The worker shares [self] with the thread that runs [on_chat_message] and
    with the GUI thread.  What those threads and the speech engine do while
    the worker sleeps or is inside a synchronous call is given by an
    environment: the worker's own steps are the program's. *)

(** *** The back end: [DirectOutputTTS] of [sapi5_direct.py]

    [self.audio_manager] is an object of this class, built by [init_audio];
    the worker asks it whether the engine is still speaking. *)

Module DirectOutputTTS.

(** The data attributes of [self.sapi], a [SAPI5Direct]: the ones that
    [SAPI5Direct.__init__] assigns.  No statement of the repository assigns
    an attribute of such an object under another name. *)
Definition sapi_data_attributes : list string :=
  ["sapi_voice"; "audio_outputs"; "current_output"; "current_output_index";
   "current_voice_index"; "speech_queue"; "worker_thread"; "running";
   "worker_sapi"; "stop_requested"].

(** The methods of the class [SAPI5Direct]. *)
Definition sapi_methods : list string :=
  ["__init__"; "_enumerate_outputs"; "_add_pyaudio_fallback"; "set_audio_output";
   "set_output_device"; "speak"; "speak_sync"; "stop_speech"; "_ensure_voice";
   "_speech_worker"; "get_voices"; "set_voice"; "set_voice_by_name"; "stop"].

(** [hasattr(self.sapi, name)] for a name that [object] does not define
    (those all start with two underscores). *)
Definition sapi_hasattr (name : string) : bool :=
  py_in name (sapi_data_attributes ++ sapi_methods).

(** [self.dectalk_manager]: [__init__] assigns [None], and
    [set_dectalk_manager], the only other assignment, has no caller in the
    repository.  [Some is_playing] would be a manager, with its attribute
    [is_playing] if it has one. *)
Definition dectalk_manager : option (option bool) := None.

(** [is_speaking(self)].  [running_state] is what the COM property
    [Status.RunningState] of [self.sapi.voice] answers, [None] when that
    voice is falsy or the access raises.  The method reaches it only
    through the attribute [voice], which [self.sapi] does not have: its
    voice is [sapi_voice]. *)
Definition is_speaking (running_state : option nat) : bool :=
  let through_sapi :=
    if sapi_hasattr "voice" then
      match running_state with
      | Some state => Some (state =? 2)%nat     (* SRSEIsSpeaking = 2 *)
      | None => None                             (* except: pass *)
      end
    else None in
  match through_sapi with
  | Some answer => answer
  | None =>
      match dectalk_manager with
      | Some (Some is_playing) => is_playing
      | _ => false
      end
  end.

(** What a call of [stop(self)] reaches: [self.sapi.stop_speech()], and
    [self.dectalk_manager.stop()] when there is a manager. *)
Inductive stop_call : Type :=
| SapiStopSpeech
| DectalkManagerStop.

Definition stop : list stop_call :=
  SapiStopSpeech ::
  match dectalk_manager with
  | Some _ => [DectalkManagerStop]
  | None => []
  end.

(** [stop_all_speech(self)]: "alias for stop()". *)
Definition stop_all_speech : list stop_call := stop.

End DirectOutputTTS.

Record Env : Type := mkEnv {
  (** what [Status.RunningState] of the engine would answer at the k-th
      poll: 2 while it is speaking *)
  running_state : nat -> option nat;
  (** what the other threads do to [self] during the k-th [time.sleep(0.05)] *)
  during_sleep : nat -> App -> App;
  (** what they do while a synchronous DECtalk [speak] runs *)
  during_dectalk : App -> App
}.

(** Why the wait loop was left (a ghost value, for the statements). *)
Inductive wait_exit : Type :=
| SpeechCompleted      (* is_speaking() answered False *)
| UserWasBlocked       (* the speaker is now in the blocked list *)
| SpeechInterrupted    (* currently_speaking_user no longer the speaker *)
| CeilingReached       (* wait_time < max_wait failed *)
| OutOfFuel.           (* the model's fuel ran out *)

Definition max_wait : float := 60%float.
(** The double nearest to 0.05: the value of the literal [0.05] in Python. *)
Definition poll_interval : float := 0x1.999999999999ap-5%float.

(** [while wait_time < max_wait: ...]; [poll] counts the turns taken so far
    and the result carries the number of turns at exit. *)
Fixpoint wait_loop (fuel : nat) (env : Env) (msg : QueuedMsg)
         (poll : nat) (wait_time : float) (s : App) : wait_exit * nat * App :=
  match fuel with
  | O => (OutOfFuel, poll, s)
  | S fuel' =>
      if PrimFloat.ltb wait_time max_wait then
        if negb (DirectOutputTTS.is_speaking (running_state env poll)) then
          (* speech completed naturally *)
          (SpeechCompleted, poll, s)
        else
          let s := during_sleep env poll (log_event Sleep50ms s) in
          let wait_time := PrimFloat.add wait_time poll_interval in
          if py_in_opt (q_username msg) (blocked_listbox s) then
            let s := log_event AudioStopAll s in
            let s := clear_user_from_queue (q_username msg) false s in
            (UserWasBlocked, S poll, s)
          else if negb (bool_decide (currently_speaking_user s = q_username msg)) then
            (SpeechInterrupted, S poll, log_event AudioStopAll s)
          else wait_loop fuel' env msg (S poll) wait_time s
      else (CeilingReached, poll, s)
  end.

Arguments wait_loop : simpl never.

(** More turns than the loop can take: [wait_time] grows by 0.05 a turn
    and the loop is left when it reaches 60. *)
Definition wait_fuel : nat := 1300.

(** The voice applied before speaking. *)
Definition apply_message_voice (msg : QueuedMsg) (rnd : nat) (s : App) : App :=
  if truthy_opt (q_voice msg) then
    log_event (ApplyVoice (default "" (q_voice msg))) s
  else
    match resolve_voice (q_username msg) rnd s with
    | (Some voice_name, s') => log_event (ApplyVoice voice_name) s'
    | (None, s') => log_event ApplyDefaultVoice s'
    end.

Definition dectalk_prefix : string := "[DECtalk] ".

(** [current_voice] of the speaking block: the message's voice, or the
    user's DECtalk preference when the message names none. *)
Definition current_voice_of (msg : QueuedMsg) (s : App) : option string :=
  if truthy_opt (q_voice msg) then q_voice msg
  else
    match q_username msg with
    | Some username =>
        match (if PyStr.truthy username then user_voice_preferences s !! username else None) with
        | Some user_voice =>
            if PyStr.startswith user_voice dectalk_prefix then Some user_voice
            else q_voice msg
        | None => q_voice msg
        end
    | None => q_voice msg
    end.

(** The dispatch to a back end; the boolean is [used_special_voice]. *)
Definition dispatch_speech (env : Env) (msg : QueuedMsg) (s : App) : bool * App :=
  let text_to_speak := q_text msg in
  let current_voice := current_voice_of msg s in
  match current_voice with
  | Some cv =>
      if PyStr.truthy cv && PyStr.startswith cv dectalk_prefix then
        let profile_name := PyStr.replace cv dectalk_prefix "" in
        if dectalk_native_available (config s) then
          let current_device := audio_device (config s) in
          let s := if PyStr.contains "voicemeeter" (PyStr.lower current_device)
                   then log_event DectalkSetDevice s else s in
          let s := log_event (DectalkSpeak text_to_speak profile_name) s in
          (true, during_dectalk env s)
        else if dectalk_manager_use (config s) then
          let s := log_event (DectalkManagerSpeak text_to_speak cv) s in
          (true, during_dectalk env s)
        else
          let s := log_event (LogWarning "DECtalk not available, falling back to SAPI5") s in
          (false, log_event (AudioSpeak text_to_speak) s)
      else (false, log_event (AudioSpeak text_to_speak) s)
  | None => (false, log_event (AudioSpeak text_to_speak) s)
  end.

(** "Clear current speaker when done" *)
Definition clear_current_speaker (msg : QueuedMsg) (s : App) : App :=
  if bool_decide (currently_speaking_user s = q_username msg)
  then set_speaking None s else s.

(** The body of the loop for a popped message; the result also tells how
    the wait ended, when there was one. *)
Definition speak_message (env : Env) (rnd : nat) (msg : QueuedMsg) (s : App)
  : option (wait_exit * nat) * App :=
  (* check if this user is already blocked before speaking *)
  if py_in_opt (q_username msg) (blocked_listbox s) then (None, s)
  else
    (* track who is currently speaking *)
    let s := set_speaking (q_username msg) s in
    let s := apply_message_voice msg rnd s in
    if audio_manager (config s) then
      let '(used_special_voice, s) := dispatch_speech env msg s in
      if negb used_special_voice then
        let '(why, polls, s) := wait_loop wait_fuel env msg 0 0%float s in
        (Some (why, polls), clear_current_speaker msg s)
      else (None, clear_current_speaker msg s)
    else (None, clear_current_speaker msg s).

(** One turn of [while self.queue_running]: [message_queue.get(timeout=0.5)]
    and the body; an empty queue is the [queue.Empty] branch. *)
Definition process_speech_queue_turn (env : Env) (rnd : nat) (s : App)
  : option (wait_exit * nat) * App :=
  match message_queue s with
  | [] => (None, s)
  | msg :: rest => speak_message env rnd msg (set_queue rest s)
  end.

(** ** The clauses of the specification, for the refinement statements *)

(** Step 7 of the decision order: the non-prefixed voice-command patterns,
    [/v N ...], [/{token} ...] for a known trigger or a [vN] token, the
    legacy [v N ...], and a known trigger as first word. *)
Definition non_prefixed_voice_command (vc : list (string * string)) (message : string)
  : bool :=
  Re.is_match re_v_number message
  || (PyStr.startswith message "/"
      && match Re.rmatch re_slash_word message with
         | Some caps =>
             dict_has vc (group1 caps)
             || (PyStr.startswith (group1 caps) "v"
                 && PyStr.isdigit (PyStr.drop 1 (group1 caps)))
         | None => false
         end)
  || (PyStr.startswith message "v " && (2 <? String.length message)%nat
      && match String.get 2 message with
         | Some c => PyStr.is_digit c
         | None => false
         end)
  || dict_has vc (hd "" (PyStr.split_blank None message)).

(** Steps 1 to 5: the message, lowered and stripped, is one of the
    moderation commands. *)
Definition moderation_command (prefix message : string) : bool :=
  let lowered := PyStr.strip (PyStr.lower (PyStr.strip message)) in
  String.eqb lowered (PyStr.lower (prefix +:+ " stop"))
  || String.eqb lowered "!stop"
  || String.eqb lowered "!block add" || String.eqb lowered "!block"
  || String.eqb lowered "!admin add"
  || String.eqb lowered "!block clear".

(** The auto-block scan would fire on this message. *)
Definition auto_block_fires (c : Config) (message : string) : bool :=
  auto_block_var c && bool_decide (is_Some (auto_block_scan (auto_block_keywords c) message)).

(** The state an outcome ends in, and its exception if any. *)
Definition final_state {A} (o : outcome A) : App :=
  match o with Returned _ s => s | Raised _ s => s end.

Definition raised {A} (o : outcome A) : option exn :=
  match o with Returned _ _ => None | Raised e _ => Some e end.

(** The chat display line of the message, which every call adds first. *)
Definition shown (msg : ChatMsg) (s : App) : App :=
  log_event (ChatDisplay (display_text msg)) s.

(** ** States used in the examples *)

Definition example_config : Config :=
  mkConfig true ["cheater"] false "!tts" "/vt"
    [("v 1", "Sam"); ("v 3", "[DECtalk] Betty"); ("v 5", ""); ("paul", "Paul")]
    false [] ["Betty"] ∅
    (<["BLOCK ADD" := "blocked, you abused it so you losed it"]>
       (<["AUTOBLOCK" := "blocked, you can't say that"]> ∅))
    "Zira" true true true true "Default".

(** A freshly started application: nothing queued, nobody speaking, and
    [last_speaker] not yet assigned. *)
Definition fresh_app : App := mkApp example_config [] ["Admin"] [] None None ∅ [].

Definition chat (username message : string) : ChatMsg :=
  mkChat username message false false.

(** The same with private mode switched on. *)
Definition private_config : Config :=
  mkConfig true ["cheater"] true "!tts" "/vt"
    [("v 1", "Sam"); ("v 3", "[DECtalk] Betty"); ("v 5", ""); ("paul", "Paul")]
    false [] ["Betty"] ∅
    (<["BLOCK ADD" := "blocked, you abused it so you losed it"]>
       (<["AUTOBLOCK" := "blocked, you can't say that"]> ∅))
    "Zira" true true true true "Default".

Definition private_app : App := mkApp private_config [] ["Admin"] [] None None ∅ [].

(** [s'] differs from [s] at most by one message put at the back of the
    queue, by the preferences and by the trace. *)
Definition enqueues_at_most_one (s s' : App) : Prop :=
  (message_queue s' = message_queue s
   \/ exists q, message_queue s' = message_queue s ++ [q])
  /\ config s' = config s
  /\ blocked_listbox s' = blocked_listbox s
  /\ admin_listbox s' = admin_listbox s
  /\ currently_speaking_user s' = currently_speaking_user s
  /\ last_speaker s' = last_speaker s.

(** The announcement with the AUTOBLOCK toggle switched off. *)
Definition silent_config : Config :=
  mkConfig true ["cheater"] false "!tts" "/vt"
    [("v 1", "Sam"); ("v 3", "[DECtalk] Betty"); ("v 5", ""); ("paul", "Paul")]
    false [] ["Betty"] (<["AUTOBLOCK TRIGGERED" := false]> ∅)
    (<["BLOCK ADD" := "blocked, you abused it so you losed it"]>
       (<["AUTOBLOCK" := "blocked, you can't say that"]> ∅))
    "Zira" true true true true "Default".

Definition silent_app : App := mkApp silent_config [] ["Admin"] [] None None ∅ [].

(** The front of the queue after [announce_at_front]. *)
Definition announcement_entry (c : Config) (announcement_text : option string)
  : list QueuedMsg :=
  match announcement_text with
  | Some t => [mkQueued t (Some (announcement_voice c)) (Some announcement_user)]
  | None => []
  end.

(** A configuration whose TTS prefix is the first word of a moderation
    command. *)
Definition admin_prefix_config : Config :=
  mkConfig true ["cheater"] false "!admin" "/vt"
    [("v 1", "Sam"); ("v 3", "[DECtalk] Betty"); ("v 5", ""); ("paul", "Paul")]
    false [] ["Betty"] ∅
    (<["BLOCK ADD" := "blocked, you abused it so you losed it"]>
       (<["AUTOBLOCK" := "blocked, you can't say that"]> ∅))
    "Zira" true true true true "Default".

Definition admin_prefix_app : App :=
  mkApp admin_prefix_config [] ["Admin"] [] None None ∅ [].

(** Bob's first message after the start is a voice command without the
    prefix; the worker has popped it and is speaking it. *)
Definition bob_is_speaking : App :=
  set_speaking (Some "Bob")
    (set_queue [] (final_state (on_chat_message (chat "Bob" "/v 1 spam spam") 0 fresh_app))).

(** A back-end stop in the trace. *)
Definition is_backend_stop (e : event) : bool :=
  match e with
  | AudioStop | AudioStopAll | DectalkStop => true
  | _ => false
  end.

(** The wait of the worker for a message it is speaking in state [s]. *)
Definition worker_wait (env : Env) (msg : QueuedMsg) (s : App) : wait_exit * nat * App :=
  wait_loop wait_fuel env msg 0 0%float s.

(** An engine that is speaking at every poll ([RunningState] is
    [SRSEIsSpeaking]), and nobody interfering. *)
Definition busy_env : Env := mkEnv (fun _ => Some 2) (fun _ s => s) (fun s => s).

(** The same, with the chat thread handling the admin's [!block] while the
    synchronous DECtalk call of the worker runs. *)
Definition block_during_dectalk : Env :=
  mkEnv (fun _ => Some 2) (fun _ s => s)
        (fun s => final_state (on_chat_message (chat "Admin" "!block") 0 s)).

(** The back-end stops recorded in a trace. *)
Definition backend_stops (t : list event) : list event :=
  List.filter is_backend_stop t.

(** A text within ASCII.  On such texts the character tests of [PyStr] are
    the ones of Python: [str.lower] changes the letters A to Z only,
    [str.strip] and [\s] take the characters of [PyStr.is_space], [\d]
    and [str.isdigit] the digits 0 to 9. *)
Fixpoint ascii_text (s : string) : bool :=
  match s with
  | EmptyString => true
  | String c s' => (PyStr.code c <? 128)%nat && ascii_text s'
  end.

(** What [init_audio] leaves of [self.audio_manager].  The attribute is
    the [DirectOutputTTS] object only if no statement of the [try] block
    raises; with the dummy [DECtalkNative] that stands in when the import
    failed, the read of [self.dectalk_native.dectalk_path] raises, and the
    handler puts [None] back. *)
Definition init_audio_invariant (c : Config) : bool :=
  implb (audio_manager c) (dectalk_module c).

(** * The rest of the engine: producers, GUI entry points, voices

    The functions below are the callers and callees of the methods above:
    the two log monitors that produce the chat events, the long-form
    input, the application of a voice to the engine, and the parsers of
    the settings dialogs. *)

(** ** More of Python's [str] *)

Module PyText.

Definition dquote : ascii := "034"%char.

(** [s.rstrip(ch)] for a one-character argument. *)
Fixpoint rstrip_char (ch : ascii) (s : string) : string :=
  match s with
  | EmptyString => EmptyString
  | String c s' =>
      match rstrip_char ch s' with
      | EmptyString => if Ascii.eqb c ch then EmptyString else String c EmptyString
      | r => String c r
      end
  end.

(** [s.strip(ch)] for a one-character argument. *)
Definition strip_char (ch : ascii) (s : string) : string :=
  rstrip_char ch (PyStr.lstrip_char ch s).

(** The leftmost occurrence of a non-empty [sep] in [s]: the text before
    it and the text after it. *)
Fixpoint split_first (sep s : string) : option (string * string) :=
  if String.prefix sep s then Some (EmptyString, PyStr.drop (String.length sep) s)
  else
    match s with
    | EmptyString => None
    | String c s' =>
        match split_first sep s' with
        | Some (before, after) => Some (String c before, after)
        | None => None
        end
    end.

(** [s.split(sep, 1)] for a non-empty [sep]. *)
Definition split_once (sep s : string) : list string :=
  match split_first sep s with
  | Some (before, after) => [before; after]
  | None => [s]
  end.

(** [s.split(sep)] for a one-character [sep]: every field, empty ones too. *)
Fixpoint split_char (sep : ascii) (s : string) : list string :=
  match s with
  | EmptyString => [EmptyString]
  | String c s' =>
      if Ascii.eqb c sep then EmptyString :: split_char sep s'
      else
        match split_char sep s' with
        | f :: fs => String c f :: fs
        | [] => [String c EmptyString]
        end
  end.

(** [s.split()]: the maximal runs of non-blank characters. *)
Fixpoint split_ws (s : string) : list string :=
  match s with
  | EmptyString => []
  | String c s' =>
      if PyStr.is_space c then split_ws s'
      else
        match s' with
        | EmptyString => [String c EmptyString]
        | String c' _ =>
            if PyStr.is_space c' then String c EmptyString :: split_ws s'
            else
              match split_ws s' with
              | w :: ws => String c w :: ws
              | [] => [String c EmptyString]
              end
        end
  end.

(** [sep.join(parts)] *)
Fixpoint join (sep : string) (parts : list string) : string :=
  match parts with
  | [] => EmptyString
  | [p] => p
  | p :: rest => p +:+ sep +:+ join sep rest
  end.

(** [int(s)] for a string of ASCII digits; the accumulator is the value
    of the digits read so far. *)
Fixpoint int_of_digits (acc : Z) (s : string) : Z :=
  match s with
  | EmptyString => acc
  | String c s' => int_of_digits (10 * acc + Z.of_nat (PyStr.code c - 48))%Z s'
  end.

End PyText.

(** ** [TF2LogMonitor.parse_line] *)

(** The result is the event handed to the callbacks; its ['raw'] entry,
    which nothing reads, is left out. *)
Definition parse_line (line : string) : option ChatMsg :=
  let line := PyStr.strip line in
  if negb (PyStr.truthy line) then None
  else
    let is_dead := PyStr.contains "*DEAD*" line in
    let is_team := PyStr.contains "(TEAM)" line in
    let clean :=
      PyStr.strip (PyStr.replace (PyStr.replace line "*DEAD*" "") "(TEAM)" "") in
    if PyStr.contains " : " clean then
      match PyText.split_once " : " clean with
      | [before; after] =>
          let username := PyText.strip_char PyText.dquote (PyStr.strip before) in
          let message := PyStr.strip after in
          Some (mkChat username message is_dead is_team)
      | _ => None
      end
    else None.

(** The first character of [s] is a blank. *)
Definition starts_blank (s : string) : bool :=
  match s with
  | String c _ => PyStr.is_space c
  | EmptyString => false
  end.

(** What [parse_line] searches for the separator: the stripped line
    without its markers, stripped again. *)
Definition clean_line (line : string) : string :=
  PyStr.strip (PyStr.replace (PyStr.replace (PyStr.strip line) "*DEAD*" "") "(TEAM)" "").

(** ** [DRGLogMonitor]: the producer of the events of the other game *)

(** What [parse_csv_line] returns for a row that is not skipped: the
    event, its index and the flag [is_tts_command]; the fields nothing
    reads ([steamid], [timestamp], [raw]) are left out. *)
Record DrgParsed : Type := mkDrg {
  drg_event : ChatMsg;
  drg_index : Z;
  drg_is_tts_command : bool
}.

(** [parse_csv_line(self, row)]; the state is [self.last_line_index]. *)
Definition parse_csv_line (row : list string) (last_line_index : Z)
  : option DrgParsed * Z :=
  match row with
  | r0 :: _ :: _ :: username :: message :: _ =>
      let index := if PyStr.isdigit r0 then PyText.int_of_digits 0 r0 else (-1)%Z in
      (* skip if this line was processed already *)
      if (index <=? last_line_index)%Z then (None, last_line_index)
      else
        let last_line_index := Z.max last_line_index index in
        let is_tts_command := PyStr.startswith (PyStr.lower message) "!tts " in
        (Some (mkDrg (mkChat username message false false) index is_tts_command),
         last_line_index)
  | _ => (None, last_line_index)   (* len(row) < 5 *)
  end.

(** One pass of [monitor_loop] over the rows of the file: the events
    handed to the callbacks, in order, and the index reached. *)
Fixpoint drg_pass (rows : list (list string)) (last_line_index : Z)
  : list ChatMsg * Z :=
  match rows with
  | [] => ([], last_line_index)
  | row :: rest =>
      match parse_csv_line row last_line_index with
      | (Some parsed, last') =>
          let '(events, final) := drg_pass rest last' in
          if drg_is_tts_command parsed then (drg_event parsed :: events, final)
          else (events, final)
      | (None, last') => drg_pass rest last'
      end
  end.

(** The message as [on_chat_message] compares it with the commands. *)
Definition lowered_command (message : string) : string :=
  PyStr.strip (PyStr.lower (PyStr.strip message)).

(** ** [speak_longform] *)

(** The loop [for word in words] that cuts the text into lines for the
    game chat; [current_chunk] and [chunks] are the loop's variables, and
    the result is [chunks] after the statement that follows the loop. *)
Fixpoint chunk_loop (words : list string) (current_chunk : string)
         (chunks : list string) : list string :=
  match words with
  | [] => if PyStr.truthy current_chunk then chunks ++ [current_chunk] else chunks
  | word :: rest =>
      let test_chunk :=
        if PyStr.truthy current_chunk then current_chunk +:+ " " +:+ word else word in
      if (String.length test_chunk <=? 110)%nat then chunk_loop rest test_chunk chunks
      else
        chunk_loop rest word
          (if PyStr.truthy current_chunk then chunks ++ [current_chunk] else chunks)
  end.

(** The lines held by the loop: [chunks] and the line being filled. *)
Definition pending (current_chunk : string) (chunks : list string) : list string :=
  if PyStr.truthy current_chunk then chunks ++ [current_chunk] else chunks.

Definition longform_chunks (text : string) : list string :=
  chunk_loop (PyText.split_ws text) "" [].

Definition longform_user : string := "[Long-form Input]".

(** [speak_longform(self)]; the arguments are what the method reads from
    the widgets.  The result is the list of lines appended to the log
    file, and the state; the sleeps of 0.1 s between two lines are left
    out. *)
Definition speak_longform (longform_text selected_voice : string)
           (output_to_tf2 : bool) (log_path : string) (s : App)
  : list string * App :=
  let text := PyStr.strip longform_text in
  if negb (PyStr.truthy text) then
    ([], log_event (LogWarning "No text entered in long-form input") s)
  else
    let selected_voice :=
      if String.eqb selected_voice "Default" then None else Some selected_voice in
    let lines :=
      if output_to_tf2 && PyStr.truthy log_path then
        map (fun chunk => "say " +:+ String PyText.dquote chunk
                          +:+ String PyText.dquote "" +:+ nl)
            (longform_chunks text)
      else [] in
    (lines, speak text selected_voice (Some longform_user) s).

(** ** [apply_voice] and [apply_default_voice] *)

(** An entry of [self.voices]: the [Voice(name, id)] objects of
    [get_voices]. *)
Record Voice : Type := mkVoice { v_name : string; v_id : string }.

(** What the two methods read and write.  [set_voice_calls] lists the
    arguments of the calls of [audio_manager.set_voice], in order. *)
Record VoiceState : Type := mkVoiceState {
  voices : list Voice;                   (* self.voices *)
  voice_manager : bool;                  (* self.audio_manager is not None *)
  default_voice : string;                (* config.get('default_voice', '') *)
  current_voice_id : option string;      (* None until a voice is applied *)
  set_voice_calls : list string
}.

Section VoiceEngine.
(** The answer of [audio_manager.set_voice(id)], which may depend on the
    calls made before. *)
Variable engine_accepts : list string -> string -> bool.

(** [audio_manager.set_voice(voice.id)] *)
Definition engine_set_voice (voice : Voice) (st : VoiceState) : bool * VoiceState :=
  (engine_accepts (set_voice_calls st) (v_id voice),
   mkVoiceState (voices st) (voice_manager st) (default_voice st)
                (current_voice_id st) (set_voice_calls st ++ [v_id voice])).

Definition set_current_voice_id (voice : Voice) (st : VoiceState) : VoiceState :=
  mkVoiceState (voices st) (voice_manager st) (default_voice st)
               (Some (v_id voice)) (set_voice_calls st).

(** The body of both loops of [apply_voice] at the voice that matches. *)
Definition select_voice (voice : Voice) (st : VoiceState) : bool * VoiceState :=
  if bool_decide (current_voice_id st = Some (v_id voice)) then (true, st)
  else
    let '(success, st) := engine_set_voice voice st in
    (success, if success then set_current_voice_id voice st else st).

Definition exact_match (voice_name : string) (voice : Voice) : bool :=
  String.eqb (v_name voice) voice_name.

Definition partial_match (voice_name : string) (voice : Voice) : bool :=
  PyStr.contains (PyStr.lower voice_name) (PyStr.lower (v_name voice))
  || PyStr.contains (PyStr.lower (v_name voice)) (PyStr.lower voice_name).

(** [apply_voice(self, voice_name)] *)
Definition apply_voice (voice_name : string) (st : VoiceState) : bool * VoiceState :=
  if match voices st with [] => false | _ :: _ => true end && voice_manager st then
    if PyStr.startswith voice_name "[DECtalk] " then (true, st)
    else
      match List.find (exact_match voice_name) (voices st) with
      | Some voice => select_voice voice st
      | None =>
          match List.find (partial_match voice_name) (voices st) with
          | Some voice => select_voice voice st
          | None => (false, st)
          end
      end
  else (false, st).

(** [apply_default_voice(self)] *)
Definition apply_default_voice (st : VoiceState) : bool * VoiceState :=
  if PyStr.truthy (default_voice st) && voice_manager st then
    match List.find (exact_match (default_voice st)) (voices st) with
    | Some voice =>
        if bool_decide (current_voice_id st = Some (v_id voice)) then (true, st)
        else
          let '(_, st) := engine_set_voice voice st in
          (true, set_current_voice_id voice st)
    | None => (false, st)
    end
  else (false, st).
End VoiceEngine.

(** ** What one call of [on_chat_message] may change *)

(** An entry that a call for [msg] may add to the speech queue. *)
Definition chat_entry (msg : ChatMsg) (q : QueuedMsg) : Prop :=
  q_text q <> ""
  /\ (q_username q = Some (m_username msg) \/ q_username q = None
      \/ q_username q = Some announcement_user).

(** The user names [on_chat_message] speaks under. *)
Definition chat_user (msg : ChatMsg) (u : option string) : Prop :=
  u = Some (m_username msg) \/ u = None.

(** [s] is a state that a call for [msg] started in [s0] may reach. *)
Definition chat_step (msg : ChatMsg) (s0 s : App) : Prop :=
  config s = config s0
  /\ (forall q, q ∈ message_queue s -> q ∈ message_queue s0 \/ chat_entry msg q)
  /\ (last_speaker s = last_speaker s0 \/ last_speaker s = Some (m_username msg))
  /\ (currently_speaking_user s = currently_speaking_user s0
      \/ currently_speaking_user s = None)
  /\ (forall u, u <> m_username msg ->
        user_voice_preferences s !! u = user_voice_preferences s0 !! u)
  /\ (m_username msg ∉ admin_listbox s0 ->
      admin_listbox s = admin_listbox s0
      /\ (blocked_listbox s = blocked_listbox s0
          \/ ((m_username msg ∉ blocked_listbox s0)
              /\ blocked_listbox s = blocked_listbox s0 ++ [m_username msg])))
  /\ (NoDup (blocked_listbox s0) -> NoDup (blocked_listbox s)).

(** The outcome [o] of a call for [msg] started in [s0]: the state it ends
    in, and when it can be an exception. *)
Definition chat_ok (msg : ChatMsg) (s0 : App) (o : outcome unit) : Prop :=
  chat_step msg s0 (final_state o)
  /\ (raised o <> None ->
      m_username msg ∈ admin_listbox s0 /\ last_speaker s0 = None).

(** ** The settings that are read back from text *)

(** [save_auto_block]: the keywords kept from the text of the box,
    [[line.strip() for line in text.split(NEWLINE) if line.strip()]]. *)
Definition save_auto_block (text : string) : list string :=
  omap (fun line =>
          if PyStr.truthy (PyStr.strip line) then Some (PyStr.strip line) else None)
       (PyText.split_char "010"%char text).

(** The entry of a user in the list box of the voice preferences,
    [f"{username}: {voice}"]. *)
Definition user_voice_entry (username voice : string) : string :=
  username +:+ ": " +:+ voice.

(** The body of the loop of [save_user_voices] for one entry. *)
Definition save_user_voice (prefs : gmap string string) (entry : string)
  : gmap string string :=
  if PyStr.contains ":" entry then
    match PyText.split_once ":" entry with
    | [username; voice] => <[PyStr.strip username := PyStr.strip voice]> prefs
    | _ => prefs
    end
  else prefs.

(** [save_user_voices]: the preferences read back from the list box. *)
Definition save_user_voices (entries : list string) : gmap string string :=
  foldl save_user_voice ∅ entries.

(** A well-formed pair: the name has no colon, and neither the name nor
    the voice has blanks at its ends. *)
Definition well_formed_entry (e : string * string) : Prop :=
  PyStr.contains ":" (fst e) = false
  /\ PyStr.strip (fst e) = fst e /\ PyStr.strip (snd e) = snd e.

(** ** Texts that a pattern reads in one piece *)

(** Every character of [s] is in the class. *)
Fixpoint every (cls : ascii -> bool) (s : string) : bool :=
  match s with
  | EmptyString => true
  | String c s' => cls c && every cls s'
  end.

(** A run of the class cannot go on into [s]. *)
Definition stops (cls : ascii -> bool) (s : string) : bool :=
  match s with
  | EmptyString => true
  | String c _ => negb (cls c)
  end.

(** A text as a voice command takes it: not empty, not starting with a
    blank, all on one line. *)
Definition spoken_text (t : string) : bool :=
  PyStr.truthy t && stops PyStr.is_space t && every Re.dot t.

(** ** The triggers of the voice commands *)

(** [r'^v \d+$'] *)
Definition re_legacy_trigger : Re.t :=
  Re.Seq (Re.Lit "v ") (Re.Seq (Re.Plus PyStr.is_digit) Re.Eol).

(** [r'^[a-zA-Z0-9_]+$'] *)
Definition re_plain_trigger : Re.t := Re.Seq (Re.Plus PyStr.is_word) Re.Eol.

(** [validate_command_trigger(self, trigger)] *)
Definition validate_command_trigger (trigger : string) : bool * string :=
  if negb (PyStr.truthy trigger) then (false, "Command trigger cannot be empty")
  else if Re.is_match re_legacy_trigger trigger then (true, "")
  else if negb (Re.is_match re_plain_trigger trigger) then
    (false, "Command trigger must be alphanumeric (or use 'v [number]' format)")
  else if (20 <? String.length trigger)%nat then
    (false, "Command trigger must be 20 characters or less")
  else (true, "").

(** [f'{i}'] for the numbers below ten, the only ones the method formats. *)
Definition digit_text (i : nat) : string := String (ascii_of_nat (48 + i)) "".

(** The numbered shortcuts of the first ten voices, from [n] on. *)
Fixpoint numbered_commands (n : nat) (voices : list Voice) : list (string * string) :=
  match voices with
  | [] => []
  | voice :: rest =>
      if (n <? 10)%nat
      then ("v " +:+ digit_text n, v_name voice) :: numbered_commands (S n) rest
      else []
  end.

Definition dectalk_shortcuts : list (string * string) :=
  [("paul", "[DECtalk] Perfect Paul"); ("betty", "[DECtalk] Betty");
   ("harry", "[DECtalk] Harry"); ("frank", "[DECtalk] Frank");
   ("dennis", "[DECtalk] Dennis"); ("kit", "[DECtalk] Kit");
   ("ursula", "[DECtalk] Ursula"); ("rita", "[DECtalk] Rita");
   ("wendy", "[DECtalk] Wendy"); ("sings", "[DECtalk] DECtalk Sings")].

(** The dict that [auto_generate_voice_commands] builds, in the order of
    insertion; [dectalk_available] is
    [self.dectalk_native and self.dectalk_native.is_available()]. *)
Definition auto_generate_voice_commands (voices : list Voice) (dectalk_available : bool)
  : list (string * string) :=
  numbered_commands 0 voices ++ (if dectalk_available then dectalk_shortcuts else []).

(** A text of the class [cls] on one line: the text itself, or the text
    and the newline that the end-of-line anchor lets pass. *)
Definition class_line (cls : ascii -> bool) (a s : string) : Prop :=
  a <> "" /\ every cls a = true /\ (s = a \/ s = a +:+ nl).

(** The end-of-line anchor as the last step of a pattern. *)
Definition to_end (rest : string) (caps : Re.captures) : option Re.captures :=
  Re.run Re.Eol rest caps (fun _ caps' => Some caps').

(** * Properties *)

(** ** Basic facts about the string model and the state *)

Lemma truthy_nonempty (u : string) : u <> "" -> PyStr.truthy u = true.
Proof. destruct u; [congruence | reflexivity]. Qed.

Lemma truthy_true_nonempty (u : string) : PyStr.truthy u = true -> u <> "".
Proof. destruct u; simpl; congruence. Qed.

Lemma py_in_true (x : string) (l : list string) : py_in x l = true <-> x ∈ l.
Proof. unfold py_in. apply bool_decide_eq_true. Qed.

Lemma py_in_false (x : string) (l : list string) : py_in x l = false <-> x ∉ l.
Proof. unfold py_in. apply bool_decide_eq_false. Qed.

Lemma other_user_spec (u : string) (m : QueuedMsg) :
  other_user u m = true <-> q_username m <> Some u.
Proof.
  unfold other_user. rewrite negb_true_iff, bool_decide_eq_false. reflexivity.
Qed.

Section StopAttempts.
Variable n : nat.

Lemma stop_attempts_queue (s : App) :
  message_queue (stop_attempts n s) = message_queue s.
Proof. revert s. induction n as [|k IH]; intros s; simpl; [reflexivity | now rewrite IH]. Qed.

Lemma stop_attempts_blocked (s : App) :
  blocked_listbox (stop_attempts n s) = blocked_listbox s.
Proof. revert s. induction n as [|k IH]; intros s; simpl; [reflexivity | now rewrite IH]. Qed.

Lemma stop_attempts_trace (s : App) :
  trace (stop_attempts n s)
  = trace s ++ concat (replicate n [AudioStopAll; Sleep50ms]).
Proof.
  revert s. induction n as [|k IH]; intros s; simpl.
  - now rewrite app_nil_r.
  - rewrite IH. simpl. now rewrite <- !app_assoc.
Qed.
End StopAttempts.

(** What [clear_user_from_queue] leaves of the queue, whatever the flag. *)
Lemma clear_user_queue (u : string) (flag : bool) (s : App) :
  u <> "" ->
  message_queue (clear_user_from_queue (Some u) flag s)
  = filter (fun m => other_user u m = true) (message_queue s).
Proof.
  intros Hu. unfold clear_user_from_queue.
  rewrite (truthy_nonempty u Hu). simpl.
  repeat match goal with |- context [if ?b then _ else _] => destruct b end;
    simpl; rewrite ?stop_attempts_queue; reflexivity.
Qed.

Lemma clear_user_blocked (u : string) (s : App) :
  u <> "" ->
  blocked_listbox (clear_user_from_queue (Some u) true s)
  = if py_in u (blocked_listbox s) then blocked_listbox s else blocked_listbox s ++ [u].
Proof.
  intros Hu. unfold clear_user_from_queue.
  rewrite (truthy_nonempty u Hu). simpl.
  destruct (py_in u (blocked_listbox s)); simpl;
  repeat match goal with |- context [if ?b then _ else _] => destruct b end;
    simpl; rewrite ?stop_attempts_blocked; reflexivity.
Qed.

(** The two facts about [clear_user_from_queue] that the handlers of
    [!block] and of the auto-block rely on. *)
Lemma purge_facts (u : string) (s : App) :
  u <> "" ->
  u ∈ blocked_listbox (clear_user_from_queue (Some u) true s)
  /\ message_queue (clear_user_from_queue (Some u) true s)
     = filter (fun m => q_username m <> Some u) (message_queue s).
Proof.
  intros Hu. split.
  - rewrite clear_user_blocked by assumption.
    destruct (py_in u (blocked_listbox s)) eqn:E.
    + now apply py_in_true.
    + apply elem_of_app. right. apply list_elem_of_singleton. reflexivity.
  - rewrite clear_user_queue by assumption.
    apply list_filter_iff. intros m. apply other_user_spec.
Qed.

(** ** C2: purge on block *)

(** The worker drops a popped message whose user is in the blocked list
    without touching anything else, so nothing of it is spoken. *)
Lemma worker_drops_blocked (env : Env) (rnd : nat) (t : App) (m : QueuedMsg)
      (rest : list QueuedMsg) :
  message_queue t = m :: rest ->
  py_in_opt (q_username m) (blocked_listbox t) = true ->
  process_speech_queue_turn env rnd t = (None, set_queue rest t).
Proof.
  intros Ht Hm.
  unfold process_speech_queue_turn, speak_message. rewrite Ht.
  cbn [blocked_listbox set_queue]. now rewrite Hm.
Qed.

(** C2, where the code departs from it: the utterance in flight is not
    stopped.  [clear_user_from_queue] stops the back end only "if it's
    from this user", that is if [currently_speaking_user] names the
    blocked user, and the worker resets that marker as soon as its wait
    ends; the wait ends at its first test, [is_speaking()] being [False]
    whatever the engine does.

    Bob writes [!tts spam spam spam]; the worker pops the message and
    hands it to the engine, which starts to speak, and the worker's turn
    is over at once, the marker reset.  The admin's [!block] then blocks
    Bob, and the trace holds no back-end stop at all: the engine goes on
    speaking Bob's text.

    Bob writes [!tts /v 3 hello], spoken by the synchronous DECtalk call,
    during which the marker does name Bob.  The admin's [!block] arrives
    during that call: the stop is called three times, each time the
    [stop_all_speech] of the audio manager, which reaches the SAPI engine
    only; the stop of DECtalk is never called. *)
Theorem C2_block_leaves_speech_running (env : Env) :
  let s1 := final_state (on_chat_message (chat "Bob" "!tts spam spam spam") 0 fresh_app) in
  let turn := process_speech_queue_turn env 0 s1 in
  let s3 := final_state (on_chat_message (chat "Admin" "!block") 0 (snd turn)) in
  let d1 := final_state (on_chat_message (chat "Bob" "!tts /v 3 hello") 0 fresh_app) in
  let d2 := snd (process_speech_queue_turn block_during_dectalk 0 d1) in
  (message_queue s1 = [mkQueued "spam spam spam" None (Some "Bob")]
   /\ fst turn = Some (SpeechCompleted, 0)
   /\ trace (snd turn) = trace s1 ++ [ApplyDefaultVoice; AudioSpeak "spam spam spam"]
   /\ currently_speaking_user (snd turn) = None
   /\ blocked_listbox s3 = ["Bob"]
   /\ backend_stops (trace s3) = [])
  /\ (message_queue d1 = [mkQueued "hello" (Some "[DECtalk] Betty") (Some "Bob")]
      /\ blocked_listbox d2 = ["Bob"]
      /\ DectalkSpeak "hello" "Betty" ∈ trace d2
      /\ backend_stops (trace d2) = [AudioStopAll; AudioStopAll; AudioStopAll]
      /\ DirectOutputTTS.stop_all_speech = [DirectOutputTTS.SapiStopSpeech]).
Proof.
  vm_compute. split.
  - repeat split.
  - split; [reflexivity|]. split; [reflexivity|]. split; [|split; reflexivity].
    repeat first [ apply list_elem_of_here | apply list_elem_of_further ].
Qed.

(** ** C6: voice resolution *)

Lemma available_voices_truthy (c : Config) (v : string) :
  v ∈ available_voices c -> PyStr.truthy v = true.
Proof.
  unfold available_voices. rewrite elem_of_app, !list_elem_of_omap.
  intros [[[k vn] [_ Hf]] | [p [_ Hf]]].
  - destruct (PyStr.truthy vn) eqn:Hv; simpl in Hf; [|discriminate].
    destruct (_ && _) in Hf; [|discriminate].
    now injection Hf as <-.
  - destruct (negb _) in Hf; [|discriminate].
    injection Hf as <-. reflexivity.
Qed.

Lemma nth_mod_in (pool : list string) (v0 : string) (rnd : nat) :
  pool <> [] -> nth (rnd mod length pool) pool v0 ∈ pool.
Proof.
  intros Hne. apply list_elem_of_In, nth_In.
  apply Nat.mod_upper_bound. destruct pool; [congruence | discriminate].
Qed.

(** The draw of [get_random_voice_for_user] is a voice of the pool and
    becomes the user's preference. *)
Lemma random_voice_drawn (u : string) (rnd : nat) (s : App) :
  available_voices (config s) <> [] ->
  exists v, v ∈ available_voices (config s)
            /\ get_random_voice_for_user u rnd s
               = (Some v, log_event SaveConfig
                            (set_prefs (<[u := v]> (user_voice_preferences s)) s)).
Proof.
  intros Hne. unfold get_random_voice_for_user.
  destruct (available_voices (config s)) as [|v0 pool] eqn:E; [congruence|].
  eexists. split; [|reflexivity].
  apply nth_mod_in. discriminate.
Qed.

Section ResolveCases.
Variables (u : string) (rnd : nat) (s : App).

Lemma resolve_empty_name :
  PyStr.truthy u = false -> resolve_voice (Some u) rnd s = (None, s).
Proof. intros Hu. unfold resolve_voice. now rewrite Hu. Qed.

Lemma resolve_preference (pv : string) :
  PyStr.truthy u = true -> user_voice_preferences s !! u = Some pv ->
  resolve_voice (Some u) rnd s = (Some pv, s).
Proof. intros Hu Hp. unfold resolve_voice. now rewrite Hu, Hp. Qed.

Lemma resolve_default :
  PyStr.truthy u = true -> user_voice_preferences s !! u = None ->
  random_voice_enabled (config s) = false ->
  resolve_voice (Some u) rnd s = (None, s).
Proof. intros Hu Hp Hr. unfold resolve_voice. now rewrite Hu, Hp, Hr. Qed.

Lemma resolve_empty_pool :
  PyStr.truthy u = true -> user_voice_preferences s !! u = None ->
  random_voice_enabled (config s) = true ->
  available_voices (config s) = [] ->
  resolve_voice (Some u) rnd s
  = (None, log_event (LogWarning "No voices available for random assignment (all excluded?)") s).
Proof.
  intros Hu Hp Hr Hpool. unfold resolve_voice, get_random_voice_for_user.
  now rewrite Hu, Hp, Hr, Hpool.
Qed.

Lemma resolve_draw :
  PyStr.truthy u = true -> user_voice_preferences s !! u = None ->
  random_voice_enabled (config s) = true ->
  available_voices (config s) <> [] ->
  exists v, v ∈ available_voices (config s)
            /\ resolve_voice (Some u) rnd s
               = (Some v, log_event SaveConfig
                            (set_prefs (<[u := v]> (user_voice_preferences s)) s)).
Proof.
  intros Hu Hp Hr Hpool.
  destruct (random_voice_drawn u rnd s Hpool) as (v & Hin & Hdraw).
  exists v. split; [assumption|].
  unfold resolve_voice. rewrite Hu, Hp, Hr, Hdraw. simpl.
  now rewrite (available_voices_truthy _ _ Hin).
Qed.
End ResolveCases.

(** C6.  Resolving the voice of a user twice, with nothing but the first
    resolution in between, gives the same voice both times, whatever the
    two random draws are, and the second resolution leaves the preferences
    as the first left them.  With random assignment on and no preference
    yet: if the pool after exclusions is empty the answer is the default
    voice ([None]), one warning is logged and nothing else changes (the
    function returns, it does not raise); otherwise the first draw is a
    voice of the pool and is stored as the user's preference, which the
    second resolution returns without drawing. *)
Theorem C6_resolve_idempotent (username : option string) (rnd1 rnd2 : nat) (s : App) :
  let r1 := resolve_voice username rnd1 s in
  let r2 := resolve_voice username rnd2 (snd r1) in
  fst r2 = fst r1
  /\ user_voice_preferences (snd r2) = user_voice_preferences (snd r1)
  /\ (forall u,
        username = Some u -> u <> "" ->
        user_voice_preferences s !! u = None ->
        random_voice_enabled (config s) = true ->
        match available_voices (config s) with
        | [] =>
            fst r1 = None
            /\ snd r1 = log_event
                 (LogWarning "No voices available for random assignment (all excluded?)") s
        | _ :: _ =>
            exists v, fst r1 = Some v
                      /\ v ∈ available_voices (config s)
                      /\ user_voice_preferences (snd r1) !! u = Some v
                      /\ r2 = (Some v, snd r1)
        end).
Proof.
  cbv zeta.
  destruct username as [u|]; [|simpl; split; [reflexivity|split; [reflexivity|discriminate]]].
  destruct (PyStr.truthy u) eqn:Hu.
  2:{ rewrite (resolve_empty_name u rnd1 s Hu). cbn [fst snd].
      rewrite (resolve_empty_name u rnd2 s Hu).
      split; [reflexivity|]. split; [reflexivity|].
      intros u' [= <-] Hne. apply truthy_nonempty in Hne. congruence. }
  destruct (user_voice_preferences s !! u) as [pv|] eqn:Hp.
  { rewrite (resolve_preference u rnd1 s pv Hu Hp). cbn [fst snd].
    rewrite (resolve_preference u rnd2 s pv Hu Hp).
    split; [reflexivity|]. split; [reflexivity|].
    intros u' [= <-] _ Hnone. congruence. }
  destruct (random_voice_enabled (config s)) eqn:Hr.
  2:{ rewrite (resolve_default u rnd1 s Hu Hp Hr). cbn [fst snd].
      rewrite (resolve_default u rnd2 s Hu Hp Hr).
      split; [reflexivity|]. split; [reflexivity|]. discriminate. }
  destruct (available_voices (config s)) as [|v0 pool] eqn:Hpool.
  - rewrite (resolve_empty_pool u rnd1 s Hu Hp Hr Hpool). cbn [fst snd].
    rewrite (resolve_empty_pool u rnd2
               (log_event (LogWarning "No voices available for random assignment (all excluded?)") s)
               Hu Hp Hr Hpool).
    split; [reflexivity|]. split; [reflexivity|].
    intros u' [= <-] _ _ _. split; reflexivity.
  - destruct (resolve_draw u rnd1 s Hu Hp Hr) as (v & Hin & Hdraw);
      [rewrite Hpool; discriminate|].
    rewrite Hdraw. cbn [fst snd].
    assert (Hp' : user_voice_preferences
                    (log_event SaveConfig
                       (set_prefs (<[u := v]> (user_voice_preferences s)) s)) !! u = Some v)
      by (simpl; apply lookup_insert_eq).
    rewrite (resolve_preference u rnd2 _ v Hu Hp'). cbn [fst snd].
    split; [reflexivity|]. split; [reflexivity|].
    intros u' [= <-] _ _ _. exists v.
    rewrite Hpool in Hin. repeat split; assumption.
Qed.

(** A run of C6: random assignment on, pool [Sam; Paul; Betty], no
    preference for Bob; draws 4 and 0. *)
Lemma C6_resolve_idempotent_witness :
  let c := mkConfig true [] false "!tts" "/vt" [("v 1", "Sam"); ("paul", "Paul")]
             true [] ["Betty"] ∅ ∅ "Zira" true true true true "Default" in
  let s := mkApp c [] [] [] None None ∅ [] in
  fst (resolve_voice (Some "Bob") 4 s) = Some "Paul"
  /\ resolve_voice (Some "Bob") 0 (snd (resolve_voice (Some "Bob") 4 s))
     = (Some "Paul", snd (resolve_voice (Some "Bob") 4 s)).
Proof.
  intros c s.
  destruct (C6_resolve_idempotent (Some "Bob") 4 0 s) as (_ & _ & H).
  specialize (H "Bob" eq_refl ltac:(discriminate) eq_refl eq_refl).
  simpl in H. destruct H as (v & H1 & _ & _ & H2).
  assert (Hv : v = "Paul") by (vm_compute in H1; congruence).
  subst v. split; [exact H1 | exact H2].
Defined.

(** ** The stages of [on_chat_message] *)

(** Projections of updated records, without unfolding the methods. *)
Ltac fields :=
  cbn [config blocked_listbox admin_listbox message_queue currently_speaking_user
       last_speaker user_voice_preferences trace
       set_blocked set_admins set_queue set_speaking set_last_speaker set_prefs
       log_event queue_put shown app fst snd].

Ltac run_monad :=
  unfold call, emit, cfg; unfold bind, ret, gets, modify, raise; cbn beta iota.

Lemma on_chat_blocked (msg : ChatMsg) (rnd : nat) (s : App) :
  m_username msg ∈ blocked_listbox s ->
  on_chat_message msg rnd s = Returned tt (shown msg s).
Proof.
  intros Hb. apply py_in_true in Hb.
  unfold on_chat_message. run_monad. cbn [blocked_listbox log_event].
  now rewrite Hb.
Qed.

Lemma on_chat_not_blocked (msg : ChatMsg) (rnd : nat) (s : App) :
  m_username msg ∉ blocked_listbox s ->
  on_chat_message msg rnd s = auto_block_check msg rnd (shown msg s).
Proof.
  intros Hb. apply py_in_false in Hb.
  unfold on_chat_message. run_monad. cbn [blocked_listbox log_event].
  now rewrite Hb.
Qed.

Lemma auto_block_check_fires (msg : ChatMsg) (rnd : nat) (s : App) :
  auto_block_fires (config s) (m_message msg) = true ->
  auto_block_check msg rnd s = auto_block msg s.
Proof.
  unfold auto_block_fires, auto_block_check. run_monad.
  intros [Hon Hhit]%andb_true_iff. rewrite Hon.
  apply bool_decide_eq_true in Hhit. destruct Hhit as [k Hk]. now rewrite Hk.
Qed.

Lemma auto_block_check_quiet (msg : ChatMsg) (rnd : nat) (s : App) :
  auto_block_fires (config s) (m_message msg) = false ->
  auto_block_check msg rnd s = admin_commands msg rnd s.
Proof.
  unfold auto_block_fires, auto_block_check. run_monad.
  destruct (auto_block_var (config s)); [|reflexivity].
  simpl. intros Hhit. apply bool_decide_eq_false in Hhit.
  destruct (auto_block_scan _ _); [|reflexivity].
  exfalso. apply Hhit. eauto.
Qed.

(** The voice-command block decides by the step-7 predicate. *)
Lemma voice_command_rules_spec (msg : ChatMsg) (message : string) (s : App) :
  voice_command_rules msg message s
  = if non_prefixed_voice_command (voice_commands (config s)) message
    then Returned tt (process_voice_command message (Some (m_username msg)) s)
    else Returned tt s.
Proof.
  unfold voice_command_rules, non_prefixed_voice_command. run_monad.
  destruct (Re.is_match re_v_number message); [reflexivity|]. cbn [orb].
  match goal with |- context [if (if ?a then ?b else false) then _ else _] =>
    replace (if a then b else false) with (a && b) by (destruct a; reflexivity)
  end.
  destruct (PyStr.startswith message "/" && _); [reflexivity|]. cbn [orb].
  destruct (PyStr.startswith message "v " && _ && _); [reflexivity|]. cbn [orb].
  destruct (dict_has _ _); reflexivity.
Qed.

(** A sender who is no admin gets through none of the admin blocks: with
    private mode on, the whole of the admin commands, the prefixed branch
    and the voice-command block leave the state as it is. *)
Lemma admin_commands_private_non_admin (msg : ChatMsg) (rnd : nat) (s : App) :
  private_mode_var (config s) = true ->
  m_username msg ∉ admin_listbox s ->
  admin_commands msg rnd s = Returned tt s.
Proof.
  intros Hpriv Hadm%py_in_false.
  unfold admin_commands, stop_rule, block_rule, admin_add_rule, block_clear_rule,
    tts_rule, private_mode_gate.
  repeat (run_monad; rewrite ?Hadm, ?Hpriv; cbn [andb negb]; try reflexivity;
          match goal with
          | |- context [if ?b then _ else _] => destruct b
          end).
Qed.

(** ** C10: the private-mode gate *)

(** C10.  With private mode on: a message of a sender who is not an admin,
    not blocked, and whose text trips no auto-block keyword changes nothing
    but the chat display, whether it carries the TTS prefix, is a
    non-prefixed voice command or anything else; nothing is enqueued.  The
    checks that come before the gate are not affected by it: a blocked
    sender is dropped, a keyword hit blocks the sender through the
    auto-block path, an admin's [!stop] is carried out, and the gate itself
    lets an admin's message through to the voice-command block. *)
Theorem C10_private_mode_gate (msg : ChatMsg) (rnd : nat) (s : App) :
  private_mode_var (config s) = true ->
  (m_username msg ∉ admin_listbox s ->
   m_username msg ∉ blocked_listbox s ->
   auto_block_fires (config s) (m_message msg) = false ->
   on_chat_message msg rnd s = Returned tt (shown msg s)
   /\ message_queue (final_state (on_chat_message msg rnd s)) = message_queue s)
  /\ (m_username msg ∈ blocked_listbox s ->
      on_chat_message msg rnd s = Returned tt (shown msg s))
  /\ (m_username msg ∉ blocked_listbox s ->
      auto_block_fires (config s) (m_message msg) = true ->
      on_chat_message msg rnd s = auto_block msg (shown msg s))
  /\ (m_username msg ∈ admin_listbox s ->
      m_username msg ∉ blocked_listbox s ->
      auto_block_fires (config s) (m_message msg) = false ->
      PyStr.strip (PyStr.lower (PyStr.strip (m_message msg))) = "!stop" ->
      PyStr.lower (tts_command_prefix (config s) +:+ " stop") <> "!stop" ->
      on_chat_message msg rnd s
      = Returned tt (log_event (ChatDisplay ("[SYSTEM] Speech stopped by "
                                             +:+ m_username msg +:+ nl))
                               (stop_all_speech (shown msg s))))
  /\ (m_username msg ∈ admin_listbox s ->
      forall message,
        private_mode_gate msg message (admin_listbox s) s
        = voice_command_rules msg message s).
Proof.
  intros Hpriv. repeat split.
  - rewrite on_chat_not_blocked, auto_block_check_quiet by assumption.
    now apply admin_commands_private_non_admin.
  - rewrite on_chat_not_blocked, auto_block_check_quiet by assumption.
    now rewrite admin_commands_private_non_admin.
  - apply on_chat_blocked.
  - intros Hb Hf. rewrite on_chat_not_blocked by assumption.
    now apply auto_block_check_fires.
  - intros Hadm%py_in_true Hb Hf Hstop Hpre.
    rewrite on_chat_not_blocked, auto_block_check_quiet by assumption.
    unfold admin_commands, stop_rule. run_monad.
    cbn [admin_listbox config shown log_event]. rewrite Hstop, Hadm.
    apply String.eqb_neq in Hpre. rewrite String.eqb_sym in Hpre. rewrite Hpre.
    reflexivity.
  - intros Hadm%py_in_true message. unfold private_mode_gate. run_monad.
    rewrite Hadm, Hpriv. reflexivity.
Qed.

(** A run of C10: Bob, no admin, sends a prefixed message in private mode. *)
Lemma C10_private_mode_gate_witness :
  on_chat_message (chat "Bob" "!tts hello there") 0 private_app
  = Returned tt (shown (chat "Bob" "!tts hello there") private_app).
Proof.
  destruct (C10_private_mode_gate (chat "Bob" "!tts hello there") 0 private_app eq_refl)
    as [Hgate _].
  apply Hgate.
  - apply (proj1 (py_in_false _ _)). reflexivity.
  - apply (proj1 (py_in_false _ _)). reflexivity.
  - reflexivity.
Defined.

(** ** C1: messages without the TTS prefix *)

Lemma moderation_command_false (prefix message : string) :
  moderation_command prefix message = false ->
  let lowered := PyStr.strip (PyStr.lower (PyStr.strip message)) in
  String.eqb lowered (PyStr.lower (prefix +:+ " stop")) = false
  /\ String.eqb lowered "!stop" = false
  /\ String.eqb lowered "!block add" = false
  /\ String.eqb lowered "!block" = false
  /\ String.eqb lowered "!admin add" = false
  /\ String.eqb lowered "!block clear" = false.
Proof.
  unfold moderation_command. cbv zeta.
  rewrite !orb_false_iff. tauto.
Qed.

(** A message that is none of the moderation commands reaches the
    prefixed branch. *)
Lemma admin_commands_pass (msg : ChatMsg) (rnd : nat) (s : App) :
  moderation_command (tts_command_prefix (config s)) (m_message msg) = false ->
  admin_commands msg rnd s
  = tts_rule msg (PyStr.strip (m_message msg)) (admin_listbox s) rnd s.
Proof.
  intros (H1 & H2 & H3 & H4 & H5 & H6)%moderation_command_false.
  unfold admin_commands, stop_rule, block_rule, admin_add_rule, block_clear_rule.
  run_monad. now rewrite H1, H2, H3, H4, H5, H6.
Qed.

Lemma tts_rule_not_prefixed (msg : ChatMsg) (message : string) (rnd : nat) (s : App) :
  PyStr.startswith message (tts_command_prefix (config s) +:+ " ") = false ->
  tts_rule msg message (admin_listbox s) rnd s
  = if private_mode_var (config s) && negb (py_in (m_username msg) (admin_listbox s))
    then Returned tt s
    else voice_command_rules msg message s.
Proof.
  intros Hp. unfold tts_rule, private_mode_gate. run_monad. rewrite Hp.
  destruct (_ && _); reflexivity.
Qed.

Lemma enqueues_refl (s : App) : enqueues_at_most_one s s.
Proof. unfold enqueues_at_most_one. tauto. Qed.

Lemma speak_enqueues (s0 s : App) (text : string) (v u : option string) :
  message_queue s = message_queue s0 -> config s = config s0 ->
  blocked_listbox s = blocked_listbox s0 -> admin_listbox s = admin_listbox s0 ->
  currently_speaking_user s = currently_speaking_user s0 ->
  last_speaker s = last_speaker s0 ->
  enqueues_at_most_one s0 (speak text v u s).
Proof.
  intros Hq Hc Hb Ha Hcur Hl. unfold enqueues_at_most_one, speak, queue_put.
  destruct (audio_manager (config s)); simpl; rewrite ?Hq, ?Hc, ?Hb, ?Ha, ?Hcur, ?Hl;
    repeat split; eauto.
Qed.

Lemma speak_if_text_enqueues (s0 s : App) (text : string) (v u : option string) :
  message_queue s = message_queue s0 -> config s = config s0 ->
  blocked_listbox s = blocked_listbox s0 -> admin_listbox s = admin_listbox s0 ->
  currently_speaking_user s = currently_speaking_user s0 ->
  last_speaker s = last_speaker s0 ->
  enqueues_at_most_one s0 (speak_if_text text v u s).
Proof.
  intros Hq Hc Hb Ha Hcur Hl. unfold speak_if_text.
  destruct (PyStr.truthy text); [now apply speak_enqueues|].
  unfold enqueues_at_most_one. rewrite Hq, Hc, Hb, Ha, Hcur, Hl. tauto.
Qed.

Lemma speak_with_voice_if_text_enqueues (s0 s : App) (text v : string) (u : option string) :
  message_queue s = message_queue s0 -> config s = config s0 ->
  blocked_listbox s = blocked_listbox s0 -> admin_listbox s = admin_listbox s0 ->
  currently_speaking_user s = currently_speaking_user s0 ->
  last_speaker s = last_speaker s0 ->
  enqueues_at_most_one s0 (speak_with_voice_if_text text v u s).
Proof.
  intros Hq Hc Hb Ha Hcur Hl. unfold speak_with_voice_if_text, speak_with_voice.
  destruct (PyStr.truthy text); [destruct (negb _); [|now apply speak_enqueues]|];
    unfold enqueues_at_most_one; rewrite Hq, Hc, Hb, Ha, Hcur, Hl; tauto.
Qed.

(** [process_voice_command] puts at most one message in the queue and
    touches neither the lists nor the speaker markers. *)
Lemma process_voice_command_enqueues (message : string) (username : option string)
      (s : App) :
  enqueues_at_most_one s (process_voice_command message username s).
Proof.
  unfold process_voice_command.
  repeat match goal with
         | |- context [match ?x with _ => _ end] => destruct x
         end;
    first [ apply speak_enqueues | apply speak_if_text_enqueues
          | apply speak_with_voice_if_text_enqueues ]; reflexivity.
Qed.

(** A message that does not start with the TTS prefix and a blank, is
    none of the moderation commands, comes from a sender who is not
    blocked and trips no auto-block keyword.  If it matches no
    non-prefixed voice-command pattern it is ignored: only the chat
    display changes.  If it matches one, it is handed to
    [process_voice_command] (unless private mode shuts a non-admin out),
    the handler of the prefixed voice commands, which puts at most one
    message in the speech queue. *)
Lemma non_prefixed_messages (msg : ChatMsg) (rnd : nat) (s : App) :
  let message := PyStr.strip (m_message msg) in
  PyStr.startswith message (tts_command_prefix (config s) +:+ " ") = false ->
  moderation_command (tts_command_prefix (config s)) (m_message msg) = false ->
  m_username msg ∉ blocked_listbox s ->
  auto_block_fires (config s) (m_message msg) = false ->
  (non_prefixed_voice_command (voice_commands (config s)) message = false ->
   on_chat_message msg rnd s = Returned tt (shown msg s))
  /\ (non_prefixed_voice_command (voice_commands (config s)) message = true ->
      on_chat_message msg rnd s
      = Returned tt
          (if private_mode_var (config s)
              && negb (py_in (m_username msg) (admin_listbox s))
           then shown msg s
           else process_voice_command message (Some (m_username msg)) (shown msg s)))
  /\ enqueues_at_most_one (shown msg s)
       (process_voice_command message (Some (m_username msg)) (shown msg s)).
Proof.
  intros message Hpre Hmod Hb Hf.
  assert (Hrun : on_chat_message msg rnd s
                 = if private_mode_var (config s)
                      && negb (py_in (m_username msg) (admin_listbox s))
                   then Returned tt (shown msg s)
                   else voice_command_rules msg message (shown msg s)).
  { rewrite on_chat_not_blocked, auto_block_check_quiet by assumption.
    rewrite admin_commands_pass by assumption.
    now rewrite tts_rule_not_prefixed by assumption. }
  rewrite Hrun, voice_command_rules_spec. cbn [config shown log_event].
  split; [|split].
  - intros ->. now destruct (_ && _).
  - intros ->. now destruct (_ && _).
  - apply process_voice_command_enqueues.
Qed.

(** C1, where the code departs from it: a voice command without the
    prefix is spoken.  The comment that closes [on_chat_message] reads
    "All non-admin messages require !tts to be spoken", and the branches
    above it hand the message to [process_voice_command], which queues
    its text.

    Bob, who is no admin, writes [/v 1 hi] to the freshly started
    application (prefix [!tts], private mode off).  The message does not
    start with the prefix, it is plain chat to none of the moderation
    rules, and the call leaves "hi" in the speech queue, in the voice of
    command 1; the next turn of the worker hands "hi" to the engine. *)
Theorem C1_non_prefixed_command_spoken (env : Env) :
  let msg := chat "Bob" "/v 1 hi" in
  let s' := final_state (on_chat_message msg 0 fresh_app) in
  PyStr.startswith (PyStr.strip (m_message msg))
                   (tts_command_prefix (config fresh_app) +:+ " ") = false
  /\ py_in "Bob" (admin_listbox fresh_app) = false
  /\ message_queue fresh_app = []
  /\ on_chat_message msg 0 fresh_app = Returned tt s'
  /\ message_queue s' = [mkQueued "hi" (Some "Sam") (Some "Bob")]
  /\ trace (snd (process_speech_queue_turn env 0 s'))
     = trace s' ++ [ApplyVoice "Sam"; AudioSpeak "hi"].
Proof. vm_compute. repeat split. Qed.

(** ** C4: the prefixed stop command *)





(** ** C5: the auto-block scan *)

Lemma clear_user_config (u : option string) (flag : bool) (s : App) :
  config (clear_user_from_queue u flag s) = config s.
Proof.
  unfold clear_user_from_queue. destruct u as [u|]; [|reflexivity].
  repeat match goal with |- context [if ?b then _ else _] => destruct b end;
    reflexivity.
Qed.

Lemma announcement_truthy (c : Config) (kind : string) (u : option string) (t : string) :
  get_announcement_text c kind "" u = Some t -> PyStr.truthy t = true.
Proof.
  unfold get_announcement_text. cbn [PyStr.truthy negb].
  destruct (negb (default true _)); [discriminate|].
  destruct (default "" (announcements c !! kind)) as [|a text] eqn:E; [discriminate|].
  cbn [PyStr.truthy negb].
  destruct u as [[|b u]|]; cbn [PyStr.truthy]; intros [= <-]; reflexivity.
Qed.

(** The announcement is missing exactly when its toggle is off or its
    text is empty. *)
Lemma announcement_none (c : Config) (kind : string) (u : option string) :
  get_announcement_text c kind "" u = None
  <-> default true (announcement_enabled c
                      !! (if String.eqb kind "AUTOBLOCK" then "AUTOBLOCK TRIGGERED" else kind))
      = false
      \/ default "" (announcements c !! kind) = "".
Proof.
  unfold get_announcement_text. cbn [PyStr.truthy negb].
  destruct (default true _); cbn [negb]; [|tauto].
  destruct (default "" (announcements c !! kind)) as [|a text]; cbn [PyStr.truthy negb];
    [tauto|].
  destruct u as [[|b u]|]; cbn [PyStr.truthy];
    (split; [discriminate | intros [?|?]; discriminate]).
Qed.

Lemma find_first {A} (p : A -> bool) (l : list A) (x : A) :
  List.find p l = Some x ->
  exists before after,
    l = before ++ x :: after /\ p x = true /\ Forall (fun y => p y = false) before.
Proof.
  induction l as [|a l IH]; simpl; [discriminate|].
  destruct (p a) eqn:Hp.
  - intros [= <-]. exists [], l. repeat split; [assumption | constructor].
  - intros Hf. destruct (IH Hf) as (before & after & -> & Hx & Hall).
    exists (a :: before), after. repeat split; [assumption | now constructor].
Qed.

Lemma auto_block_run (msg : ChatMsg) (s : App) :
  let purged := clear_user_from_queue (Some (m_username msg)) true s in
  let announcement :=
    get_announcement_text (config s) "AUTOBLOCK" "" (Some (m_username msg)) in
  exists s',
    auto_block msg s = Returned tt s'
    /\ config s' = config s
    /\ blocked_listbox s' = blocked_listbox purged
    /\ admin_listbox s' = admin_listbox purged
    /\ currently_speaking_user s' = currently_speaking_user purged
    /\ last_speaker s' = last_speaker purged
    /\ message_queue s' = announcement_entry (config s) announcement ++ message_queue purged
    /\ trace s' = trace purged
                  ++ [SaveBlocked;
                      ChatDisplay ("[SYSTEM] Auto-blocked user: " +:+ m_username msg +:+ nl)].
Proof.
  cbv zeta. unfold auto_block, announce_at_front, put_announcement, drain_queue, requeue.
  run_monad. cbn [config log_event]. rewrite clear_user_config.
  destruct (get_announcement_text _ _ _ _) as [t|] eqn:Ha.
  - rewrite (announcement_truthy _ _ _ _ Ha). run_monad.
    eexists. split; [reflexivity|]. fields.
    rewrite clear_user_config, <- app_assoc. unfold announcement_entry. fields.
    repeat split.
  - eexists. split; [reflexivity|]. fields.
    rewrite clear_user_config, <- app_assoc. repeat split.
Qed.

(** C5, as the code has it.  For a sender with a non-empty name who is
    not blocked, and a message and keywords within ASCII.  With the
    auto-block switch off, or when no non-empty keyword occurs in the
    message (case ignored), the message goes on to the admin commands.
    With the switch on and a hit, the first keyword of the list that hits
    decides, no command is parsed, and the call returns with: the sender
    in the blocked list and the queue purged of the sender's messages by
    [clear_user_from_queue(sender, True)], the path of the manual
    [!block]; the announcement, when its toggle is on and its text not
    empty, as the one new entry at the front of the queue, ahead of every
    message that survived the purge, and no announcement otherwise. *)
Theorem C5_auto_block (msg : ChatMsg) (rnd : nat) (s : App) :
  let c := config s in
  let u := m_username msg in
  let purged := clear_user_from_queue (Some u) true (shown msg s) in
  let announcement := get_announcement_text c "AUTOBLOCK" "" (Some u) in
  u ∉ blocked_listbox s ->
  u <> "" ->
  ascii_text (m_message msg) = true ->
  forallb ascii_text (auto_block_keywords c) = true ->
  (auto_block_fires c (m_message msg) = false ->
   on_chat_message msg rnd s = admin_commands msg rnd (shown msg s))
  /\ (auto_block_var c = true ->
      forall keyword,
        auto_block_scan (auto_block_keywords c) (m_message msg) = Some keyword ->
        (exists before after,
            auto_block_keywords c = before ++ keyword :: after
            /\ keyword <> ""
            /\ PyStr.contains (PyStr.lower keyword) (PyStr.lower (m_message msg)) = true
            /\ Forall (fun k => keyword_hits (PyStr.lower (m_message msg)) k = false) before)
        /\ on_chat_message msg rnd s = auto_block msg (shown msg s)
        /\ exists s',
            on_chat_message msg rnd s = Returned tt s'
            /\ blocked_listbox s' = blocked_listbox purged
            /\ u ∈ blocked_listbox s'
            /\ admin_listbox s' = admin_listbox s
            /\ message_queue s'
               = announcement_entry c announcement
                 ++ filter (fun m => q_username m <> Some u) (message_queue s))
  /\ (announcement = None
      <-> default true (announcement_enabled c !! "AUTOBLOCK TRIGGERED") = false
          \/ default "" (announcements c !! "AUTOBLOCK") = "")
  /\ (forall t, announcement = Some t ->
        announcement_entry c announcement
        = [mkQueued t (Some (announcement_voice c)) (Some announcement_user)]).
Proof.
  intros c u purged announcement Hb Hu _ _.
  split; [|split; [|split]].
  - intros Hf. rewrite on_chat_not_blocked by assumption.
    now apply auto_block_check_quiet.
  - intros Hon keyword Hscan.
    assert (Hfires : auto_block_fires c (m_message msg) = true).
    { unfold auto_block_fires. rewrite Hon, Hscan. reflexivity. }
    assert (Hrun : on_chat_message msg rnd s = auto_block msg (shown msg s)).
    { rewrite on_chat_not_blocked by assumption. now apply auto_block_check_fires. }
    split; [|split; [exact Hrun|]].
    + destruct (find_first _ _ _ Hscan) as (before & after & Hl & Hhit & Hall).
      exists before, after. unfold keyword_hits in Hhit.
      apply andb_true_iff in Hhit as [Ht Hc].
      repeat split; try assumption. now apply truthy_true_nonempty.
    + destruct (auto_block_run msg (shown msg s))
        as (s' & Hs' & _ & Hbl & Had & _ & _ & Hq & _).
      destruct (purge_facts u (shown msg s) Hu) as (Hin & Hfilter).
      exists s'. rewrite Hrun. split; [exact Hs'|]. split; [exact Hbl|].
      split; [now rewrite Hbl|]. split.
      { rewrite Had. unfold clear_user_from_queue.
        repeat match goal with |- context [if ?b then _ else _] => destruct b end;
          reflexivity. }
      rewrite Hq. f_equal. exact Hfilter.
  - apply (announcement_none c "AUTOBLOCK" (Some u)).
  - intros t Ht. unfold announcement_entry. now rewrite Ht.
Qed.

(** A run of C5: Bob, with a message queued before one of Ann, writes the
    keyword in capitals. *)
Lemma C5_auto_block_witness :
  let s := set_queue [mkQueued "one" None (Some "Bob");
                      mkQueued "two" None (Some "Ann")] fresh_app in
  exists s',
    on_chat_message (chat "Bob" "you CHEATER") 0 s = Returned tt s'
    /\ "Bob" ∈ blocked_listbox s'
    /\ message_queue s'
       = [mkQueued "Bob blocked, you can't say that" (Some "Zira") (Some "__announcement__");
          mkQueued "two" None (Some "Ann")].
Proof.
  intros s.
  assert (Hnb : "Bob" ∉ blocked_listbox s) by (apply (proj1 (py_in_false _ _)); reflexivity).
  destruct (C5_auto_block (chat "Bob" "you CHEATER") 0 s Hnb ltac:(discriminate)
              eq_refl eq_refl) as (_ & Hfire & _).
  destruct (Hfire eq_refl "cheater" eq_refl) as (_ & _ & s' & Hrun & _ & Hin & _ & Hq).
  exists s'. split; [exact Hrun|]. split; [exact Hin|].
  rewrite Hq. reflexivity.
Defined.

(** C5 as stated fails: with the announcement toggle off, a keyword hit
    blocks Bob and inserts no announcement. *)
Lemma C5_counterexample :
  ~ (forall msg rnd s,
       m_username msg ∉ blocked_listbox s ->
       (exists keyword, keyword ∈ auto_block_keywords (config s)
                        /\ PyStr.contains (PyStr.lower keyword)
                                          (PyStr.lower (m_message msg)) = true) ->
       exists a rest,
         message_queue (final_state (on_chat_message msg rnd s)) = a :: rest
         /\ q_username a = Some announcement_user).
Proof.
  intros H.
  destruct (H (chat "Bob" "you cheater") 0 silent_app) as (a & rest & Hq & _).
  - apply (proj1 (py_in_false _ _)). reflexivity.
  - exists "cheater". split; [|reflexivity].
    apply (proj1 (py_in_true _ _)). reflexivity.
  - vm_compute in Hq. discriminate Hq.
Qed.

(** ** C7 and C8: [!block] and the attribute [last_speaker] *)

(** An admin's [!block] or [!admin add] reads [self.last_speaker]; while
    no prefixed message has been spoken the attribute does not exist and
    the call raises, whoever is speaking. *)
Lemma admin_block_raises (msg : ChatMsg) (rnd : nat) (s : App) :
  last_speaker s = None ->
  m_username msg ∈ admin_listbox s ->
  m_username msg ∉ blocked_listbox s ->
  auto_block_fires (config s) (m_message msg) = false ->
  PyStr.strip (PyStr.lower (PyStr.strip (m_message msg))) = "!block" ->
  PyStr.lower (tts_command_prefix (config s) +:+ " stop") <> "!block" ->
  on_chat_message msg rnd s = Raised (AttributeError "last_speaker") (shown msg s).
Proof.
  intros Hl Ha%py_in_true Hb Hf Hcmd Hpre.
  rewrite on_chat_not_blocked, auto_block_check_quiet by assumption.
  unfold admin_commands, stop_rule, block_rule, read_last_speaker. run_monad.
  apply String.eqb_neq in Hpre. rewrite String.eqb_sym in Hpre.
  fields. rewrite Hcmd, Hpre. cbn [String.eqb Ascii.eqb Bool.eqb orb andb].
  rewrite Ha. run_monad. fields. now rewrite Hl.
Qed.

(** C7, at the failing input.  After a fresh start Bob speaks through a
    voice command without the prefix, which does not set [last_speaker];
    while he is the current speaker the admin sends [!block]: the call
    raises [AttributeError] at the log line that formats
    [self.last_speaker], and Bob is not blocked. *)
Theorem C7_block_current_speaker_raises :
  currently_speaking_user bob_is_speaking = Some "Bob"
  /\ last_speaker bob_is_speaking = None
  /\ on_chat_message (chat "Admin" "!block") 0 bob_is_speaking
     = Raised (AttributeError "last_speaker") (shown (chat "Admin" "!block") bob_is_speaking)
  /\ blocked_listbox (final_state (on_chat_message (chat "Admin" "!block") 0 bob_is_speaking))
     = [].
Proof. vm_compute. repeat split. Qed.

(** C8, at the failing input.  After a fresh start, with nobody speaking
    and no prefixed message spoken yet, an admin's [!block] and an admin's
    [!admin add] have no valid target; both calls raise [AttributeError]
    instead of returning. *)
Theorem C8_no_target_raises :
  raised (on_chat_message (chat "Admin" "!block") 0 fresh_app)
  = Some (AttributeError "last_speaker")
  /\ raised (on_chat_message (chat "Admin" "!block add") 0 fresh_app)
     = Some (AttributeError "last_speaker")
  /\ raised (on_chat_message (chat "Admin" "!admin add") 0 fresh_app)
     = Some (AttributeError "last_speaker").
Proof. vm_compute. repeat split. Qed.

(** ** C3: the order of the rules *)

(** C3, at the failing input.  The prefix is configured as [!admin] and
    Bob, who is no admin, sends [!admin add].  The message matches rule 4,
    whose block returns only for an admin; it falls through to rule 6,
    which speaks "add" and makes Bob the last speaker.  The same happens
    to [!block clear] under the prefix [!block]. *)
Theorem C3_non_admin_falls_through :
  let s' := final_state (on_chat_message (chat "Bob" "!admin add") 0 admin_prefix_app) in
  moderation_command "!admin" "!admin add" = true
  /\ message_queue s' = [mkQueued "add" None (Some "Bob")]
  /\ last_speaker s' = Some "Bob"
  /\ raised (on_chat_message (chat "Bob" "!admin add") 0 admin_prefix_app) = None.
Proof. vm_compute. repeat split. Qed.

(** ** What holds of the moderation commands *)

Section Moderation.
Variables (msg : ChatMsg) (rnd : nat) (s : App).
Hypothesis not_blocked : m_username msg ∉ blocked_listbox s.
Hypothesis no_keyword : auto_block_fires (config s) (m_message msg) = false.

Let lowered : string := PyStr.strip (PyStr.lower (PyStr.strip (m_message msg))).
Let stop_command : string := PyStr.lower (tts_command_prefix (config s) +:+ " stop").

Lemma on_chat_admin_commands :
  on_chat_message msg rnd s = admin_commands msg rnd (shown msg s).
Proof. now rewrite on_chat_not_blocked, auto_block_check_quiet. Qed.

(** X17.  With [last_speaker] set, the target of an admin's [!block] is the
    current speaker if there is one, else the last speaker; it is blocked
    through [clear_user_from_queue] unless it is the admin, and the
    announcement, if any, goes to the front of the queue. *)
Lemma block_target_resolution (last : string) :
  last_speaker s = Some last ->
  m_username msg ∈ admin_listbox s ->
  lowered = "!block" \/ lowered = "!block add" ->
  stop_command <> lowered ->
  let target :=
    if truthy_opt (currently_speaking_user s) then currently_speaking_user s
    else Some last in
  let purged := log_event SaveBlocked (clear_user_from_queue target true (shown msg s)) in
  on_chat_message msg rnd s
  = Returned tt
      (if truthy_opt target && negb (bool_decide (target = Some (m_username msg)))
       then set_queue
              (announcement_entry (config s)
                 (get_announcement_text (config s) "BLOCK ADD" "" target)
               ++ message_queue purged)
              (set_queue [] purged)
       else shown msg s).
Proof.
  intros Hl Ha%py_in_true Hcmd Hpre. cbv zeta.
  rewrite on_chat_admin_commands.
  apply String.eqb_neq in Hpre. rewrite String.eqb_sym in Hpre.
  unfold admin_commands, stop_rule, block_rule, read_last_speaker. run_monad.
  fields. fold lowered stop_command. rewrite Hpre.
  assert (Hns : String.eqb lowered "!stop" = false)
    by (destruct Hcmd as [-> | ->]; reflexivity).
  assert (Hbk : String.eqb lowered "!block add" || String.eqb lowered "!block" = true)
    by (destruct Hcmd as [-> | ->]; reflexivity).
  rewrite Hns, Hbk, Ha. run_monad. fields. rewrite Hl.
  destruct (truthy_opt _ && negb _); [|reflexivity].
  unfold drain_queue, requeue, put_announcement. run_monad. fields.
  rewrite clear_user_config. fields.
  destruct (get_announcement_text _ _ _ _) as [t|] eqn:Hann; unfold announcement_entry.
  - rewrite (announcement_truthy _ _ _ _ Hann). run_monad. fields.
    rewrite clear_user_config. reflexivity.
  - run_monad. fields. reflexivity.
Qed.

(** X16.  [!block clear] from an admin removes the entry at the end of the
    blocked list, the one blocked last. *)
Lemma block_clear_lifo (earlier : list string) (last_user : string) :
  blocked_listbox s = earlier ++ [last_user] ->
  m_username msg ∈ admin_listbox s ->
  lowered = "!block clear" ->
  stop_command <> lowered ->
  exists s',
    on_chat_message msg rnd s = Returned tt s'
    /\ blocked_listbox s' = earlier
    /\ message_queue s'
       = announcement_entry (config s)
           (get_announcement_text (config s) "BLOCK REMOVE" "" (Some last_user))
         ++ message_queue s.
Proof.
  intros Hbl Ha%py_in_true Hcmd Hpre.
  rewrite on_chat_admin_commands.
  apply String.eqb_neq in Hpre. rewrite String.eqb_sym in Hpre.
  unfold admin_commands, stop_rule, block_rule, admin_add_rule, block_clear_rule.
  run_monad. fields. fold lowered stop_command. rewrite Hpre, Hcmd.
  cbn [String.eqb Ascii.eqb Bool.eqb orb andb]. rewrite Ha. run_monad. fields.
  rewrite Hbl, length_app. cbn [length].
  replace (length earlier + 1 - 1) with (length earlier) by lia.
  replace (0 <? length earlier + 1)%nat with true
    by (symmetry; apply Nat.ltb_lt; lia).
  assert (Hdel : delete (length earlier) (earlier ++ [last_user]) = earlier).
  { clear. induction earlier as [|a l IH]; simpl; [reflexivity | now rewrite IH]. }
  assert (Hnth : nth (length earlier) (earlier ++ [last_user]) "" = last_user).
  { rewrite app_nth2 by lia. now rewrite Nat.sub_diag. }
  rewrite Hdel, Hnth.
  unfold announce_at_front, drain_queue, requeue, put_announcement.
  destruct (get_announcement_text _ _ _ _) as [t|] eqn:Hann; unfold announcement_entry.
  - rewrite (announcement_truthy _ _ _ _ Hann). run_monad. fields.
    eexists. split; [reflexivity|]. fields. split; reflexivity.
  - run_monad. eexists. split; [reflexivity|]. fields. split; reflexivity.
Qed.

(** X18.  A sender who is no admin: the stop commands and [!block] do nothing;
    [!admin add] and [!block clear] are not consumed and go on to the
    prefixed branch. *)
Lemma non_admin_moderation :
  m_username msg ∉ admin_listbox s ->
  (lowered = stop_command \/ lowered = "!stop" \/ lowered = "!block"
   \/ lowered = "!block add" ->
   on_chat_message msg rnd s = Returned tt (shown msg s))
  /\ (lowered = "!admin add" \/ lowered = "!block clear" ->
      stop_command <> lowered ->
      on_chat_message msg rnd s
      = tts_rule msg (PyStr.strip (m_message msg)) (admin_listbox s) rnd (shown msg s)).
Proof.
  intros Ha%py_in_false. rewrite on_chat_admin_commands.
  unfold admin_commands, stop_rule, block_rule, admin_add_rule, block_clear_rule.
  run_monad. fields. fold lowered stop_command. rewrite Ha. split.
  - intros [-> | [-> | [-> | ->]]]; rewrite ?String.eqb_refl; try reflexivity;
      destruct (String.eqb _ stop_command); reflexivity.
  - intros Hcmd Hpre.
    apply String.eqb_neq in Hpre. rewrite String.eqb_sym in Hpre. rewrite Hpre.
    destruct Hcmd as [-> | ->]; reflexivity.
Qed.
End Moderation.

(** ** C9: the wait of the worker *)

(** [is_speaking()] answers [False] whatever the engine reports. *)
Lemma is_speaking_false (running_state : option nat) :
  DirectOutputTTS.is_speaking running_state = false.
Proof. reflexivity. Qed.

(** The loop is left at its first test. *)
Lemma wait_loop_first_test (fuel : nat) (env : Env) (msg : QueuedMsg) (poll : nat)
      (wait_time : float) (s : App) :
  PrimFloat.ltb wait_time max_wait = true ->
  wait_loop (S fuel) env msg poll wait_time s = (SpeechCompleted, poll, s).
Proof.
  intros Hlt. unfold wait_loop. now rewrite Hlt, is_speaking_false.
Qed.

(** C9, where the code departs from it: the worker does not wait.  The
    loop that is to "wait for speech to complete or be interrupted" asks
    [audio_manager.is_speaking()], which looks for the engine's voice
    under the attribute [voice] where the engine keeps it under
    [sapi_voice], and so answers [False] while the engine speaks.  For
    every message and state, and whatever the engine reports and the
    other threads do, the wait is left at its first test as "speech
    completed naturally": no sleep, no poll after a sleep, no check of the
    blocked list or of the marker, the state untouched.

    Bob's "hello" with the engine speaking all along: the turn of the
    worker hands the text to the engine and ends at once, with the
    currently-speaking marker reset and not one sleep in the trace. *)
Theorem C9_worker_does_not_wait (env : Env) (msg : QueuedMsg) (s : App) :
  let turn := process_speech_queue_turn busy_env 0
                (set_queue [mkQueued "hello" None (Some "Bob")] fresh_app) in
  (forall state, DirectOutputTTS.is_speaking state = false)
  /\ worker_wait env msg s = (SpeechCompleted, 0, s)
  /\ running_state busy_env 0 = Some 2
  /\ fst turn = Some (SpeechCompleted, 0)
  /\ trace (snd turn) = [ApplyDefaultVoice; AudioSpeak "hello"]
  /\ currently_speaking_user (snd turn) = None.
Proof.
  intros turn. split; [intros state; apply is_speaking_false|].
  split; [apply wait_loop_first_test; reflexivity|].
  vm_compute. repeat split.
Qed.

(** ** Runs of the string model and of the end-to-end scenarios *)

Example lower_example : PyStr.lower "!Block ADD" = "!block add".
Proof. reflexivity. Qed.

Example strip_example : PyStr.strip "  !tts  hi  " = "!tts  hi".
Proof. reflexivity. Qed.

Example split_example :
  PyStr.split_blank (Some 2) "v 3 hello big world" = ["v"; "3"; "hello big world"]
  /\ PyStr.split_blank None "a  b" = ["a"; ""; "b"].
Proof. split; reflexivity. Qed.

Example pattern_example :
  Re.rmatch re_v_number_text "/v 12  hello there" = Some [(2, "hello there"); (1, "12")]
  /\ Re.rmatch re_v_number_text "/v12 hello" = None
  /\ Re.rmatch re_trigger_text "/paul" = Some [(1, "paul")].
Proof. repeat split; reflexivity. Qed.

(** Scenario 1 of the specification: a prefixed message of a user without
    preference, random assignment off. *)
Example scenario_plain_message :
  message_queue (final_state (on_chat_message (chat "Bob" "!tts hello there") 0 fresh_app))
  = [mkQueued "hello there" None (Some "Bob")].
Proof. reflexivity. Qed.

(** Scenario 2: the voice toggle inside a prefixed message stores the
    preference and speaks the text in that voice. *)
Example scenario_voice_toggle :
  let s' := final_state (on_chat_message (chat "Bob" "!tts /vt 3 testing") 0 fresh_app) in
  user_voice_preferences s' !! "Bob" = Some "[DECtalk] Betty"
  /\ message_queue s' = [mkQueued "testing" (Some "[DECtalk] Betty") (Some "Bob")].
Proof. split; reflexivity. Qed.

(** * Properties of the rest of the engine *)

(** ** Stripping and searching *)

Lemma lstrip_fixed (s : string) : starts_blank s = false -> PyStr.lstrip s = s.
Proof. destruct s as [|c s]; simpl; [reflexivity | now intros ->]. Qed.

Lemma lstrip_starts (s : string) : starts_blank (PyStr.lstrip s) = false.
Proof.
  induction s as [|c s IH]; simpl; [reflexivity|].
  destruct (PyStr.is_space c) eqn:E; [assumption | simpl; assumption].
Qed.

Lemma rstrip_idempotent (s : string) : PyStr.rstrip (PyStr.rstrip s) = PyStr.rstrip s.
Proof.
  induction s as [|c s IH]; simpl; [reflexivity|].
  destruct (PyStr.rstrip s) as [|d r] eqn:E.
  - destruct (PyStr.is_space c) eqn:Ec; simpl; [reflexivity | now rewrite Ec].
  - simpl. simpl in IH. now rewrite IH.
Qed.

Lemma rstrip_starts (s : string) :
  starts_blank s = false -> starts_blank (PyStr.rstrip s) = false.
Proof.
  destruct s as [|c s]; simpl; [reflexivity|]. intros Hc.
  destruct (PyStr.rstrip s); [rewrite Hc|]; simpl; assumption.
Qed.

Lemma strip_idempotent (s : string) : PyStr.strip (PyStr.strip s) = PyStr.strip s.
Proof.
  unfold PyStr.strip.
  rewrite (lstrip_fixed (PyStr.rstrip (PyStr.lstrip s)))
    by apply rstrip_starts, lstrip_starts.
  apply rstrip_idempotent.
Qed.

Lemma strip_fixed_parts (s : string) :
  PyStr.strip s = s -> PyStr.lstrip s = s /\ PyStr.rstrip s = s.
Proof.
  intros H.
  assert (Hl : PyStr.lstrip s = s).
  { apply lstrip_fixed. rewrite <- H. apply rstrip_starts, lstrip_starts. }
  split; [exact Hl|]. unfold PyStr.strip in H. now rewrite Hl in H.
Qed.

Lemma append_cons (c : ascii) (a m : string) : String c a +:+ m = String c (a +:+ m).
Proof. reflexivity. Qed.

Lemma append_nonempty (a m : string) : m <> "" -> a +:+ m <> "".
Proof. destruct a; [auto | rewrite append_cons; discriminate]. Qed.

Lemma rstrip_append (a m : string) :
  PyStr.rstrip m = m -> m <> "" -> PyStr.rstrip (a +:+ m) = a +:+ m.
Proof.
  intros Hm Hne. induction a as [|c a IH]; [assumption|].
  rewrite append_cons. cbn [PyStr.rstrip]. rewrite IH.
  destruct (a +:+ m) eqn:E; [|reflexivity].
  exfalso. now apply (append_nonempty a m Hne).
Qed.

Lemma strip_append (u x m : string) :
  PyStr.strip u = u -> u <> "" -> PyStr.strip m = m -> m <> "" ->
  PyStr.strip (u +:+ x +:+ m) = u +:+ x +:+ m.
Proof.
  intros Hu Hune Hm Hmne.
  destruct (strip_fixed_parts u Hu) as [Hlu _].
  destruct (strip_fixed_parts m Hm) as [_ Hrm].
  unfold PyStr.strip.
  assert (Hl : PyStr.lstrip (u +:+ x +:+ m) = u +:+ x +:+ m).
  { destruct u as [|c u]; [congruence|]. simpl in *.
    destruct (PyStr.is_space c) eqn:Ec; [|reflexivity].
    exfalso. assert (Hb : starts_blank (PyStr.lstrip u) = false) by apply lstrip_starts.
    rewrite Hlu in Hb. simpl in Hb. congruence. }
  rewrite Hl. rewrite (rstrip_append u (x +:+ m)); [reflexivity| |].
  - now apply rstrip_append.
  - now apply append_nonempty.
Qed.

Lemma prefix_append (p s : string) : String.prefix p (p +:+ s) = true.
Proof.
  induction p as [|c p IH]; simpl; [now destruct s|].
  destruct (ascii_dec c c); [assumption | congruence].
Qed.

Lemma drop_append (p s : string) : PyStr.drop (String.length p) (p +:+ s) = s.
Proof. induction p as [|c p IH]; simpl; [reflexivity | assumption]. Qed.

Lemma contains_prefix (p s : string) :
  PyStr.contains p s = false -> String.prefix p s = false.
Proof. destruct s; simpl; intros H; apply orb_false_iff in H; tauto. Qed.

Lemma contains_tail (p : string) (c : ascii) (s : string) :
  PyStr.contains p (String c s) = false -> PyStr.contains p s = false.
Proof. simpl. intros H. apply orb_false_iff in H. tauto. Qed.

Lemma contains_unfold (p s : string) :
  PyStr.contains p s
  = String.prefix p s
    || match s with
       | EmptyString => false
       | String _ s' => PyStr.contains p s'
       end.
Proof. destruct s; reflexivity. Qed.

Lemma contains_append (u sep m : string) : PyStr.contains sep (u +:+ sep +:+ m) = true.
Proof.
  induction u as [|c u IH].
  - change ("" +:+ sep +:+ m) with (sep +:+ m).
    now rewrite contains_unfold, prefix_append.
  - rewrite append_cons, contains_unfold, IH. apply orb_true_r.
Qed.

(** Replacing a text that does not occur changes nothing. *)
Lemma replace_absent (s old new : string) :
  PyStr.contains old s = false -> PyStr.replace s old new = s.
Proof.
  unfold PyStr.replace. induction s as [|c s IH]; [reflexivity|].
  intros H. cbn [PyStr.replace_from].
  rewrite (contains_prefix _ _ H), IH; [reflexivity|].
  now apply contains_tail in H.
Qed.

(** [in] and [split] agree: the separator occurs exactly when the split
    has two parts. *)
Lemma split_first_contains (sep s : string) :
  PyStr.contains sep s = true <-> is_Some (PyText.split_first sep s).
Proof.
  induction s as [|c s IH]; cbn [PyStr.contains PyText.split_first].
  - destruct (String.prefix sep ""); simpl; split; intros H;
      [eauto | reflexivity | discriminate | destruct H; discriminate].
  - destruct (String.prefix sep (String c s)); simpl; [split; eauto|].
    rewrite IH. destruct (PyText.split_first sep s) as [[b a]|]; split; intros [x Hx];
      (discriminate || eauto).
Qed.

Lemma prefix_nil (s : string) : String.prefix "" s = true.
Proof. now destruct s. Qed.

Lemma prefix_cons (a c : ascii) (p s : string) :
  String.prefix (String a p) (String c s)
  = if ascii_dec a c then String.prefix p s else false.
Proof. reflexivity. Qed.

Lemma split_first_here (sep s : string) :
  String.prefix sep s = true ->
  PyText.split_first sep s = Some ("", PyStr.drop (String.length sep) s).
Proof. intros H. destruct s; cbn [PyText.split_first]; now rewrite H. Qed.

Lemma split_first_later (sep : string) (c : ascii) (s : string) :
  String.prefix sep (String c s) = false ->
  PyText.split_first sep (String c s)
  = match PyText.split_first sep s with
    | Some (before, after) => Some (String c before, after)
    | None => None
    end.
Proof. intros H. cbn [PyText.split_first]. now rewrite H. Qed.

(** The separator [" : "] is found right after a name without [" :"]. *)
Lemma split_first_name (u m : string) :
  PyStr.contains " :" u = false ->
  PyText.split_first " : " (u +:+ " : " +:+ m) = Some (u, m).
Proof.
  induction u as [|c u IH]; intros Hu.
  - change ("" +:+ " : " +:+ m) with (" : " +:+ m).
    rewrite split_first_here by apply prefix_append. now rewrite drop_append.
  - rewrite append_cons.
    assert (Hp : String.prefix " : " (String c (u +:+ " : " +:+ m)) = false).
    { pose proof (contains_prefix _ _ Hu) as Hpre.
      change " : " with (String " " ": ") at 1. rewrite prefix_cons.
      destruct (ascii_dec " " c) as [<-|]; [|reflexivity].
      destruct u as [|d u].
      - reflexivity.
      - rewrite append_cons. change ": " with (String ":" " ") at 1.
        rewrite prefix_cons. destruct (ascii_dec ":" d) as [<-|]; [|reflexivity].
        change " :" with (String " " (String ":" "")) in Hpre.
        rewrite !prefix_cons, prefix_nil in Hpre.
        destruct (ascii_dec " " " "); [|congruence].
        destruct (ascii_dec ":" ":"); [discriminate | congruence]. }
    rewrite (split_first_later _ _ _ Hp), IH; [reflexivity | now apply contains_tail in Hu].
Qed.

Lemma rstrip_newline (s : string) : PyStr.rstrip (s +:+ nl) = PyStr.rstrip s.
Proof.
  induction s as [|c s IH]; [reflexivity|].
  rewrite append_cons. cbn [PyStr.rstrip]. now rewrite IH.
Qed.

Lemma strip_newline (s : string) :
  starts_blank s = false -> s <> "" -> PyStr.strip (s +:+ nl) = PyStr.strip s.
Proof.
  intros Hb Hne. unfold PyStr.strip.
  rewrite (lstrip_fixed s Hb).
  rewrite (lstrip_fixed (s +:+ nl)); [apply rstrip_newline|].
  destruct s; [congruence | exact Hb].
Qed.

(** ** [parse_line] *)

(** X1.  A chat line of the log, [name : text] followed by the newline,
    is parsed back into its name and its text with both flags off, when
    name and text are not empty and carry no blanks at their ends, the
    name has no quote at its ends and no blank-colon inside, and the line
    has neither marker. *)
Theorem parse_line_round_trip (u m : string) :
  u <> "" -> m <> "" ->
  PyStr.strip u = u -> PyStr.strip m = m ->
  PyText.strip_char PyText.dquote u = u ->
  PyStr.contains " :" u = false ->
  PyStr.contains "*DEAD*" (u +:+ " : " +:+ m) = false ->
  PyStr.contains "(TEAM)" (u +:+ " : " +:+ m) = false ->
  parse_line (u +:+ " : " +:+ m) = Some (mkChat u m false false)
  /\ parse_line ((u +:+ " : " +:+ m) +:+ nl) = Some (mkChat u m false false).
Proof.
  intros Hu Hm Hsu Hsm Hq Hsep Hdead Hteam.
  assert (Hline : PyStr.strip (u +:+ " : " +:+ m) = u +:+ " : " +:+ m)
    by now apply strip_append.
  assert (Hne : u +:+ " : " +:+ m <> "").
  { destruct u; [congruence | rewrite append_cons; discriminate]. }
  assert (Hparse : parse_line (u +:+ " : " +:+ m) = Some (mkChat u m false false)).
  { unfold parse_line. rewrite Hline, (truthy_nonempty _ Hne), Hdead, Hteam.
    cbn [negb]. rewrite (replace_absent _ "*DEAD*" "" Hdead).
    rewrite (replace_absent _ "(TEAM)" "" Hteam), Hline, contains_append.
    unfold PyText.split_once. rewrite (split_first_name u m Hsep).
    now rewrite Hsu, Hq, Hsm. }
  split; [exact Hparse|].
  unfold parse_line in *. rewrite strip_newline; [exact Hparse| |exact Hne].
  destruct (strip_fixed_parts u Hsu) as [Hl _].
  destruct u as [|c u]; [congruence|]. rewrite append_cons. simpl.
  assert (Hb : starts_blank (PyStr.lstrip (String c u)) = false) by apply lstrip_starts.
  now rewrite Hl in Hb.
Qed.

(** A run of X1. *)
Lemma parse_line_round_trip_witness :
  parse_line "Bob : !tts hello there" = Some (chat "Bob" "!tts hello there").
Proof.
  apply (parse_line_round_trip "Bob" "!tts hello there");
    first [discriminate | reflexivity].
Defined.

(** X2.  The text of a parsed event has no blanks at its ends, so the
    [strip] that [on_chat_message] applies to it changes nothing. *)
Theorem parse_line_message_stripped (line : string) (msg : ChatMsg) :
  parse_line line = Some msg -> PyStr.strip (m_message msg) = m_message msg.
Proof.
  unfold parse_line. destruct (negb _); [discriminate|].
  destruct (PyStr.contains " : " _); [|discriminate].
  destruct (PyText.split_once _ _) as [|before [|after [|x rest]]]; try discriminate.
  intros [= <-]. apply strip_idempotent.
Qed.

(** A run of X2. *)
Lemma parse_line_message_stripped_witness :
  PyStr.strip "!tts  hi" = "!tts  hi".
Proof.
  apply (parse_line_message_stripped "  *DEAD*(TEAM) Bob :  !tts  hi  "
           (mkChat "Bob" "!tts  hi" true true)).
  reflexivity.
Defined.

(** X3.  [parse_line] gives no event exactly for the lines whose cleaned
    form does not contain the separator [" : "]; blank lines are among
    them, and the test on the number of parts never fails. *)
Theorem parse_line_none (line : string) :
  parse_line line = None <-> PyStr.contains " : " (clean_line line) = false.
Proof.
  unfold parse_line, clean_line.
  destruct (PyStr.strip line) as [|c l] eqn:E; [split; reflexivity|].
  cbn [PyStr.truthy negb].
  destruct (PyStr.contains " : " _) eqn:Hc; [|split; reflexivity].
  apply split_first_contains in Hc. destruct Hc as [[b a] Hs].
  unfold PyText.split_once. rewrite Hs. split; discriminate.
Qed.

(** ** The DRG monitor *)

Lemma parse_csv_line_index (row : list string) (last : Z) :
  (last <= snd (parse_csv_line row last))%Z.
Proof.
  unfold parse_csv_line.
  destruct row as [|r0 [|r1 [|r2 [|u [|m rest]]]]]; simpl; try lia.
  destruct (_ <=? _)%Z; simpl; lia.
Qed.

Lemma drg_pass_index (rows : list (list string)) (last : Z) :
  (last <= snd (drg_pass rows last))%Z.
Proof.
  revert last. induction rows as [|row rows IH]; intros last; simpl; [lia|].
  pose proof (parse_csv_line_index row last) as Hrow.
  destruct (parse_csv_line row last) as [[parsed|] last']; simpl in Hrow.
  - specialize (IH last'). destruct (drg_pass rows last') as [events final].
    simpl in IH. destruct (drg_is_tts_command parsed); simpl; lia.
  - specialize (IH last'). lia.
Qed.

(** A row is skipped once the index reached is at least its own. *)
Lemma parse_csv_line_skipped (row : list string) (last later : Z) :
  (snd (parse_csv_line row last) <= later)%Z ->
  parse_csv_line row later = (None, later).
Proof.
  unfold parse_csv_line.
  destruct row as [|r0 [|r1 [|r2 [|u [|m rest]]]]]; try reflexivity.
  set (index := if PyStr.isdigit r0 then _ else _).
  destruct (index <=? last)%Z eqn:E; simpl; intros H.
  - apply Z.leb_le in E. replace (index <=? later)%Z with true; [reflexivity|].
    symmetry. apply Z.leb_le. lia.
  - replace (index <=? later)%Z with true; [reflexivity|].
    symmetry. apply Z.leb_le. lia.
Qed.

Lemma drg_pass_skipped (rows : list (list string)) (last later : Z) :
  (snd (drg_pass rows last) <= later)%Z ->
  drg_pass rows later = ([], later).
Proof.
  revert last. induction rows as [|row rows IH]; intros last; simpl; [reflexivity|].
  pose proof (parse_csv_line_index row last) as Hrow.
  destruct (parse_csv_line row last) as [[parsed|] last'] eqn:E; simpl in Hrow.
  - pose proof (drg_pass_index rows last') as Hrest.
    destruct (drg_pass rows last') as [events final] eqn:E'. simpl in Hrest.
    intros H.
    assert (Hfin : (final <= later)%Z) by (destruct (drg_is_tts_command parsed); simpl in H; lia).
    rewrite (parse_csv_line_skipped row last later) by (rewrite E; simpl; lia).
    apply (IH last'). rewrite E'. exact Hfin.
  - intros H. pose proof (drg_pass_index rows last') as Hrest.
    rewrite (parse_csv_line_skipped row last later) by (rewrite E; simpl; lia).
    now apply (IH last').
Qed.

(** X4.  The monitor reads the whole file again on every pass; a second
    pass over the same rows hands no event to the callbacks and leaves
    the index where the first pass put it, whatever the index was at the
    start. *)
Theorem drg_pass_again (rows : list (list string)) (last : Z) :
  drg_pass rows (snd (drg_pass rows last)) = ([], snd (drg_pass rows last)).
Proof. apply (drg_pass_skipped rows last). lia. Qed.

Lemma is_space_lower (c : ascii) : PyStr.is_space (PyStr.lower_char c) = PyStr.is_space c.
Proof. destruct c as [[] [] [] [] [] [] [] []]; reflexivity. Qed.

Lemma lstrip_lower (s : string) : PyStr.lstrip (PyStr.lower s) = PyStr.lower (PyStr.lstrip s).
Proof.
  induction s as [|c s IH]; [reflexivity|]. cbn [PyStr.lower PyStr.lstrip].
  rewrite is_space_lower. destruct (PyStr.is_space c); [assumption | reflexivity].
Qed.

Lemma rstrip_lower (s : string) : PyStr.rstrip (PyStr.lower s) = PyStr.lower (PyStr.rstrip s).
Proof.
  induction s as [|c s IH]; [reflexivity|]. cbn [PyStr.lower PyStr.rstrip].
  rewrite IH, is_space_lower.
  destruct (PyStr.rstrip s); cbn [PyStr.lower]; [destruct (PyStr.is_space c)|]; reflexivity.
Qed.

Lemma strip_lower (s : string) : PyStr.strip (PyStr.lower s) = PyStr.lower (PyStr.strip s).
Proof. unfold PyStr.strip. now rewrite lstrip_lower, rstrip_lower. Qed.

(** The two strips of the command tests amount to one. *)
Lemma lowered_command_once (message : string) :
  lowered_command message = PyStr.strip (PyStr.lower message).
Proof.
  unfold lowered_command. now rewrite <- strip_lower, strip_idempotent.
Qed.

Lemma rstrip_cons_nonblank (c : ascii) (s : string) :
  PyStr.is_space c = false -> PyStr.rstrip (String c s) = String c (PyStr.rstrip s).
Proof. intros Hc. cbn [PyStr.rstrip]. destruct (PyStr.rstrip s); [now rewrite Hc | reflexivity]. Qed.

Lemma prefix_split (p s : string) :
  String.prefix p s = true -> s = p +:+ PyStr.drop (String.length p) s.
Proof.
  revert s. induction p as [|a p IH]; intros s H; [reflexivity|].
  destruct s as [|c s]; [discriminate|].
  rewrite prefix_cons in H. destruct (ascii_dec a c) as [<-|]; [|discriminate].
  rewrite append_cons. cbn [String.length PyStr.drop]. f_equal. now apply IH.
Qed.

(** A text that starts with ["!tts "] still starts with ["!t"] when
    stripped. *)
Lemma strip_tts (s : string) :
  String.prefix "!tts " s = true ->
  exists r, PyStr.strip s = String "!" (String "t" r).
Proof.
  intros H. apply prefix_split in H. rewrite H.
  set (rest := PyStr.drop _ s). unfold PyStr.strip.
  change ("!tts " +:+ rest) with (String "!" (String "t" (String "t" (String "s" (String " " rest))))).
  cbn [PyStr.lstrip]. change (PyStr.is_space "!") with false. cbn iota.
  rewrite !rstrip_cons_nonblank by reflexivity. eauto.
Qed.

Lemma drg_pass_events (rows : list (list string)) (last : Z) (msg : ChatMsg) :
  msg ∈ fst (drg_pass rows last) ->
  PyStr.startswith (PyStr.lower (m_message msg)) "!tts " = true
  /\ m_is_dead msg = false /\ m_is_team msg = false.
Proof.
  revert last. induction rows as [|row rows IH]; intros last; simpl.
  - intros H. apply elem_of_nil in H. contradiction.
  - destruct (parse_csv_line row last) as [[parsed|] last'] eqn:E; [|apply IH].
    specialize (IH last'). destruct (drg_pass rows last') as [events final].
    destruct (drg_is_tts_command parsed) eqn:Ht; simpl in *; [|exact IH].
    intros [-> | Hin]%elem_of_cons; [|now apply IH].
    unfold parse_csv_line in E.
    destruct row as [|r0 [|r1 [|r2 [|u [|m rest]]]]]; try discriminate.
    destruct (_ <=? _)%Z; [discriminate|].
    injection E as <- _. simpl in *. auto.
Qed.

(** X5.  The DRG monitor hands an event to [on_chat_message] only when
    its text, lowered, starts with ["!tts "], whatever prefix is
    configured.  So the text, as the command tests see it, is never
    [!stop], [!block], [!block add], [!admin add] or [!block clear]: these
    commands do not get through in this game. *)
Theorem drg_delivers_only_tts (rows : list (list string)) (last : Z) (msg : ChatMsg) :
  msg ∈ fst (drg_pass rows last) ->
  PyStr.startswith (PyStr.lower (m_message msg)) "!tts " = true
  /\ lowered_command (m_message msg) <> "!stop"
  /\ lowered_command (m_message msg) <> "!block"
  /\ lowered_command (m_message msg) <> "!block add"
  /\ lowered_command (m_message msg) <> "!admin add"
  /\ lowered_command (m_message msg) <> "!block clear".
Proof.
  intros Hin. destruct (drg_pass_events rows last msg Hin) as (Ht & _ & _).
  split; [exact Ht|].
  rewrite lowered_command_once.
  destruct (strip_tts _ Ht) as [r ->].
  repeat split; discriminate.
Qed.

(** A run of X5: of three rows only the one with the prefix is handed on. *)
Lemma drg_delivers_only_tts_witness :
  let rows := [["1"; "t"; "id"; "Admin"; "!block"];
               ["2"; "t"; "id"; "Bob"; "!TTS hello"];
               ["x"; "t"; "id"; "Bob"; "!tts lost"]] in
  fst (drg_pass rows (-1)) = [chat "Bob" "!TTS hello"]
  /\ lowered_command "!TTS hello" <> "!block".
Proof.
  intros rows. split; [reflexivity|].
  apply (drg_delivers_only_tts rows (-1) (chat "Bob" "!TTS hello")).
  apply list_elem_of_singleton. reflexivity.
Defined.

(** ** The lines of the long-form input *)

Lemma split_ws_nonempty (s : string) : Forall (fun w => w <> "") (PyText.split_ws s).
Proof.
  induction s as [|c s IH]; cbn [PyText.split_ws]; [constructor|].
  destruct (PyStr.is_space c); [assumption|].
  destruct s as [|c' s']; [repeat constructor; discriminate|].
  destruct (PyStr.is_space c'); [constructor; [discriminate | assumption]|].
  destruct (PyText.split_ws (String c' s')) as [|w ws];
    [repeat constructor; discriminate|].
  inversion IH; subst. constructor; [discriminate | assumption].
Qed.

Section Chunks.
Variable all_words : list string.

(** A line is short, or it is one word of the text that is too long by
    itself. *)
Let fits (chunk : string) : Prop :=
  chunk <> "" /\ (String.length chunk <= 110 \/ chunk ∈ all_words).

Lemma chunk_loop_fits (words : list string) (current_chunk : string)
      (chunks : list string) :
  Forall (fun w => w <> "") words ->
  (forall w, w ∈ words -> w ∈ all_words) ->
  (current_chunk = "" \/ fits current_chunk) ->
  Forall fits chunks ->
  Forall fits (chunk_loop words current_chunk chunks).
Proof.
  revert current_chunk chunks.
  induction words as [|word rest IH]; intros current chunks Hne Hsub Hcur Hchunks;
    cbn [chunk_loop].
  - destruct current as [|c cur]; cbn [PyStr.truthy]; [assumption|].
    apply Forall_app. split; [assumption|]. constructor; [|constructor].
    destruct Hcur as [Hcur | Hcur]; [discriminate | exact Hcur].
  - inversion Hne as [|? ? Hword Hrest]; subst.
    assert (Hfit_word : fits word).
    { split; [assumption|]. right. apply Hsub. now left. }
    assert (Hsub' : forall w, w ∈ rest -> w ∈ all_words)
      by (intros w Hw; apply Hsub; now right).
    destruct (String.length _ <=? 110)%nat eqn:Hlen.
    + apply IH; try assumption. right. apply Nat.leb_le in Hlen.
      split; [|now left].
      destruct current; cbn [PyStr.truthy]; [assumption|].
      rewrite append_cons. discriminate.
    + apply IH; try assumption; [now right|].
      destruct current as [|c cur]; cbn [PyStr.truthy]; [assumption|].
      apply Forall_app. split; [assumption|]. constructor; [|constructor].
      destruct Hcur as [Hcur | Hcur]; [discriminate | exact Hcur].
Qed.
End Chunks.

(** X6.  Every line that the long-form input writes for the game chat is
    non-empty and has at most 110 characters, unless it consists of one
    word of the text that is longer than that by itself. *)
Theorem longform_chunks_fit (text chunk : string) :
  chunk ∈ longform_chunks text ->
  chunk <> ""
  /\ (String.length chunk <= 110 \/ chunk ∈ PyText.split_ws text).
Proof.
  intros Hin.
  pose proof (chunk_loop_fits (PyText.split_ws text) (PyText.split_ws text) "" []
                (split_ws_nonempty text) (fun w H => H) (or_introl eq_refl)
                (Forall_nil_2 _)) as Hall.
  rewrite Forall_forall in Hall. exact (Hall chunk Hin).
Qed.

(** A run of X6. *)
Lemma longform_chunks_fit_witness :
  "hello big world" <> ""
  /\ (String.length "hello big world" <= 110
      \/ "hello big world" ∈ PyText.split_ws "hello  big world").
Proof.
  apply (longform_chunks_fit "hello  big world" "hello big world").
  apply list_elem_of_singleton. reflexivity.
Defined.

Lemma append_assoc (a b c : string) : (a +:+ b) +:+ c = a +:+ (b +:+ c).
Proof. induction a as [|x a IH]; [reflexivity|]. rewrite !append_cons. now rewrite IH. Qed.

Lemma join_cons (sep p : string) (rest : list string) :
  rest <> [] -> PyText.join sep (p :: rest) = p +:+ sep +:+ PyText.join sep rest.
Proof. destruct rest; [congruence | reflexivity]. Qed.

(** Two neighbours joined by the separator read like the two of them. *)
Lemma join_merge (sep a b : string) (l r : list string) :
  PyText.join sep (l ++ (a +:+ sep +:+ b) :: r) = PyText.join sep (l ++ a :: b :: r).
Proof.
  induction l as [|x l IH].
  - cbn [app]. rewrite (join_cons sep a (b :: r)) by discriminate.
    destruct r as [|y r]; [reflexivity|].
    rewrite !join_cons by discriminate. now rewrite !append_assoc.
  - cbn [app]. rewrite !join_cons by (destruct l; discriminate). now rewrite IH.
Qed.

Lemma chunk_loop_join (words : list string) (current_chunk : string)
      (chunks : list string) :
  Forall (fun w => w <> "") words ->
  (current_chunk = "" -> chunks = []) ->
  PyText.join " " (chunk_loop words current_chunk chunks)
  = PyText.join " " (pending current_chunk chunks ++ words).
Proof.
  revert current_chunk chunks.
  induction words as [|word rest IH]; intros current chunks Hne Hinv; cbn [chunk_loop].
  - unfold pending. now rewrite app_nil_r.
  - inversion Hne as [|? ? Hword Hrest]; subst.
    destruct (String.length _ <=? 110)%nat.
    + rewrite IH; [|assumption|].
      * unfold pending. destruct current as [|c cur]; cbn [PyStr.truthy].
        -- rewrite (Hinv eq_refl). now rewrite (truthy_nonempty word Hword).
        -- rewrite append_cons. cbn [PyStr.truthy]. rewrite <- append_cons.
           rewrite <- !app_assoc. cbn [app]. apply join_merge.
      * intros Hempty. destruct current; cbn [PyStr.truthy] in Hempty;
          [contradiction | rewrite append_cons in Hempty; discriminate].
    + fold (pending current chunks). rewrite IH; [|assumption|contradiction].
      unfold pending at 1. rewrite (truthy_nonempty word Hword).
      now rewrite <- app_assoc.
Qed.

(** X7.  Joined by single blanks, the lines that the long-form input writes
    for the game chat read as the words of the text joined by single blanks:
    the cut loses no word, adds none and keeps their order. *)
Theorem longform_chunks_text (text : string) :
  PyText.join " " (longform_chunks text) = PyText.join " " (PyText.split_ws text).
Proof.
  unfold longform_chunks.
  rewrite chunk_loop_join; [reflexivity | apply split_ws_nonempty | reflexivity].
Qed.

(** ** The voice cache of [apply_voice] *)

Lemma find_in {A} (p : A -> bool) (l : list A) (x : A) :
  List.find p l = Some x -> x ∈ l /\ p x = true.
Proof.
  induction l as [|a l IH]; [discriminate|]. cbn [List.find].
  destruct (p a) eqn:Hp.
  - intros [= <-]. split; [now left | assumption].
  - intros H. destruct (IH H). split; [now right | assumption].
Qed.

Lemma select_voice_again (accepts accepts' : list string -> string -> bool)
      (voice : Voice) (st st' : VoiceState) :
  select_voice accepts voice st = (true, st') ->
  voices st' = voices st /\ voice_manager st' = voice_manager st
  /\ default_voice st' = default_voice st
  /\ current_voice_id st' = Some (v_id voice)
  /\ select_voice accepts' voice st' = (true, st').
Proof.
  unfold select_voice, engine_set_voice.
  destruct (bool_decide _) eqn:Hcur.
  - intros [= <-]. rewrite Hcur. apply bool_decide_eq_true in Hcur. auto.
  - destruct (accepts _ _); intros [= <-]. cbn.
    rewrite bool_decide_eq_true_2 by reflexivity. auto.
Qed.

(** X8.  A voice that [apply_voice] has applied is not applied again: when
    a call answers True, the same call in the state it leaves answers True,
    changes nothing and makes no call to the engine, whatever the engine
    would have answered. *)
Theorem apply_voice_again (accepts accepts' : list string -> string -> bool)
        (voice_name : string) (st st' : VoiceState) :
  apply_voice accepts voice_name st = (true, st') ->
  apply_voice accepts' voice_name st' = (true, st').
Proof.
  unfold apply_voice.
  destruct (match voices st with [] => false | _ => true end && voice_manager st)
    eqn:Hready; [|discriminate].
  destruct (PyStr.startswith voice_name "[DECtalk] ") eqn:Hdec.
  - intros [= <-]. now rewrite Hready.
  - destruct (List.find (exact_match voice_name) (voices st)) as [v|] eqn:Hex.
    + intros H. destruct (select_voice_again _ accepts' _ _ _ H) as (Hv & Hm & _ & _ & Hs).
      now rewrite Hv, Hm, Hready, Hex.
    + destruct (List.find (partial_match voice_name) (voices st)) as [v|] eqn:Hpa;
        [|discriminate].
      intros H. destruct (select_voice_again _ accepts' _ _ _ H) as (Hv & Hm & _ & _ & Hs).
      now rewrite Hv, Hm, Hready, Hex, Hpa.
Qed.

(** A run of X8: the second voice is found by its name and accepted. *)
Lemma apply_voice_again_witness :
  let st := mkVoiceState [mkVoice "Microsoft David" "0"; mkVoice "Microsoft Zira" "1"]
                         true "" None [] in
  let st' := mkVoiceState (voices st) true "" (Some "1") ["1"] in
  apply_voice (fun _ _ => false) "zira" st' = (true, st').
Proof.
  intros st st'. apply (apply_voice_again (fun _ _ => true) (fun _ _ => false) "zira" st st').
  reflexivity.
Defined.

(** X9.  What a call of [apply_voice] can do to the current voice: an
    answer False leaves it as it was; an answer True means that the name is
    a DECtalk profile and nothing changed, or that the current voice is now
    an installed voice whose name is the requested one or contains it or is
    contained in it, case ignored.  The engine is called at most once. *)
Theorem apply_voice_selection (accepts : list string -> string -> bool)
        (voice_name : string) (st : VoiceState) :
  let '(success, st') := apply_voice accepts voice_name st in
  (success = false -> current_voice_id st' = current_voice_id st)
  /\ (success = true ->
      (PyStr.startswith voice_name "[DECtalk] " = true /\ st' = st)
      \/ exists voice, voice ∈ voices st
           /\ (v_name voice = voice_name \/ partial_match voice_name voice = true)
           /\ current_voice_id st' = Some (v_id voice))
  /\ (set_voice_calls st' = set_voice_calls st
      \/ exists id, set_voice_calls st' = set_voice_calls st ++ [id]).
Proof.
  assert (Hsel : forall voice, voice ∈ voices st ->
            v_name voice = voice_name \/ partial_match voice_name voice = true ->
            let '(success, st') := select_voice accepts voice st in
            (success = false -> current_voice_id st' = current_voice_id st)
            /\ (success = true ->
                (PyStr.startswith voice_name "[DECtalk] " = true /\ st' = st)
                \/ exists voice, voice ∈ voices st
                     /\ (v_name voice = voice_name \/ partial_match voice_name voice = true)
                     /\ current_voice_id st' = Some (v_id voice))
            /\ (set_voice_calls st' = set_voice_calls st
                \/ exists id, set_voice_calls st' = set_voice_calls st ++ [id])).
  { intros voice Hin Hmatch. unfold select_voice, engine_set_voice.
    destruct (bool_decide _) eqn:Hcur.
    - apply bool_decide_eq_true in Hcur. split; [discriminate|]. split; [|now left].
      intros _. right. exists voice. auto.
    - destruct (accepts _ _); cbn; (split; [|split]);
        try discriminate; try reflexivity; eauto 8. }
  unfold apply_voice.
  destruct (_ && voice_manager st);
    [|split; [reflexivity | split; [discriminate | now left]]].
  destruct (PyStr.startswith voice_name "[DECtalk] ");
    [split; [discriminate | split; [now left | now left]]|].
  destruct (List.find (exact_match voice_name) (voices st)) as [v|] eqn:Hex.
  - apply find_in in Hex as [Hin Hm]. apply Hsel; [assumption|].
    left. now apply String.eqb_eq.
  - destruct (List.find (partial_match voice_name) (voices st)) as [v|] eqn:Hpa.
    + apply find_in in Hpa as [Hin Hm]. apply Hsel; auto.
    + split; [reflexivity | split; [discriminate | now left]].
Qed.

(** X10.  [apply_default_voice] records the default voice as the current
    one without looking at the engine's answer: after it answered True,
    [apply_voice] with the name of the default voice answers True, changes
    nothing and does not call the engine, also when the engine had refused
    the voice. *)
Theorem apply_default_then_voice (accepts accepts' : list string -> string -> bool)
        (st st' : VoiceState) :
  apply_default_voice accepts st = (true, st') ->
  apply_voice accepts' (default_voice st) st' = (true, st').
Proof.
  unfold apply_default_voice, apply_voice.
  destruct (PyStr.truthy (default_voice st) && voice_manager st) eqn:Hready;
    [|discriminate].
  apply andb_true_iff in Hready as [_ Hm].
  destruct (List.find _ (voices st)) as [v|] eqn:Hex; [|discriminate].
  assert (Hne : match voices st with [] => false | _ => true end = true)
    by (destruct (voices st); [discriminate | reflexivity]).
  destruct (bool_decide _) eqn:Hcur.
  - intros [= <-]. rewrite Hne, Hm, Hex. cbn [andb].
    destruct (PyStr.startswith _ _); [reflexivity|].
    unfold select_voice. now rewrite Hcur.
  - unfold engine_set_voice. intros [= <-]. cbn. rewrite Hne, Hm, Hex. cbn [andb].
    destruct (PyStr.startswith _ _); [reflexivity|].
    unfold select_voice. cbn. now rewrite bool_decide_eq_true_2.
Qed.

(** A run of X10 with an engine that refuses every voice. *)
Lemma apply_default_then_voice_witness :
  let st := mkVoiceState [mkVoice "Microsoft David" "0"] true "Microsoft David" None [] in
  let st' := mkVoiceState (voices st) true "Microsoft David" (Some "0") ["0"] in
  apply_voice (fun _ _ => false) "Microsoft David" st' = (true, st').
Proof.
  intros st st'.
  apply (apply_default_then_voice (fun _ _ => false) (fun _ _ => false) st st').
  reflexivity.
Defined.

(** ** What one chat message can change *)

Section ChatStep.
Variable msg : ChatMsg.
Variable s0 : App.

Lemma chat_step_refl : chat_step msg s0 s0.
Proof. unfold chat_step. repeat split; auto. Qed.

(** A step that touches neither list. *)
Lemma chat_step_fields (s s' : App) :
  chat_step msg s0 s ->
  config s' = config s ->
  (forall q, q ∈ message_queue s' -> q ∈ message_queue s \/ chat_entry msg q) ->
  (last_speaker s' = last_speaker s \/ last_speaker s' = Some (m_username msg)) ->
  (currently_speaking_user s' = currently_speaking_user s
   \/ currently_speaking_user s' = None) ->
  (forall u, u <> m_username msg ->
     user_voice_preferences s' !! u = user_voice_preferences s !! u) ->
  admin_listbox s' = admin_listbox s ->
  blocked_listbox s' = blocked_listbox s ->
  chat_step msg s0 s'.
Proof.
  intros (Hc & Hq & Hl & Hcur & Hp & Hna & Hnd) Hc' Hq' Hl' Hcur' Hp' Ha' Hb'.
  unfold chat_step. rewrite Hc', Ha', Hb'. repeat split; try assumption.
  - intros q Hin. destruct (Hq' q Hin) as [H | H]; [auto | now right].
  - destruct Hl' as [-> | ->]; [assumption | now right].
  - destruct Hcur' as [-> | ->]; [assumption | now right].
  - intros u Hu. rewrite Hp' by assumption. auto.
  - now apply Hna.
  - now apply Hna.
Qed.

Lemma log_event_step (e : event) (s : App) :
  chat_step msg s0 s -> chat_step msg s0 (log_event e s).
Proof. intros H. apply (chat_step_fields s); auto. Qed.

Lemma set_last_speaker_step (s : App) :
  chat_step msg s0 s -> chat_step msg s0 (set_last_speaker (Some (m_username msg)) s).
Proof. intros H. apply (chat_step_fields s); auto. Qed.

Lemma set_prefs_step (v : string) (s : App) :
  chat_step msg s0 s ->
  chat_step msg s0 (set_prefs (<[m_username msg := v]> (user_voice_preferences s)) s).
Proof.
  intros H. apply (chat_step_fields s); auto.
  intros u Hu. cbn. now rewrite lookup_insert_ne.
Qed.

Lemma set_queue_step (l : list QueuedMsg) (s : App) :
  (forall q, q ∈ l -> q ∈ message_queue s \/ chat_entry msg q) ->
  chat_step msg s0 s -> chat_step msg s0 (set_queue l s).
Proof. intros Hl H. apply (chat_step_fields s); auto. Qed.

Lemma queue_put_step (q : QueuedMsg) (s : App) :
  chat_entry msg q -> chat_step msg s0 s -> chat_step msg s0 (queue_put q s).
Proof.
  intros Hq H. unfold queue_put. apply set_queue_step; [|assumption].
  intros q' [Hin | ->%list_elem_of_singleton]%elem_of_app; auto.
Qed.

Lemma speak_step (text : string) (v u : option string) (s : App) :
  text <> "" -> chat_user msg u ->
  chat_step msg s0 s -> chat_step msg s0 (speak text v u s).
Proof.
  intros Ht Hu H. unfold speak. destruct (audio_manager _); [|assumption].
  apply queue_put_step; [|assumption]. split; [assumption|].
  destruct Hu as [-> | ->]; auto.
Qed.

Lemma speak_if_text_step (text : string) (v u : option string) (s : App) :
  chat_user msg u ->
  chat_step msg s0 s -> chat_step msg s0 (speak_if_text text v u s).
Proof.
  intros Hu H. unfold speak_if_text. destruct (PyStr.truthy text) eqn:Ht; [|assumption].
  apply speak_step; auto using truthy_true_nonempty.
Qed.

Lemma speak_with_voice_if_text_step (text v : string) (u : option string) (s : App) :
  chat_user msg u ->
  chat_step msg s0 s -> chat_step msg s0 (speak_with_voice_if_text text v u s).
Proof.
  intros Hu H. unfold speak_with_voice_if_text, speak_with_voice.
  destruct (PyStr.truthy text) eqn:Ht; [|assumption].
  destruct (negb _); [assumption|].
  apply speak_step; auto using truthy_true_nonempty.
Qed.
End ChatStep.

Create HintDb chat.

Section ChatBlocks.
Variable msg : ChatMsg.

Local Hint Resolve chat_step_refl log_event_step set_last_speaker_step set_prefs_step
  speak_step speak_if_text_step speak_with_voice_if_text_step : chat.

Lemma chat_user_sender : chat_user msg (Some (m_username msg)).
Proof. now left. Qed.

Lemma chat_user_none : chat_user msg None.
Proof. now right. Qed.

Local Hint Resolve chat_user_sender chat_user_none : chat.

Lemma process_voice_command_step (message : string) (s0 s : App) :
  message <> "" ->
  chat_step msg s0 s ->
  chat_step msg s0 (process_voice_command message (Some (m_username msg)) s).
Proof.
  intros Hne H. unfold process_voice_command.
  change (default "" (Some (m_username msg))) with (m_username msg).
  repeat match goal with
         | |- context [match ?x with _ => _ end] => destruct x
         end;
    auto 8 with chat.
Qed.

(** The empty message with the empty trigger configured: nothing is said. *)
Lemma process_voice_command_empty (u : option string) (s : App) :
  dict_has (voice_commands (config s)) "" = true ->
  process_voice_command "" u s = s.
Proof.
  unfold dict_has, process_voice_command.
  change (PyStr.startswith "" "/") with false.
  change (PyStr.startswith "" "v ") with false.
  change (PyStr.split_blank (Some 1) "") with [""]. cbv iota.
  destruct (dict_get _ _); [reflexivity | discriminate].
Qed.

Lemma random_voice_step (rnd : nat) (s0 s : App) :
  chat_step msg s0 s ->
  chat_step msg s0 (snd (get_random_voice_for_user (m_username msg) rnd s)).
Proof.
  intros H. unfold get_random_voice_for_user.
  destruct (available_voices _); cbn [snd]; auto with chat.
Qed.

Lemma resolve_voice_step (rnd : nat) (s0 s : App) :
  chat_step msg s0 s ->
  chat_step msg s0 (snd (resolve_voice (Some (m_username msg)) rnd s)).
Proof.
  intros H. unfold resolve_voice.
  destruct (if PyStr.truthy _ then _ else _); [assumption|].
  destruct (_ && _); [|assumption].
  pose proof (random_voice_step rnd s0 s H) as Hr.
  destruct (get_random_voice_for_user _ _ _) as [[rv|] s']; [|assumption].
  destruct (PyStr.truthy rv); assumption.
Qed.

Lemma speak_plain_step (text : string) (rnd : nat) (s0 s : App) :
  text <> "" ->
  chat_step msg s0 s ->
  chat_step msg s0 (speak_plain text (m_username msg) rnd s).
Proof.
  intros Hne H. unfold speak_plain.
  pose proof (resolve_voice_step rnd s0 s H) as Hr.
  destruct (resolve_voice _ _ _) as [[v|] s']; cbn [snd] in Hr; auto with chat.
Qed.

Lemma returned_ok (s0 s : App) :
  chat_step msg s0 s -> chat_ok msg s0 (Returned tt s).
Proof. intros H. split; [exact H | intros Hr; now elim Hr]. Qed.

Local Hint Resolve returned_ok process_voice_command_step speak_plain_step : chat.

Lemma voice_command_rules_ok (message : string) (s : App) :
  chat_ok msg s (voice_command_rules msg message s).
Proof.
  unfold voice_command_rules. run_monad.
  destruct message as [|c rest].
  - change (Re.is_match re_v_number "") with false.
    change (PyStr.startswith "" "/") with false.
    change (PyStr.startswith "" "v ") with false.
    change (hd "" (PyStr.split_blank None "")) with "". cbv iota. cbn [andb].
    destruct (dict_has _ _) eqn:Hd; [|auto with chat].
    rewrite process_voice_command_empty by assumption. auto with chat.
  - assert (Hne : String c rest <> "") by discriminate.
    repeat match goal with
           | |- context [if ?b then _ else _] => destruct b
           end;
      auto with chat.
Qed.

Lemma private_mode_gate_ok (message : string) (admins : list string) (s : App) :
  chat_ok msg s (private_mode_gate msg message admins s).
Proof.
  unfold private_mode_gate. run_monad.
  destruct (_ && _); [auto with chat | apply voice_command_rules_ok].
Qed.
(** *** The text after the prefix *)

Lemma length_append (a b : string) :
  String.length (a +:+ b) = String.length a + String.length b.
Proof. induction a as [|c a IH]; [reflexivity|]. rewrite append_cons. cbn. now rewrite IH. Qed.

Lemma length_rstrip (t : string) : String.length (PyStr.rstrip t) <= String.length t.
Proof.
  induction t as [|c t IH]; [reflexivity|]. cbn [PyStr.rstrip].
  destruct (PyStr.rstrip t); [destruct (PyStr.is_space c)|]; cbn in *; lia.
Qed.

Lemma rstrip_append_blank (a b : string) :
  PyStr.rstrip b = "" -> PyStr.rstrip (a +:+ b) = PyStr.rstrip a.
Proof.
  intros Hb. induction a as [|c a IH]; [assumption|].
  rewrite append_cons. cbn [PyStr.rstrip]. now rewrite IH.
Qed.

Lemma strip_empty (t : string) : PyStr.strip t = "" -> PyStr.rstrip t = "".
Proof.
  unfold PyStr.strip. induction t as [|c t IH]; [reflexivity|].
  cbn [PyStr.lstrip]. destruct (PyStr.is_space c) eqn:Hc; [|auto].
  intros H. cbn [PyStr.rstrip]. now rewrite (IH H), Hc.
Qed.

(** A stripped message that starts with the prefix and a blank has a text
    after them. *)
Lemma tts_text_nonempty (prefix message : string) :
  PyStr.rstrip message = message ->
  PyStr.startswith message (prefix +:+ " ") = true ->
  PyStr.strip (PyStr.drop (String.length (prefix +:+ " ")) message) <> "".
Proof.
  intros Hfix Hpre Hempty. apply strip_empty in Hempty.
  apply prefix_split in Hpre.
  pose proof (length_rstrip prefix) as Hlen.
  rewrite Hpre in Hfix at 1.
  rewrite (rstrip_append_blank _ _ Hempty) in Hfix.
  rewrite (rstrip_append_blank prefix " " eq_refl) in Hfix.
  rewrite Hfix, Hpre, !length_append in Hlen. cbn in Hlen. lia.
Qed.

Lemma rstrip_strip (t : string) : PyStr.rstrip (PyStr.strip t) = PyStr.strip t.
Proof. apply rstrip_idempotent. Qed.

Lemma prefix_nonempty (p t : string) :
  p <> "" -> PyStr.startswith t p = true -> t <> "".
Proof. intros Hp H ->. destruct p; [congruence | discriminate]. Qed.

Lemma tts_rule_ok (message : string) (admins : list string) (rnd : nat) (s : App) :
  PyStr.rstrip message = message ->
  chat_ok msg s (tts_rule msg message admins rnd s).
Proof.
  intros Hfix. unfold tts_rule. run_monad.
  destruct (PyStr.startswith message _) eqn:Hpre; [|apply private_mode_gate_ok].
  pose proof (tts_text_nonempty _ _ Hfix Hpre) as Hne.
  destruct (_ && _); [auto with chat|].
  destruct (PyStr.startswith _ "/"); [|destruct (PyStr.startswith _ "v ")];
    run_monad; auto 6 with chat.
Qed.
(** *** The commands of the admins *)

(** A step of a call whose sender is an admin may change the lists. *)
Lemma admin_step (s0 s s' : App) :
  m_username msg ∈ admin_listbox s0 ->
  chat_step msg s0 s ->
  config s' = config s ->
  (forall q, q ∈ message_queue s' -> q ∈ message_queue s \/ chat_entry msg q) ->
  (last_speaker s' = last_speaker s \/ last_speaker s' = Some (m_username msg)) ->
  (currently_speaking_user s' = currently_speaking_user s
   \/ currently_speaking_user s' = None) ->
  (forall u, u <> m_username msg ->
     user_voice_preferences s' !! u = user_voice_preferences s !! u) ->
  (NoDup (blocked_listbox s) -> NoDup (blocked_listbox s')) ->
  chat_step msg s0 s'.
Proof.
  intros Hadm (Hc & Hq & Hl & Hcur & Hp & Hna & Hnd) Hc' Hq' Hl' Hcur' Hp' Hnd'.
  unfold chat_step. rewrite Hc'. repeat split; try assumption; try contradiction.
  - intros q Hin. destruct (Hq' q Hin) as [H | H]; [auto | now right].
  - destruct Hl' as [-> | ->]; [assumption | now right].
  - destruct Hcur' as [-> | ->]; [assumption | now right].
  - intros u Hu. rewrite Hp' by assumption. auto.
  - auto.
Qed.

(** What [clear_user_from_queue] does to the other attributes. *)
Lemma clear_user_others (u : string) (flag : bool) (s : App) :
  let s' := clear_user_from_queue (Some u) flag s in
  last_speaker s' = last_speaker s
  /\ admin_listbox s' = admin_listbox s
  /\ user_voice_preferences s' = user_voice_preferences s
  /\ (currently_speaking_user s' = currently_speaking_user s
      \/ currently_speaking_user s' = None)
  /\ (blocked_listbox s' = blocked_listbox s
      \/ ((u ∉ blocked_listbox s) /\ blocked_listbox s' = blocked_listbox s ++ [u]))
  /\ (forall q, q ∈ message_queue s' -> q ∈ message_queue s).
Proof.
  unfold clear_user_from_queue.
  destruct (negb (PyStr.truthy u)); [cbv zeta; repeat split; auto|].
  assert (Hsub : forall (l : list QueuedMsg) q,
             q ∈ filter (fun m => other_user u m = true) l -> q ∈ l).
  { intros l q Hin. now apply list_elem_of_filter in Hin as [_ Hin]. }
  destruct (flag && negb (py_in u (blocked_listbox s))) eqn:Hadd.
  - apply andb_true_iff in Hadd as [_ Hnot]. apply negb_true_iff, py_in_false in Hnot.
    destruct (bool_decide _ && _); cbv zeta; cbn [stop_attempts]; fields;
      repeat split; auto.
  - destruct (bool_decide _ && _); cbv zeta; cbn [stop_attempts]; fields;
      repeat split; auto.
Qed.

Lemma clear_user_step (target : option string) (flag : bool) (s0 s : App) :
  target = Some (m_username msg) \/ m_username msg ∈ admin_listbox s0 ->
  chat_step msg s0 s ->
  chat_step msg s0 (clear_user_from_queue target flag s).
Proof.
  intros Htarget H. destruct target as [u|]; [|assumption].
  destruct (clear_user_others u flag s) as (Hl & Ha & Hp & Hcur & Hb & Hq).
  pose proof (clear_user_config (Some u) flag s) as Hc.
  set (s' := clear_user_from_queue (Some u) flag s) in *.
  assert (Hnd : NoDup (blocked_listbox s) -> NoDup (blocked_listbox s')).
  { intros Hnd. destruct Hb as [-> | [Hnot ->]]; [assumption|].
    apply NoDup_app. repeat split; [assumption | | apply NoDup_singleton].
    intros x Hx ->%list_elem_of_singleton. contradiction. }
  destruct H as (Hc0 & Hq0 & Hl0 & Hcur0 & Hp0 & Hna0 & Hnd0).
  unfold chat_step. rewrite Hc, Hl, Hp. repeat split; auto.
  - destruct Hcur as [-> | ->]; auto.
  - rewrite Ha. now apply Hna0.
  - destruct Htarget as [[= ->] | Hadm]; [|contradiction].
    destruct (Hna0 H) as [_ [Hsame | [Hnot Happ]]].
    + rewrite <- Hsame. exact Hb.
    + right. split; [assumption|].
      destruct Hb as [-> | [Hnew _]]; [assumption|].
      exfalso. apply Hnew. rewrite Happ. apply elem_of_app. right.
      now apply list_elem_of_singleton.
Qed.

(** The announcement in front of the queue. *)
Lemma announcement_front_step (t : string) (s0 s : App) :
  PyStr.truthy t = true ->
  chat_step msg s0 s ->
  chat_step msg s0
    (set_queue
       (mkQueued t (Some (announcement_voice (config s))) (Some announcement_user)
          :: message_queue s) s).
Proof.
  intros Ht H. apply set_queue_step; [|assumption].
  intros q [-> | Hin]%elem_of_cons; [right | now left].
  split; [now apply truthy_true_nonempty | auto].
Qed.

Lemma announce_at_front_run (t : option string) (s : App) :
  announce_at_front t s
  = Returned tt
      (match t with
       | Some t =>
           if PyStr.truthy t then
             set_queue
               (mkQueued t (Some (announcement_voice (config s))) (Some announcement_user)
                  :: message_queue s) s
           else s
       | None => s
       end).
Proof.
  unfold announce_at_front. destruct t as [t|]; [|reflexivity].
  destruct (PyStr.truthy t); [|reflexivity].
  unfold drain_queue, requeue, put_announcement. run_monad. fields.
  destruct s; reflexivity.
Qed.

Lemma announce_at_front_step (t : option string) (s0 s : App) :
  chat_step msg s0 s ->
  exists s', announce_at_front t s = Returned tt s' /\ chat_step msg s0 s'.
Proof.
  intros H. rewrite announce_at_front_run. eexists. split; [reflexivity|].
  destruct t as [t|]; [|assumption].
  destruct (PyStr.truthy t) eqn:Ht; [|assumption].
  now apply announcement_front_step.
Qed.

Lemma announce_at_front_ok (t : option string) (s0 s : App) :
  chat_step msg s0 s -> chat_ok msg s0 (announce_at_front t s).
Proof.
  intros H. destruct (announce_at_front_step t s0 s H) as (s' & -> & Hs').
  now apply returned_ok.
Qed.
Lemma raised_ok (e : exn) (s : App) :
  m_username msg ∈ admin_listbox s -> last_speaker s = None ->
  chat_ok msg s (Raised e s).
Proof. intros Ha Hl. split; [apply chat_step_refl | auto]. Qed.

Lemma block_clear_rule_ok (message : string) (rnd : nat) (s : App) :
  PyStr.rstrip message = message ->
  chat_ok msg s (block_clear_rule msg message (admin_listbox s) rnd s).
Proof.
  intros Hfix. unfold block_clear_rule.
  destruct (String.eqb _ _); [|now apply tts_rule_ok].
  destruct (py_in _ _) eqn:Ha; [|now apply tts_rule_ok].
  apply py_in_true in Ha. run_monad. fields.
  destruct (0 <? _)%nat; [|auto with chat].
  apply announce_at_front_ok, log_event_step.
  apply (admin_step s s); auto with chat.
  intros Hnd. cbn. eapply sublist_NoDup; [exact Hnd | apply sublist_delete].
Qed.

Lemma admin_add_rule_ok (message : string) (rnd : nat) (s : App) :
  PyStr.rstrip message = message ->
  chat_ok msg s (admin_add_rule msg message (admin_listbox s) rnd s).
Proof.
  intros Hfix. unfold admin_add_rule.
  destruct (String.eqb _ _); [|now apply block_clear_rule_ok].
  destruct (py_in _ _) eqn:Ha; [|now apply block_clear_rule_ok].
  apply py_in_true in Ha. unfold read_last_speaker. run_monad.
  destruct (last_speaker s) as [last|] eqn:Hl; [|now apply raised_ok].
  destruct (_ && _); [|auto with chat]. fields.
  apply announce_at_front_ok, log_event_step.
  apply (admin_step s s); auto with chat.
Qed.

Lemma block_rule_ok (message : string) (rnd : nat) (s : App) :
  PyStr.rstrip message = message ->
  chat_ok msg s (block_rule msg message (admin_listbox s) rnd s).
Proof.
  intros Hfix. unfold block_rule. cbv zeta.
  destruct (_ || _); [|now apply admin_add_rule_ok].
  destruct (py_in _ _) eqn:Ha; [|auto with chat].
  apply py_in_true in Ha. unfold read_last_speaker. run_monad.
  destruct (last_speaker s) as [last|] eqn:Hl; [|now apply raised_ok].
  fields.
  destruct (_ && _); [|auto with chat].
  unfold drain_queue, requeue, put_announcement. run_monad. fields.
  set (target := if truthy_opt _ then _ else _).
  assert (Hpurged : chat_step msg s
            (log_event SaveBlocked (clear_user_from_queue target true s)))
    by auto using clear_user_step with chat.
  rewrite clear_user_config.
  destruct (get_announcement_text _ _ _ _) as [t|]; [destruct (PyStr.truthy t) eqn:Ht|];
    run_monad; fields; apply returned_ok;
    (eapply chat_step_fields; [exact Hpurged|..]); try reflexivity; auto.
  intros q Hin. cbn in Hin. apply elem_of_cons in Hin as [-> | Hin]; [right | now left].
  split; [now apply truthy_true_nonempty | auto].
Qed.
Lemma stop_all_speech_step (s0 s : App) :
  chat_step msg s0 s -> chat_step msg s0 (stop_all_speech s).
Proof.
  intros H. unfold stop_all_speech.
  destruct (audio_manager _); [|assumption].
  destruct (dectalk_module _); cbn [config log_event]; auto with chat.
  apply set_queue_step; [|auto with chat].
  intros q Hin. now apply elem_of_nil in Hin.
Qed.

Lemma force_stop_tts_step (s0 s : App) :
  chat_step msg s0 s -> chat_step msg s0 (force_stop_tts s).
Proof. intros H. unfold force_stop_tts. destruct (audio_manager _); auto with chat. Qed.

Lemma stop_rule_ok (message : string) (rnd : nat) (s : App) :
  PyStr.rstrip message = message ->
  chat_ok msg s (stop_rule msg message (admin_listbox s) rnd s).
Proof.
  intros Hfix. unfold stop_rule.
  destruct (String.eqb _ _); [|now apply block_rule_ok].
  destruct (py_in _ _); run_monad; auto using stop_all_speech_step with chat.
Qed.

Lemma admin_commands_ok (rnd : nat) (s : App) :
  chat_ok msg s (admin_commands msg rnd s).
Proof.
  unfold admin_commands. run_monad.
  destruct (String.eqb _ _); [|apply stop_rule_ok, rstrip_strip].
  destruct (py_in _ _); run_monad; auto using force_stop_tts_step with chat.
Qed.

Lemma auto_block_ok (s : App) : chat_ok msg s (auto_block msg s).
Proof.
  unfold auto_block. run_monad. rewrite announce_at_front_run. cbv iota beta.
  apply returned_ok, log_event_step.
  assert (Hpurged : chat_step msg s
            (log_event SaveBlocked
               (clear_user_from_queue (Some (m_username msg)) true s)))
    by auto using clear_user_step with chat.
  destruct (get_announcement_text _ _ _ _) as [t|]; [|assumption].
  destruct (PyStr.truthy t) eqn:Ht; [|assumption].
  now apply announcement_front_step.
Qed.

Lemma auto_block_check_ok (rnd : nat) (s : App) :
  chat_ok msg s (auto_block_check msg rnd s).
Proof.
  unfold auto_block_check. run_monad.
  destruct (if auto_block_var _ then _ else _);
    [apply auto_block_ok | apply admin_commands_ok].
Qed.

(** The line in the chat display changes nothing that [chat_ok] reads. *)
Lemma chat_ok_shown (s : App) (o : outcome unit) :
  chat_ok msg (shown msg s) o -> chat_ok msg s o.
Proof. intros H. exact H. Qed.

(** Every call of [on_chat_message] stays within [chat_ok]. *)
Lemma on_chat_message_ok (rnd : nat) (s : App) :
  chat_ok msg s (on_chat_message msg rnd s).
Proof.
  destruct (decide (m_username msg ∈ blocked_listbox s)) as [Hb | Hb].
  - rewrite on_chat_blocked by assumption. apply chat_ok_shown, returned_ok, chat_step_refl.
  - rewrite on_chat_not_blocked by assumption. apply chat_ok_shown, auto_block_check_ok.
Qed.
End ChatBlocks.

(** X11.  A sender who is no admin cannot make [on_chat_message] raise,
    cannot change the list of admins, and can add nobody to the blocked
    list but themself: the call returns, with the admin list as it was and
    the blocked list either as it was or with the sender, who was not in
    it, appended. *)
Theorem chat_non_admin_safe (msg : ChatMsg) (rnd : nat) (s : App) :
  m_username msg ∉ admin_listbox s ->
  exists s',
    on_chat_message msg rnd s = Returned tt s'
    /\ admin_listbox s' = admin_listbox s
    /\ (blocked_listbox s' = blocked_listbox s
        \/ ((m_username msg ∉ blocked_listbox s)
            /\ blocked_listbox s' = blocked_listbox s ++ [m_username msg])).
Proof.
  intros Hna.
  destruct (on_chat_message_ok msg rnd s) as [(_ & _ & _ & _ & _ & Hlists & _) Hraise].
  destruct (on_chat_message msg rnd s) as [[] s' | e s'] eqn:Ho.
  - exists s'. split; [reflexivity|]. now apply Hlists.
  - exfalso. destruct Hraise as [Ha _]; [discriminate | contradiction].
Qed.

(** A run of X11: a word of the auto-block list from Bob. *)
Lemma chat_non_admin_safe_witness :
  exists s',
    on_chat_message (chat "Bob" "you cheater") 0 fresh_app = Returned tt s'
    /\ admin_listbox s' = ["Admin"]
    /\ (blocked_listbox s' = []
        \/ (("Bob" ∉ blocked_listbox fresh_app) /\ blocked_listbox s' = [] ++ ["Bob"])).
Proof.
  apply (chat_non_admin_safe (chat "Bob" "you cheater") 0 fresh_app).
  apply (proj1 (py_in_false _ _)). reflexivity.
Defined.

(** X12.  Once a last speaker is recorded, [on_chat_message] cannot raise
    and a last speaker stays recorded: the call returns, and the last
    speaker is the old one or the sender. *)
Theorem chat_last_speaker_kept (msg : ChatMsg) (rnd : nat) (s : App) (last : string) :
  last_speaker s = Some last ->
  exists s',
    on_chat_message msg rnd s = Returned tt s'
    /\ (last_speaker s' = Some last \/ last_speaker s' = Some (m_username msg)).
Proof.
  intros Hl.
  destruct (on_chat_message_ok msg rnd s) as [(_ & _ & Hlast & _) Hraise].
  destruct (on_chat_message msg rnd s) as [[] s' | e s'] eqn:Ho.
  - exists s'. split; [reflexivity|]. now rewrite <- Hl.
  - exfalso. destruct Hraise as [_ Hnone]; [discriminate | congruence].
Qed.

(** A run of X12: the admin's [!block] after Bob has used the prefix. *)
Lemma chat_last_speaker_kept_witness :
  exists s',
    on_chat_message (chat "Admin" "!block") 0
      (final_state (on_chat_message (chat "Bob" "!tts hello") 0 fresh_app))
    = Returned tt s'
    /\ (last_speaker s' = Some "Bob" \/ last_speaker s' = Some "Admin").
Proof.
  apply (chat_last_speaker_kept (chat "Admin" "!block") 0
           (final_state (on_chat_message (chat "Bob" "!tts hello") 0 fresh_app)) "Bob").
  reflexivity.
Defined.

(** X13.  Whatever the message, every entry of the speech queue after
    [on_chat_message] was in the queue before the call or is new with a
    non-empty text and, as its user, the sender, nobody, or the marker of
    the announcements: a call puts no empty text in the queue and speaks
    under no other user's name. *)
Theorem chat_queue_entries (msg : ChatMsg) (rnd : nat) (s : App) (q : QueuedMsg) :
  q ∈ message_queue (final_state (on_chat_message msg rnd s)) ->
  q ∈ message_queue s
  \/ (q_text q <> ""
      /\ (q_username q = Some (m_username msg) \/ q_username q = None
          \/ q_username q = Some announcement_user)).
Proof.
  destruct (on_chat_message_ok msg rnd s) as [(_ & Hq & _) _]. apply Hq.
Qed.

(** A run of X13. *)
Lemma chat_queue_entries_witness :
  mkQueued "hello" None (Some "Bob") ∈ message_queue fresh_app
  \/ ("hello" <> ""
      /\ (Some "Bob" = Some "Bob" \/ Some "Bob" = None
          \/ Some "Bob" = Some announcement_user)).
Proof.
  apply (chat_queue_entries (chat "Bob" "!tts hello") 0 fresh_app
           (mkQueued "hello" None (Some "Bob"))).
  apply list_elem_of_singleton. reflexivity.
Defined.

(** X14.  [on_chat_message] keeps the blocked list free of duplicates. *)
Theorem chat_blocked_nodup (msg : ChatMsg) (rnd : nat) (s : App) :
  NoDup (blocked_listbox s) ->
  NoDup (blocked_listbox (final_state (on_chat_message msg rnd s))).
Proof.
  destruct (on_chat_message_ok msg rnd s) as [(_ & _ & _ & _ & _ & _ & Hnd) _]. exact Hnd.
Qed.

(** A run of X14. *)
Lemma chat_blocked_nodup_witness :
  NoDup (blocked_listbox
           (final_state (on_chat_message (chat "Bob" "you cheater") 0 fresh_app))).
Proof.
  apply (chat_blocked_nodup (chat "Bob" "you cheater") 0 fresh_app).
  apply NoDup_nil_2.
Defined.

(** X15.  [on_chat_message] reads the configuration and never writes it,
    changes the voice preference of nobody but the sender, and makes
    nobody the current speaker: the marker is as it was or cleared. *)
Theorem chat_touches_sender_only (msg : ChatMsg) (rnd : nat) (s : App) (u : string) :
  u <> m_username msg ->
  let s' := final_state (on_chat_message msg rnd s) in
  user_voice_preferences s' !! u = user_voice_preferences s !! u
  /\ config s' = config s
  /\ (currently_speaking_user s' = currently_speaking_user s
      \/ currently_speaking_user s' = None).
Proof.
  intros Hu.
  destruct (on_chat_message_ok msg rnd s) as [(Hc & _ & _ & Hcur & Hp & _) _].
  cbv zeta. auto.
Qed.

(** A run of X15: Bob chooses a voice, Eve's preference is as before. *)
Lemma chat_touches_sender_only_witness :
  let s := set_prefs (<["Eve" := "Sam"]> ∅) fresh_app in
  let s' := final_state (on_chat_message (chat "Bob" "!tts /vt 1 hi") 0 s) in
  user_voice_preferences s' !! "Eve" = user_voice_preferences s !! "Eve"
  /\ config s' = config s
  /\ (currently_speaking_user s' = currently_speaking_user s
      \/ currently_speaking_user s' = None).
Proof.
  apply (chat_touches_sender_only (chat "Bob" "!tts /vt 1 hi") 0
           (set_prefs (<["Eve" := "Sam"]> ∅) fresh_app) "Eve").
  discriminate.
Defined.

(** ** Runs of the moderation lemmas *)

(** A run of X16: Bob, blocked after Eve, is the one that
    [!block clear] takes off the list. *)
Lemma block_clear_lifo_witness :
  let s := set_blocked ["Eve"; "Bob"] fresh_app in
  exists s',
    on_chat_message (chat "Admin" "!block clear") 0 s = Returned tt s'
    /\ blocked_listbox s' = ["Eve"]
    /\ message_queue s'
       = announcement_entry (config s)
           (get_announcement_text (config s) "BLOCK REMOVE" "" (Some "Bob"))
         ++ message_queue s.
Proof.
  intros s.
  assert (Hnb : m_username (chat "Admin" "!block clear") ∉ blocked_listbox s)
    by (apply (proj1 (py_in_false _ _)); reflexivity).
  apply (block_clear_lifo (chat "Admin" "!block clear") 0 s Hnb eq_refl ["Eve"] "Bob").
  - reflexivity.
  - apply py_in_true. reflexivity.
  - reflexivity.
  - discriminate.
Defined.

(** A run of X17: nobody is speaking, Bob spoke
    last, and the admin's [!block] blocks Bob. *)
Lemma block_target_resolution_witness :
  let s := final_state (on_chat_message (chat "Bob" "!tts hello") 0 fresh_app) in
  let msg := chat "Admin" "!block" in
  let target :=
    if truthy_opt (currently_speaking_user s) then currently_speaking_user s
    else Some "Bob" in
  let purged := log_event SaveBlocked (clear_user_from_queue target true (shown msg s)) in
  on_chat_message msg 0 s
  = Returned tt
      (if truthy_opt target && negb (bool_decide (target = Some (m_username msg)))
       then set_queue
              (announcement_entry (config s)
                 (get_announcement_text (config s) "BLOCK ADD" "" target)
               ++ message_queue purged)
              (set_queue [] purged)
       else shown msg s).
Proof.
  intros s msg.
  assert (Hnb : m_username msg ∉ blocked_listbox s)
    by (apply (proj1 (py_in_false _ _)); reflexivity).
  apply (block_target_resolution msg 0 s Hnb eq_refl "Bob").
  - reflexivity.
  - apply py_in_true. reflexivity.
  - left. reflexivity.
  - discriminate.
Defined.

(** A run of X18: Bob's [!stop] only shows in the chat
    display. *)
Lemma non_admin_moderation_witness :
  on_chat_message (chat "Bob" "!stop") 0 fresh_app
  = Returned tt (shown (chat "Bob" "!stop") fresh_app).
Proof.
  assert (Hnb : m_username (chat "Bob" "!stop") ∉ blocked_listbox fresh_app)
    by (apply (proj1 (py_in_false _ _)); reflexivity).
  assert (Hna : m_username (chat "Bob" "!stop") ∉ admin_listbox fresh_app)
    by (apply (proj1 (py_in_false _ _)); reflexivity).
  destruct (non_admin_moderation (chat "Bob" "!stop") 0 fresh_app Hnb eq_refl Hna)
    as [Hquiet _].
  apply Hquiet. right. left. reflexivity.
Defined.

(** ** The settings that are read back from text *)

Lemma lower_append (a b : string) :
  PyStr.lower (a +:+ b) = PyStr.lower a +:+ PyStr.lower b.
Proof.
  induction a as [|c a IH]; [reflexivity|].
  rewrite append_cons. cbn [PyStr.lower]. now rewrite IH, append_cons.
Qed.

Lemma find_is_some {A} (p : A -> bool) (l : list A) (x : A) :
  x ∈ l -> p x = true -> is_Some (List.find p l).
Proof.
  induction l as [|a l IH]; intros Hin Hp; [now apply elem_of_nil in Hin|].
  cbn [List.find]. destruct (p a) eqn:Ha; [eauto|].
  apply elem_of_cons in Hin as [-> | Hin]; [congruence | auto].
Qed.

Lemma save_auto_block_kept (text k : string) :
  k ∈ save_auto_block text -> k <> "" /\ PyStr.strip k = k.
Proof.
  unfold save_auto_block. intros (line & _ & Hk)%list_elem_of_omap.
  destruct (PyStr.truthy (PyStr.strip line)) eqn:Ht; [|discriminate].
  injection Hk as <-. split; [now apply truthy_true_nonempty | apply strip_idempotent].
Qed.

(** X19.  For a settings text and a message within ASCII.  Every keyword
    that [save_auto_block] keeps from the text of the settings box is
    non-empty and stripped, so the scan of the auto-block never skips it:
    a message that contains the keyword, in whatever letter case, is
    caught by the scan over the saved keywords. *)
Theorem saved_keyword_blocks (text k written before after : string) :
  ascii_text text = true ->
  ascii_text (before +:+ written +:+ after) = true ->
  k ∈ save_auto_block text ->
  PyStr.lower written = PyStr.lower k ->
  k <> "" /\ PyStr.strip k = k
  /\ is_Some (auto_block_scan (save_auto_block text) (before +:+ written +:+ after)).
Proof.
  intros _ _ Hin Hcase. destruct (save_auto_block_kept text k Hin) as [Hne Hstrip].
  repeat split; try assumption.
  unfold auto_block_scan. apply (find_is_some _ _ k Hin).
  unfold keyword_hits. rewrite (truthy_nonempty k Hne). cbn [andb].
  rewrite !lower_append, Hcase. apply contains_append.
Qed.

(** A run of X19. *)
Lemma saved_keyword_blocks_witness :
  "aimbot" <> "" /\ PyStr.strip "aimbot" = "aimbot"
  /\ is_Some (auto_block_scan (save_auto_block ("cheater" +:+ nl +:+ "  aimbot " +:+ nl))
                ("nice " +:+ "AimBot" +:+ " you have")).
Proof.
  apply (saved_keyword_blocks ("cheater" +:+ nl +:+ "  aimbot " +:+ nl) "aimbot" "AimBot"
           "nice " " you have").
  - reflexivity.
  - reflexivity.
  - apply elem_of_cons. right. apply list_elem_of_singleton. reflexivity.
  - reflexivity.
Defined.

(** *** The list box of the voice preferences *)

Lemma split_first_colon (u m : string) :
  PyStr.contains ":" u = false ->
  PyText.split_first ":" (u +:+ ":" +:+ m) = Some (u, m).
Proof.
  induction u as [|c u IH]; intros Hu.
  - change ("" +:+ ":" +:+ m) with (":" +:+ m).
    rewrite split_first_here by apply prefix_append. now rewrite drop_append.
  - rewrite append_cons.
    assert (Hp : String.prefix ":" (String c (u +:+ ":" +:+ m)) = false).
    { pose proof (contains_prefix _ _ Hu) as Hpre.
      change ":" with (String ":" "") in Hpre |- *.
      rewrite prefix_cons in Hpre |- *.
      destruct (ascii_dec ":" c); [now rewrite prefix_nil in Hpre | reflexivity]. }
    rewrite (split_first_later _ _ _ Hp), IH; [reflexivity | now apply contains_tail in Hu].
Qed.

Lemma strip_after_blank (v : string) : PyStr.strip (" " +:+ v) = PyStr.strip v.
Proof. reflexivity. Qed.

Lemma save_user_voice_entry (prefs : gmap string string) (u v : string) :
  well_formed_entry (u, v) ->
  save_user_voice prefs (user_voice_entry u v) = <[u := v]> prefs.
Proof.
  intros (Hcolon & Hu & Hv). cbn [fst snd] in *.
  unfold save_user_voice, user_voice_entry.
  change (u +:+ ": " +:+ v) with (u +:+ ":" +:+ (" " +:+ v)).
  rewrite contains_append. unfold PyText.split_once.
  rewrite split_first_colon by assumption.
  now rewrite strip_after_blank, Hu, Hv.
Qed.

Lemma save_user_voices_from (l : list (string * string)) (prefs : gmap string string) :
  Forall well_formed_entry l ->
  foldl save_user_voice prefs (map (fun e => user_voice_entry (fst e) (snd e)) l)
  = foldl (fun m e => <[fst e := snd e]> m) prefs l.
Proof.
  revert prefs. induction l as [|[u v] l IH]; intros prefs Hwf; [reflexivity|].
  inversion Hwf; subst. cbn [map foldl fst snd].
  rewrite save_user_voice_entry by assumption. now apply IH.
Qed.

Lemma foldl_insert_map (l : list (string * string)) (prefs : gmap string string) :
  NoDup (map fst l) ->
  foldl (fun m e => <[fst e := snd e]> m) prefs l = list_to_map l ∪ prefs.
Proof.
  revert prefs. induction l as [|[k v] l IH]; intros prefs Hnd.
  - cbn. now rewrite (left_id_L ∅ (∪)).
  - cbn [map fst] in Hnd. apply NoDup_cons in Hnd as [Hk Hnd].
    cbn [foldl fst snd list_to_map foldr uncurry]. rewrite IH by assumption.
    rewrite <- insert_union_l. symmetry. apply insert_union_r.
    apply not_elem_of_list_to_map_1. exact Hk.
Qed.

(** X20.  The list box of the voice preferences is read back as it was
    written: for pairs of a user name and a voice with distinct names, in
    any order, where no name has a colon and neither names nor voices have
    blanks at their ends, [save_user_voices] on the entries
    [name: voice] gives exactly the map of the pairs. *)
Theorem save_user_voices_round_trip (l : list (string * string)) :
  Forall well_formed_entry l ->
  NoDup (map fst l) ->
  save_user_voices (map (fun e => user_voice_entry (fst e) (snd e)) l) = list_to_map l.
Proof.
  intros Hwf Hnd. unfold save_user_voices.
  rewrite save_user_voices_from by assumption.
  rewrite foldl_insert_map by assumption. apply (right_id_L ∅ (∪)).
Qed.

(** A run of X20. *)
Lemma save_user_voices_round_trip_witness :
  save_user_voices
    (map (fun e => user_voice_entry (fst e) (snd e))
         [("Bob", "Sam"); ("Eve the 2nd", "[DECtalk] Betty")])
  = list_to_map [("Bob", "Sam"); ("Eve the 2nd", "[DECtalk] Betty")].
Proof.
  apply (save_user_voices_round_trip [("Bob", "Sam"); ("Eve the 2nd", "[DECtalk] Betty")]).
  - repeat constructor.
  - cbn [map fst]. repeat constructor; intros H; repeat (apply elem_of_cons in H as [H | H]; [discriminate|]);
      now apply elem_of_nil in H.
Defined.

(** A name with a colon is not read back: the entry is cut at the first
    colon. *)
Example save_user_voices_colon :
  save_user_voices [user_voice_entry "a:b" "Sam"] = {[ "a" := "b: Sam" ]}.
Proof. reflexivity. Qed.

(** ** The patterns on a well-formed voice command *)

Lemma append_nil_r (a : string) : a +:+ "" = a.
Proof. induction a as [|c a IH]; [reflexivity|]. now rewrite append_cons, IH. Qed.

Lemma star_greedy {A} (cls : ascii -> bool) (a b : string)
      (k : string -> option A) (r : A) :
  every cls a = true -> stops cls b = true -> k b = Some r ->
  Re.star cls (a +:+ b) k = Some r.
Proof.
  intros Ha Hb Hk. induction a as [|c a IH].
  - change ("" +:+ b) with b. destruct b as [|c b]; [exact Hk|].
    cbn [Re.star]. cbn [stops] in Hb. apply negb_true_iff in Hb. now rewrite Hb.
  - cbn [every] in Ha. apply andb_true_iff in Ha as [Hc Ha].
    rewrite append_cons. cbn [Re.star]. now rewrite Hc, (IH Ha).
Qed.

Lemma plus_greedy (cls : ascii -> bool) (a b : string) (caps res : Re.captures)
      (k : string -> Re.captures -> option Re.captures) :
  a <> "" -> every cls a = true -> stops cls b = true ->
  k b caps = Some res ->
  Re.run (Re.Plus cls) (a +:+ b) caps k = Some res.
Proof.
  intros Hne Ha Hb Hk. destruct a as [|c a]; [congruence|].
  cbn [every] in Ha. apply andb_true_iff in Ha as [Hc Ha].
  rewrite append_cons. cbn [Re.run]. rewrite Hc.
  now apply (star_greedy cls a b (fun rest => k rest caps)).
Qed.

Lemma lit_run (l s : string) (caps : Re.captures)
      (k : string -> Re.captures -> option Re.captures) :
  Re.run (Re.Lit l) (l +:+ s) caps k = k s caps.
Proof. cbn [Re.run]. now rewrite prefix_append, drop_append. Qed.

Lemma substring_append (a b : string) : String.substring 0 (String.length a) (a +:+ b) = a.
Proof.
  induction a as [|c a IH].
  - cbn. now destruct b.
  - rewrite append_cons. cbn. now rewrite IH.
Qed.

Lemma consumed_append (a b : string) : Re.consumed (a +:+ b) b = a.
Proof.
  unfold Re.consumed. rewrite length_append.
  replace (String.length a + String.length b - String.length b) with (String.length a) by lia.
  apply substring_append.
Qed.

Lemma digit_no_space (c : ascii) : PyStr.is_digit c = true -> PyStr.is_space c = false.
Proof.
  unfold PyStr.is_digit, PyStr.is_space. cbv zeta.
  intros [H1 H2]%andb_true_iff. apply Nat.leb_le in H1.
  apply orb_false_iff. split; apply andb_false_iff; right; apply Nat.leb_gt; lia.
Qed.

Lemma digits_stop_blanks (d rest : string) :
  d <> "" -> every PyStr.is_digit d = true -> stops PyStr.is_space (d +:+ rest) = true.
Proof.
  intros Hne Hd. destruct d as [|c d]; [congruence|].
  cbn [every] in Hd. apply andb_true_iff in Hd as [Hc _].
  rewrite append_cons. cbn [stops]. now rewrite (digit_no_space c Hc).
Qed.

Lemma seq_run (r1 r2 : Re.t) (s : string) (caps : Re.captures)
      (k : string -> Re.captures -> option Re.captures) :
  Re.run (Re.Seq r1 r2) s caps k
  = Re.run r1 s caps (fun rest caps' => Re.run r2 rest caps' k).
Proof. reflexivity. Qed.

Lemma group_run (n : nat) (r : Re.t) (s : string) (caps : Re.captures)
      (k : string -> Re.captures -> option Re.captures) :
  Re.run (Re.Group n r) s caps k
  = Re.run r s caps (fun rest caps' => k rest ((n, Re.consumed s rest) :: caps')).
Proof. reflexivity. Qed.

Lemma opt_run (r : Re.t) (s : string) (caps res : Re.captures)
      (k : string -> Re.captures -> option Re.captures) :
  Re.run r s caps k = Some res -> Re.run (Re.Opt r) s caps k = Some res.
Proof. intros H. cbn [Re.run]. now rewrite H. Qed.

Lemma star_run (cls : ascii -> bool) (a b : string) (caps res : Re.captures)
      (k : string -> Re.captures -> option Re.captures) :
  every cls a = true -> stops cls b = true ->
  k b caps = Some res ->
  Re.run (Re.Star cls) (a +:+ b) caps k = Some res.
Proof. intros Ha Hb Hk. now apply (star_greedy cls a b (fun rest => k rest caps)). Qed.

(** The tail shared by the patterns of the numbered commands, on a number
    and a text. *)
Lemma number_and_text_run (d t : string) (caps : Re.captures) :
  d <> "" -> every PyStr.is_digit d = true -> spoken_text t = true ->
  Re.run re_number_and_text (" " +:+ d +:+ " " +:+ t) caps (fun _ caps' => Some caps')
  = Some ((2, t) :: (1, d) :: caps).
Proof.
  intros Hne Hd Ht. unfold spoken_text in Ht.
  apply andb_true_iff in Ht as [[Htruthy Hstop]%andb_true_iff Hdot].
  unfold re_number_and_text. rewrite seq_run.
  apply (plus_greedy PyStr.is_space " " (d +:+ " " +:+ t));
    [discriminate | reflexivity | now apply digits_stop_blanks |].
  rewrite seq_run, group_run.
  apply (plus_greedy PyStr.is_digit d (" " +:+ t));
    [assumption | assumption | reflexivity |].
  rewrite consumed_append, seq_run. apply opt_run. rewrite seq_run.
  apply (plus_greedy PyStr.is_space " " t); [discriminate | reflexivity | assumption |].
  rewrite group_run. rewrite <- (append_nil_r t) at 1.
  apply star_run; [assumption | reflexivity |].
  replace (Re.consumed t "") with t; [reflexivity|].
  rewrite <- (append_nil_r t) at 2. symmetry. apply consumed_append.
Qed.

Lemma toggle_mismatch (toggle_cmd rest : string) :
  PyStr.startswith rest toggle_cmd = false ->
  Re.rmatch (re_toggle toggle_cmd) ("/" +:+ rest) = None.
Proof.
  intros H. unfold Re.rmatch, re_toggle. rewrite seq_run, lit_run, seq_run.
  cbn [Re.run]. unfold PyStr.startswith in H. now rewrite H.
Qed.

(** The pattern of the numbered command on [/v N text]. *)
Lemma number_command_match (d t : string) :
  d <> "" -> every PyStr.is_digit d = true -> spoken_text t = true ->
  Re.rmatch re_v_number_text ("/v " +:+ d +:+ " " +:+ t) = Some [(2, t); (1, d)].
Proof.
  intros Hne Hd Ht. unfold Re.rmatch, re_v_number_text. rewrite seq_run.
  change ("/v " +:+ d +:+ " " +:+ t) with ("/v" +:+ (" " +:+ d +:+ " " +:+ t)).
  rewrite lit_run. now apply number_and_text_run.
Qed.

(** X21.  [process_voice_command] on a numbered voice command with a text,
    [/v N text] with N a number and the text on one line: unless the
    message starts with the toggle command, the text alone is handed to
    [speak_with_voice] with the voice configured for [v N] and under the
    given user name; if [v N] is not configured, a warning is logged and
    the text is spoken with no voice named. *)
Theorem voice_number_command (d t : string) (username : option string) (s : App) :
  d <> "" -> every PyStr.is_digit d = true -> spoken_text t = true ->
  PyStr.startswith ("v " +:+ d +:+ " " +:+ t)
    (PyStr.lstrip_char "/" (voice_toggle_command (config s))) = false ->
  process_voice_command ("/v " +:+ d +:+ " " +:+ t) username s
  = match dict_get (voice_commands (config s)) ("v " +:+ d) with
    | Some voice => speak_with_voice t voice username s
    | None =>
        speak t None username
          (log_event (LogWarning ("Voice command 'v " +:+ d +:+ "' is not configured")) s)
    end.
Proof.
  intros Hne Hd Ht Htoggle. unfold process_voice_command.
  change ("/v " +:+ d +:+ " " +:+ t) with ("/" +:+ ("v " +:+ d +:+ " " +:+ t)) at 1 2.
  change (PyStr.startswith ("/" +:+ ("v " +:+ d +:+ " " +:+ t)) "/") with true. cbv iota.
  rewrite (toggle_mismatch _ _ Htoggle).
  rewrite (number_command_match d t Hne Hd Ht). unfold group1, group2_or_empty. cbn [Re.group Nat.eqb default from_option id].
  unfold spoken_text in Ht. apply andb_true_iff in Ht as [[Htruthy _]%andb_true_iff _].
  unfold speak_with_voice_if_text, speak_if_text. rewrite Htruthy.
  destruct (dict_get _ _); reflexivity.
Qed.

(** A run of X21. *)
Lemma voice_number_command_witness :
  process_voice_command ("/v " +:+ "1" +:+ " " +:+ "hello there") (Some "Bob") fresh_app
  = match dict_get (voice_commands (config fresh_app)) ("v " +:+ "1") with
    | Some voice => speak_with_voice "hello there" voice (Some "Bob") fresh_app
    | None =>
        speak "hello there" None (Some "Bob")
          (log_event (LogWarning ("Voice command 'v " +:+ "1" +:+ "' is not configured"))
             fresh_app)
    end.
Proof.
  apply (voice_number_command "1" "hello there" (Some "Bob") fresh_app);
    [discriminate | reflexivity | reflexivity | reflexivity].
Defined.

(** X22.  The toggle command with a number and a text, from a named user
    and with a non-empty voice configured for [v N]: the voice becomes the
    user's preference, the configuration is saved, and the text is spoken
    with that voice; from then on a plain message of the user is spoken
    with the voice, without a random draw. *)
Theorem voice_toggle_sets_preference (d t u voice : string) (s : App) :
  d <> "" -> every PyStr.is_digit d = true -> spoken_text t = true ->
  u <> "" -> voice <> "" ->
  dict_get (voice_commands (config s)) ("v " +:+ d) = Some voice ->
  let toggle_cmd := PyStr.lstrip_char "/" (voice_toggle_command (config s)) in
  let s' := process_voice_command ("/" +:+ toggle_cmd +:+ " " +:+ d +:+ " " +:+ t)
              (Some u) s in
  s' = speak_with_voice t voice (Some u)
         (log_event SaveConfig (set_prefs (<[u := voice]> (user_voice_preferences s)) s))
  /\ forall text rnd, speak_plain text u rnd s' = speak text (Some voice) (Some u) s'.
Proof.
  intros Hne Hd Ht Hu Hvoice Hvc toggle_cmd.
  assert (Hrun : process_voice_command ("/" +:+ toggle_cmd +:+ " " +:+ d +:+ " " +:+ t)
                   (Some u) s
                 = speak_with_voice t voice (Some u)
                     (log_event SaveConfig
                        (set_prefs (<[u := voice]> (user_voice_preferences s)) s))).
  { unfold process_voice_command. fold toggle_cmd.
    unfold PyStr.startswith at 1. rewrite prefix_append.
    assert (Hm : Re.rmatch (re_toggle toggle_cmd)
                   ("/" +:+ toggle_cmd +:+ " " +:+ d +:+ " " +:+ t)
                 = Some [(2, t); (1, d)]).
    { unfold Re.rmatch, re_toggle. rewrite seq_run, lit_run, seq_run, lit_run.
      now apply number_and_text_run. }
    rewrite Hm. unfold group1, group2_or_empty.
    cbn [Re.group Nat.eqb default from_option id].
    unfold dict_has. rewrite Hvc. cbn [truthy_opt]. rewrite (truthy_nonempty u Hu).
    cbn [andb default from_option id]. rewrite (truthy_nonempty voice Hvoice). cbn [negb].
    unfold spoken_text in Ht. apply andb_true_iff in Ht as [[Htruthy _]%andb_true_iff _].
    unfold speak_with_voice_if_text. now rewrite Htruthy. }
  cbv zeta. rewrite Hrun. split; [reflexivity|].
  intros text rnd. unfold speak_plain, resolve_voice. rewrite (truthy_nonempty u Hu).
  assert (Hp : user_voice_preferences
                 (speak_with_voice t voice (Some u)
                    (log_event SaveConfig
                       (set_prefs (<[u := voice]> (user_voice_preferences s)) s))) !! u
               = Some voice).
  { unfold speak_with_voice, speak, queue_put.
    destruct (audio_manager _); cbn; apply lookup_insert_eq. }
  now rewrite Hp.
Qed.

(** A run of X22. *)
Lemma voice_toggle_sets_preference_witness :
  let s' := process_voice_command ("/" +:+ "vt" +:+ " " +:+ "3" +:+ " " +:+ "hi all")
              (Some "Bob") fresh_app in
  s' = speak_with_voice "hi all" "[DECtalk] Betty" (Some "Bob")
         (log_event SaveConfig
            (set_prefs (<["Bob" := "[DECtalk] Betty"]> (user_voice_preferences fresh_app))
               fresh_app))
  /\ forall text rnd,
       speak_plain text "Bob" rnd s' = speak text (Some "[DECtalk] Betty") (Some "Bob") s'.
Proof.
  apply (voice_toggle_sets_preference "3" "hi all" "Bob" "[DECtalk] Betty" fresh_app);
    [discriminate | reflexivity | reflexivity | discriminate | discriminate | reflexivity].
Defined.

(** ** The random voice *)

Lemma available_voices_origin (c : Config) (v : string) :
  v ∈ available_voices c ->
  (v ∉ random_voice_exclusions c)
  /\ ((exists cmd, (cmd, v) ∈ voice_commands c)
      \/ (exists profile, profile ∈ dectalk_profiles c /\ v = "[DECtalk] " +:+ profile)).
Proof.
  unfold available_voices. rewrite elem_of_app, !list_elem_of_omap.
  intros [[[cmd vn] [Hin Hf]] | [p [Hin Hf]]].
  - destruct (PyStr.truthy vn && PyStr.truthy (PyStr.strip vn)); [|discriminate].
    cbn [andb] in Hf. destruct (py_in vn _) eqn:Hex; [discriminate|].
    injection Hf as <-. apply py_in_false in Hex. eauto.
  - destruct (py_in _ _) eqn:Hex; [discriminate|].
    injection Hf as <-. apply py_in_false in Hex. eauto.
Qed.

(** X23.  A voice that [get_random_voice_for_user] assigns is never one of
    the excluded voices and never the empty name; it is the voice of a
    voice command or a DECtalk profile under its prefix, and it is
    recorded as the preference of the user. *)
Theorem random_voice_not_excluded (username v : string) (rnd : nat) (s s' : App) :
  get_random_voice_for_user username rnd s = (Some v, s') ->
  (v ∉ random_voice_exclusions (config s))
  /\ v <> ""
  /\ ((exists cmd, (cmd, v) ∈ voice_commands (config s))
      \/ (exists profile,
            profile ∈ dectalk_profiles (config s) /\ v = "[DECtalk] " +:+ profile))
  /\ user_voice_preferences s' !! username = Some v.
Proof.
  unfold get_random_voice_for_user.
  destruct (available_voices (config s)) as [|v0 pool] eqn:Hpool; [discriminate|].
  intros [= <- <-].
  assert (Hin : nth (rnd mod length (v0 :: pool)) (v0 :: pool) v0
                ∈ available_voices (config s))
    by (rewrite Hpool; apply nth_mod_in; discriminate).
  destruct (available_voices_origin _ _ Hin) as [Hex Horigin].
  repeat split; try assumption.
  - apply truthy_true_nonempty. eapply available_voices_truthy. exact Hin.
  - cbn. apply lookup_insert_eq.
Qed.

(** A run of X23: Sam is excluded, the first draw is the next voice. *)
Lemma random_voice_not_excluded_witness :
  let c := mkConfig true [] false "!tts" "/vt" [("v 1", "Sam"); ("paul", "Paul")]
             true ["Sam"] ["Betty"] ∅ ∅ "Zira" true true true true "Default" in
  let s := mkApp c [] [] [] None None ∅ [] in
  ("Paul" ∉ random_voice_exclusions (config s))
  /\ "Paul" <> ""
  /\ ((exists cmd, (cmd, "Paul") ∈ voice_commands (config s))
      \/ (exists profile,
            profile ∈ dectalk_profiles (config s) /\ "Paul" = "[DECtalk] " +:+ profile))
  /\ user_voice_preferences
       (log_event SaveConfig (set_prefs (<["Bob" := "Paul"]> ∅) s)) !! "Bob" = Some "Paul".
Proof.
  intros c s.
  apply (random_voice_not_excluded "Bob" "Paul" 0 s
           (log_event SaveConfig (set_prefs (<["Bob" := "Paul"]> ∅) s))).
  reflexivity.
Defined.

(** ** The worker and the voice of a queued message *)

Lemma wait_loop_user (fuel : nat) (env : Env) (m1 m2 : QueuedMsg) (poll : nat)
      (wait_time : float) (s : App) :
  q_username m1 = q_username m2 ->
  wait_loop fuel env m1 poll wait_time s = wait_loop fuel env m2 poll wait_time s.
Proof.
  intros Hu. revert poll wait_time s.
  induction fuel as [|fuel IH]; intros poll wait_time s; [reflexivity|].
  change (wait_loop (S fuel) env m1 poll wait_time s)
    with (if PrimFloat.ltb wait_time max_wait then
            if negb (DirectOutputTTS.is_speaking (running_state env poll))
            then (SpeechCompleted, poll, s)
            else
              let s := during_sleep env poll (log_event Sleep50ms s) in
              let wait_time := PrimFloat.add wait_time poll_interval in
              if py_in_opt (q_username m1) (blocked_listbox s) then
                let s := log_event AudioStopAll s in
                let s := clear_user_from_queue (q_username m1) false s in
                (UserWasBlocked, S poll, s)
              else if negb (bool_decide (currently_speaking_user s = q_username m1)) then
                (SpeechInterrupted, S poll, log_event AudioStopAll s)
              else wait_loop fuel env m1 (S poll) wait_time s
          else (CeilingReached, poll, s)).
  change (wait_loop (S fuel) env m2 poll wait_time s)
    with (if PrimFloat.ltb wait_time max_wait then
            if negb (DirectOutputTTS.is_speaking (running_state env poll))
            then (SpeechCompleted, poll, s)
            else
              let s := during_sleep env poll (log_event Sleep50ms s) in
              let wait_time := PrimFloat.add wait_time poll_interval in
              if py_in_opt (q_username m2) (blocked_listbox s) then
                let s := log_event AudioStopAll s in
                let s := clear_user_from_queue (q_username m2) false s in
                (UserWasBlocked, S poll, s)
              else if negb (bool_decide (currently_speaking_user s = q_username m2)) then
                (SpeechInterrupted, S poll, log_event AudioStopAll s)
              else wait_loop fuel env m2 (S poll) wait_time s
          else (CeilingReached, poll, s)).
  cbv zeta. rewrite Hu. now rewrite IH.
Qed.

(** X24.  For the worker an empty voice name in a queued message is no
    voice name: a message queued with the voice [""] (a voice command
    mapped to an empty name) is handled exactly like the same message
    queued without a voice, so the preference of its user, a random voice
    or the default voice applies. *)
Theorem worker_empty_voice (env : Env) (rnd : nat) (text : string)
        (username : option string) (s : App) :
  speak_message env rnd (mkQueued text (Some "") username) s
  = speak_message env rnd (mkQueued text None username) s.
Proof.
  unfold speak_message. cbn [q_username].
  destruct (py_in_opt username (blocked_listbox s)); [reflexivity|].
  unfold apply_message_voice. cbn [q_voice q_username truthy_opt PyStr.truthy].
  set (s1 := match resolve_voice _ _ _ with (Some v, s') => _ | (None, s') => _ end).
  destruct (audio_manager (config s1)); [|reflexivity].
  assert (Hd : dispatch_speech env (mkQueued text (Some "") username) s1
               = dispatch_speech env (mkQueued text None username) s1).
  { unfold dispatch_speech, current_voice_of.
    cbn [q_voice q_username q_text truthy_opt PyStr.truthy].
    destruct username as [u|]; [|reflexivity].
    destruct (if PyStr.truthy u then _ else _) as [uv|]; [|reflexivity].
    destruct (PyStr.startswith uv dectalk_prefix); reflexivity. }
  rewrite Hd. clear Hd.
  destruct (dispatch_speech env (mkQueued text None username) s1) as [used s2].
  destruct (negb used); [|reflexivity].
  rewrite (wait_loop_user _ _ (mkQueued text (Some "") username)
             (mkQueued text None username)) by reflexivity.
  reflexivity.
Qed.

(** ** The triggers of the voice commands *)

Lemma to_end_some (rest : string) (caps res : Re.captures) :
  to_end rest caps = Some res <-> res = caps /\ (rest = "" \/ rest = nl).
Proof.
  unfold to_end. destruct rest as [|c [|c' rest]]; cbn [Re.run].
  - split; [intros [= <-]; auto | intros [-> _]; reflexivity].
  - destruct (Ascii.eqb c "010"%char) eqn:Hc.
    + apply Ascii.eqb_eq in Hc as ->.
      split; [intros [= <-]; auto | intros [-> _]; reflexivity].
    + split; [discriminate|]. intros [_ [H | H]]; [discriminate|].
      injection H as ->. discriminate.
  - split; [discriminate|]. intros [_ [H | H]]; discriminate.
Qed.

Lemma star_to_end (cls : ascii -> bool) (s : string) (caps res : Re.captures) :
  cls "010"%char = false ->
  Re.star cls s (fun rest => to_end rest caps) = Some res ->
  res = caps /\ exists a, every cls a = true /\ (s = a \/ s = a +:+ nl).
Proof.
  intros Hnl. induction s as [|c s IH]; cbn [Re.star].
  - intros [-> _]%to_end_some. split; [reflexivity|]. exists "". auto.
  - destruct (cls c) eqn:Hc.
    + destruct (Re.star cls s _) as [r|] eqn:Hs.
      * intros [= <-]. destruct (IH eq_refl) as [-> (a & Ha & Hform)].
        split; [reflexivity|]. exists (String c a). cbn [every]. rewrite Hc, Ha.
        split; [reflexivity|]. rewrite append_cons. destruct Hform as [-> | ->]; auto.
      * intros [-> [H | H]]%to_end_some; [discriminate|].
        injection H as -> ->. congruence.
    + intros [-> [H | H]]%to_end_some; [discriminate|].
      split; [reflexivity|]. exists "". auto.
Qed.

(** The class once or more and the end of the line. *)
Lemma plus_to_end (cls : ascii -> bool) (s : string) (caps : Re.captures) :
  cls "010"%char = false ->
  (exists res, Re.run (Re.Seq (Re.Plus cls) Re.Eol) s caps (fun _ caps' => Some caps')
               = Some res)
  <-> exists a, class_line cls a s.
Proof.
  intros Hnl. rewrite seq_run. split.
  - intros [res Hrun]. destruct s as [|c s]; [discriminate|].
    cbn [Re.run] in Hrun. destruct (cls c) eqn:Hc; [|discriminate].
    apply (star_to_end cls s caps res Hnl) in Hrun as [_ (a & Ha & Hform)].
    exists (String c a). split; [discriminate|]. cbn [every]. rewrite Hc, Ha.
    split; [reflexivity|]. rewrite append_cons. destruct Hform as [-> | ->]; auto.
  - intros (a & Hne & Ha & Hform). exists caps.
    destruct Hform as [-> | ->].
    + rewrite <- (append_nil_r a). now apply plus_greedy.
    + apply plus_greedy; [assumption | assumption | | reflexivity].
      unfold nl. cbn [stops]. now rewrite Hnl.
Qed.

Lemma is_match_some (r : Re.t) (s : string) :
  Re.is_match r s = true <-> exists res, Re.rmatch r s = Some res.
Proof.
  unfold Re.is_match. destruct (Re.rmatch r s); split; eauto; [discriminate|].
  intros [res H]. discriminate.
Qed.

Lemma plain_trigger_match (t : string) :
  Re.is_match re_plain_trigger t = true <-> exists a, class_line PyStr.is_word a t.
Proof.
  rewrite is_match_some. unfold Re.rmatch, re_plain_trigger.
  now apply plus_to_end.
Qed.

Lemma legacy_trigger_match (t : string) :
  Re.is_match re_legacy_trigger t = true
  <-> exists d rest, t = "v " +:+ rest /\ class_line PyStr.is_digit d rest.
Proof.
  rewrite is_match_some. unfold Re.rmatch, re_legacy_trigger. rewrite seq_run. split.
  - intros [res Hrun]. cbn [Re.run] in Hrun.
    destruct (String.prefix "v " t) eqn:Hp; [|discriminate].
    apply prefix_split in Hp.
    assert (Hd : exists a, class_line PyStr.is_digit a (PyStr.drop (String.length "v ") t)).
    { apply (plus_to_end PyStr.is_digit _ []); [reflexivity|]. exists res. exact Hrun. }
    destruct Hd as [d Hd]. eauto.
  - intros (d & rest & -> & Hd). rewrite lit_run.
    apply (plus_to_end PyStr.is_digit rest []); [reflexivity|]. eauto.
Qed.

(** X25.  Among the texts within ASCII, the triggers that
    [validate_command_trigger] accepts are the texts [v N] with N a
    number of digits 0 to 9, and the non-empty texts of letters, digits
    and underscores of at most 20 characters; in both cases a newline at
    the very end passes too, and counts for the length. *)
Theorem validate_command_trigger_accepts (trigger : string) :
  ascii_text trigger = true ->
  fst (validate_command_trigger trigger) = true
  <-> (exists d rest, trigger = "v " +:+ rest /\ class_line PyStr.is_digit d rest)
      \/ ((exists a, class_line PyStr.is_word a trigger) /\ String.length trigger <= 20).
Proof.
  intros _. unfold validate_command_trigger.
  destruct trigger as [|c t]; cbn [PyStr.truthy negb].
  - split; [discriminate|].
    intros [(d & rest & H & _) | [(a & Hne & _ & [H | H]) _]];
      [discriminate | congruence | ].
    destruct a; [congruence | discriminate].
  - destruct (Re.is_match re_legacy_trigger _) eqn:Hl.
    + apply legacy_trigger_match in Hl. cbn [fst]. tauto.
    + assert (Hnl : ~ exists d rest, String c t = "v " +:+ rest
                                     /\ class_line PyStr.is_digit d rest).
      { intros H. apply legacy_trigger_match in H. congruence. }
      destruct (Re.is_match re_plain_trigger _) eqn:Hp; cbn [negb].
      * apply plain_trigger_match in Hp.
        destruct (20 <? String.length (String c t))%nat eqn:Hlen; cbn [fst].
        -- apply Nat.ltb_lt in Hlen. split; [discriminate|].
           intros [H | [_ H]]; [contradiction | lia].
        -- apply Nat.ltb_ge in Hlen. tauto.
      * assert (Hnp : ~ exists a, class_line PyStr.is_word a (String c t)).
        { intros H. apply plain_trigger_match in H. congruence. }
        cbn [fst]. split; [discriminate | tauto].
Qed.

(** A run of X25: the trigger [v 12]. *)
Lemma validate_command_trigger_accepts_witness :
  fst (validate_command_trigger "v 12") = true
  <-> (exists d rest, "v 12" = "v " +:+ rest /\ class_line PyStr.is_digit d rest)
      \/ ((exists a, class_line PyStr.is_word a "v 12") /\ String.length "v 12" <= 20).
Proof.
  apply (validate_command_trigger_accepts "v 12"). reflexivity.
Defined.

Lemma numbered_commands_keys (n : nat) (voices : list Voice) (cmd voice : string) :
  (cmd, voice) ∈ numbered_commands n voices ->
  exists i, i < 10 /\ cmd = "v " +:+ digit_text i.
Proof.
  revert n. induction voices as [|v voices IH]; intros n Hin; cbn [numbered_commands] in Hin.
  - now apply elem_of_nil in Hin.
  - destruct (n <? 10)%nat eqn:Hn; [|now apply elem_of_nil in Hin].
    apply Nat.ltb_lt in Hn.
    apply elem_of_cons in Hin as [[= -> _] | Hin]; [eauto | eauto].
Qed.

(** X26.  Every trigger that [auto_generate_voice_commands] creates, the
    numbered shortcuts of the first ten voices and the DECtalk shortcuts,
    is a trigger that [validate_command_trigger] accepts. *)
Theorem generated_triggers_valid (voices : list Voice) (dectalk_available : bool)
        (cmd voice : string) :
  (cmd, voice) ∈ auto_generate_voice_commands voices dectalk_available ->
  validate_command_trigger cmd = (true, "").
Proof.
  unfold auto_generate_voice_commands.
  intros [Hin | Hin]%elem_of_app.
  - apply numbered_commands_keys in Hin as (i & Hi & ->).
    do 10 (destruct i as [|i]; [reflexivity|]). lia.
  - destruct dectalk_available; [|now apply elem_of_nil in Hin].
    unfold dectalk_shortcuts in Hin.
    repeat (apply elem_of_cons in Hin as [[= -> _] | Hin]; [reflexivity|]).
    now apply elem_of_nil in Hin.
Qed.

(** A run of X26: the third of three voices. *)
Lemma generated_triggers_valid_witness :
  validate_command_trigger "v 2" = (true, "").
Proof.
  apply (generated_triggers_valid
           [mkVoice "Microsoft David" "0"; mkVoice "Microsoft Zira" "1"; mkVoice "Sam" "2"]
           false "v 2" "Sam").
  apply elem_of_cons. right. apply elem_of_cons. right.
  apply list_elem_of_singleton. reflexivity.
Defined.

Lemma digit_text_eqb (a b : nat) :
  a < 10 -> b < 10 ->
  String.eqb ("v " +:+ digit_text a) ("v " +:+ digit_text b) = (a =? b)%nat.
Proof.
  intros Ha Hb.
  do 10 (destruct a as [|a]; [do 10 (destruct b as [|b]; [reflexivity|]); lia|]). lia.
Qed.

Lemma digit_text_digits (i : nat) :
  i < 10 -> digit_text i <> "" /\ every PyStr.is_digit (digit_text i) = true.
Proof.
  intros Hi. split; [discriminate|].
  do 10 (destruct i as [|i]; [reflexivity|]). lia.
Qed.

Lemma dict_get_app (l1 l2 : list (string * string)) (k : string) :
  dict_get (l1 ++ l2) k
  = match dict_get l1 k with Some v => Some v | None => dict_get l2 k end.
Proof.
  induction l1 as [|[k' v] l1 IH]; [reflexivity|].
  cbn [app dict_get]. now destruct (String.eqb k' k).
Qed.

Lemma numbered_lookup (n i : nat) (voices : list Voice) (voice : Voice) :
  voices !! i = Some voice -> n + i < 10 ->
  dict_get (numbered_commands n voices) ("v " +:+ digit_text (n + i))
  = Some (v_name voice).
Proof.
  revert n i. induction voices as [|v voices IH]; intros n i Hi Hlt; [discriminate|].
  cbn [numbered_commands].
  replace (n <? 10)%nat with true by (symmetry; apply Nat.ltb_lt; lia).
  cbn [dict_get]. rewrite digit_text_eqb by lia.
  destruct i as [|i].
  - rewrite Nat.add_0_r, Nat.eqb_refl. now injection Hi as ->.
  - replace (n =? n + S i)%nat with false by (symmetry; apply Nat.eqb_neq; lia).
    replace (n + S i) with (S n + i) by lia. apply IH; [exact Hi | lia].
Qed.

(** X27.  With the voice commands that [auto_generate_voice_commands]
    builds, the numbered command reaches the voice of that number: for
    the i-th installed voice, i below ten, [/v i text] hands the text to
    [speak_with_voice] with the name of that voice (unless the message
    starts with the toggle command). *)
Theorem generated_number_command (voices : list Voice) (dectalk_available : bool)
        (i : nat) (voice : Voice) (t : string) (username : option string) (s : App) :
  voice_commands (config s) = auto_generate_voice_commands voices dectalk_available ->
  voices !! i = Some voice -> i < 10 ->
  spoken_text t = true ->
  PyStr.startswith ("v " +:+ digit_text i +:+ " " +:+ t)
    (PyStr.lstrip_char "/" (voice_toggle_command (config s))) = false ->
  process_voice_command ("/v " +:+ digit_text i +:+ " " +:+ t) username s
  = speak_with_voice t (v_name voice) username s.
Proof.
  intros Hvc Hi Hlt Ht Htoggle. destruct (digit_text_digits i Hlt) as [Hne Hd].
  unfold process_voice_command.
  change ("/v " +:+ digit_text i +:+ " " +:+ t)
    with ("/" +:+ ("v " +:+ digit_text i +:+ " " +:+ t)) at 1 2.
  change (PyStr.startswith ("/" +:+ ("v " +:+ digit_text i +:+ " " +:+ t)) "/") with true.
  cbv iota. rewrite (toggle_mismatch _ _ Htoggle).
  rewrite (number_command_match (digit_text i) t Hne Hd Ht).
  unfold group1, group2_or_empty. cbn [Re.group Nat.eqb default from_option id].
  rewrite Hvc. unfold auto_generate_voice_commands.
  pose proof (numbered_lookup 0 i voices voice Hi Hlt) as Hlook.
  change (0 + i) with i in Hlook. rewrite dict_get_app, Hlook.
  unfold spoken_text in Ht. apply andb_true_iff in Ht as [[Htruthy _]%andb_true_iff _].
  unfold speak_with_voice_if_text. now rewrite Htruthy.
Qed.

(** A run of X27. *)
Lemma generated_number_command_witness :
  let voices := [mkVoice "Microsoft David" "0"; mkVoice "Microsoft Zira" "1"] in
  let c := mkConfig false [] false "!tts" "/vt" (auto_generate_voice_commands voices true)
             false [] [] ∅ ∅ "Zira" true true true true "Default" in
  let s := mkApp c [] [] [] None None ∅ [] in
  process_voice_command ("/v " +:+ digit_text 1 +:+ " " +:+ "hello") (Some "Bob") s
  = speak_with_voice "hello" "Microsoft Zira" (Some "Bob") s.
Proof.
  intros voices c s.
  apply (generated_number_command voices true 1 (mkVoice "Microsoft Zira" "1") "hello"
           (Some "Bob") s); [reflexivity | reflexivity | lia | reflexivity | reflexivity].
Defined.

(** ** The two everyday paths of [on_chat_message] *)

Section EverydayPaths.
Variables (msg : ChatMsg) (rnd : nat) (s : App).
Hypothesis not_blocked : m_username msg ∉ blocked_listbox s.
Hypothesis no_keyword : auto_block_fires (config s) (m_message msg) = false.

Lemma resolve_voice_queue (u : option string) (s1 : App) :
  message_queue (snd (resolve_voice u rnd s1)) = message_queue s1
  /\ config (snd (resolve_voice u rnd s1)) = config s1.
Proof.
  unfold resolve_voice. destruct u as [u|]; [|auto].
  destruct (if PyStr.truthy u then _ else _); [auto|].
  destruct (_ && _); [|auto].
  unfold get_random_voice_for_user.
  destruct (available_voices (config s1)); [auto|].
  cbn [fst snd]. destruct (PyStr.truthy _); auto.
Qed.

Lemma resolve_voice_shown (u : option string) (e : event) (s1 : App) :
  fst (resolve_voice u rnd (log_event e s1)) = fst (resolve_voice u rnd s1).
Proof.
  unfold resolve_voice. destruct u as [u|]; [|reflexivity].
  cbn [user_voice_preferences config log_event].
  destruct (if PyStr.truthy u then _ else _); [reflexivity|].
  destruct (_ && _); [|reflexivity].
  unfold get_random_voice_for_user. cbn [config log_event].
  destruct (available_voices (config s1)); [reflexivity|].
  cbn [fst snd]. destruct (PyStr.truthy _); reflexivity.
Qed.

(** X28.  A message with the prefix, a blank and a text that is no voice
    command, from a sender who is not blocked, trips no keyword and is not
    shut out by private mode, and that is none of the moderation
    commands: the call returns, the sender becomes the last speaker, the
    text after the prefix, stripped, is not empty and, with an audio
    manager, is put once at the back of the queue under the sender's name
    with the voice that [resolve_voice] gives (the sender's preference,
    else a random draw if enabled, else none). *)
Theorem prefixed_plain_message :
  moderation_command (tts_command_prefix (config s)) (m_message msg) = false ->
  PyStr.startswith (PyStr.strip (m_message msg)) (tts_command_prefix (config s) +:+ " ")
  = true ->
  private_mode_var (config s) = false \/ m_username msg ∈ admin_listbox s ->
  let text :=
    PyStr.strip (PyStr.drop (String.length (tts_command_prefix (config s) +:+ " "))
                            (PyStr.strip (m_message msg))) in
  PyStr.startswith text "/" = false -> PyStr.startswith text "v " = false ->
  exists s',
    on_chat_message msg rnd s = Returned tt s'
    /\ last_speaker s' = Some (m_username msg)
    /\ text <> ""
    /\ message_queue s'
       = message_queue s
         ++ (if audio_manager (config s)
             then [mkQueued text (fst (resolve_voice (Some (m_username msg)) rnd s))
                            (Some (m_username msg))]
             else []).
Proof.
  intros Hmod Hpre Hpriv text Hslash Hv.
  assert (Hne : text <> "") by (apply tts_text_nonempty; [apply rstrip_strip | exact Hpre]).
  rewrite on_chat_not_blocked, auto_block_check_quiet, admin_commands_pass by assumption.
  unfold tts_rule, shown. run_monad. fields. rewrite Hpre.
  assert (Hgate : private_mode_var (config s)
                  && negb (py_in (m_username msg) (admin_listbox s)) = false).
  { destruct Hpriv as [-> | Ha%py_in_true]; [reflexivity|].
    rewrite Ha. apply andb_false_r. }
  fields. rewrite Hgate. fold text. rewrite Hslash, Hv. run_monad.
  eexists. split; [reflexivity|]. split; [reflexivity|]. split; [assumption|].
  cbn [message_queue set_last_speaker]. unfold speak_plain.
  set (e := ChatDisplay (display_text msg)).
  pose proof (resolve_voice_queue (Some (m_username msg)) (log_event e s)) as [Hq Hc].
  rewrite <- (resolve_voice_shown (Some (m_username msg)) e s).
  destruct (resolve_voice (Some (m_username msg)) rnd (log_event e s)) as [[v|] s1];
    cbn [fst snd] in *; unfold speak, queue_put; cbn [config log_event];
    rewrite Hc; cbn [config log_event];
    destruct (audio_manager (config s)); cbn [message_queue set_queue log_event];
    rewrite ?Hq, ?app_nil_r; reflexivity.
Qed.

(** X29.  [!stop] from an admin (not blocked, no keyword, and not the
    stop command of the prefix), in an application as [init_audio] leaves
    it: the call returns; with an audio manager both back ends are told to
    stop, the audio manager first, and the queue is empty afterwards;
    without an audio manager nothing is stopped or cleared; in both cases
    the chat display then tells who stopped the speech. *)
Theorem admin_stop_queue :
  init_audio_invariant (config s) = true ->
  m_username msg ∈ admin_listbox s ->
  PyStr.strip (PyStr.lower (PyStr.strip (m_message msg))) = "!stop" ->
  PyStr.lower (tts_command_prefix (config s) +:+ " stop") <> "!stop" ->
  exists s',
    on_chat_message msg rnd s = Returned tt s'
    /\ message_queue s' = (if audio_manager (config s) then [] else message_queue s)
    /\ trace s'
       = trace s ++ [ChatDisplay (display_text msg)]
                 ++ (if audio_manager (config s) then [AudioStopAll; DectalkStop] else [])
                 ++ [ChatDisplay ("[SYSTEM] Speech stopped by " +:+ m_username msg +:+ nl)].
Proof.
  intros Hinit Ha%py_in_true Hcmd Hpre.
  rewrite on_chat_not_blocked, auto_block_check_quiet by assumption.
  apply String.eqb_neq in Hpre. rewrite String.eqb_sym in Hpre.
  unfold admin_commands, stop_rule, shown. run_monad. fields.
  rewrite Hcmd, Hpre, Ha. cbn [String.eqb Ascii.eqb Bool.eqb]. run_monad.
  eexists. split; [reflexivity|].
  unfold stop_all_speech. cbn [config log_event].
  unfold init_audio_invariant in Hinit.
  destruct (audio_manager (config s)); [cbn [implb] in Hinit; rewrite Hinit|];
    cbn [message_queue log_event set_queue trace]; rewrite <- ?app_assoc;
    split; reflexivity.
Qed.
End EverydayPaths.

(** A run of X28. *)
Lemma prefixed_plain_message_witness :
  exists s',
    on_chat_message (chat "Bob" "!tts  hello ") 0 fresh_app = Returned tt s'
    /\ last_speaker s' = Some "Bob"
    /\ "hello" <> ""
    /\ message_queue s' = [] ++ [mkQueued "hello" None (Some "Bob")].
Proof.
  assert (Hnb : m_username (chat "Bob" "!tts  hello ") ∉ blocked_listbox fresh_app)
    by (apply (proj1 (py_in_false _ _)); reflexivity).
  apply (prefixed_plain_message (chat "Bob" "!tts  hello ") 0 fresh_app Hnb eq_refl);
    [reflexivity | reflexivity | left; reflexivity | reflexivity | reflexivity].
Defined.

(** A run of X29: the admin stops the speech while two messages wait. *)
Lemma admin_stop_queue_witness :
  let s := final_state (on_chat_message (chat "Eve" "!tts two") 0
             (final_state (on_chat_message (chat "Bob" "!tts one") 0 fresh_app))) in
  message_queue s = [mkQueued "one" None (Some "Bob"); mkQueued "two" None (Some "Eve")]
  /\ exists s',
       on_chat_message (chat "Admin" "!STOP ") 0 s = Returned tt s'
       /\ message_queue s' = []
       /\ trace s' = trace s ++ [ChatDisplay (display_text (chat "Admin" "!STOP "))]
                            ++ [AudioStopAll; DectalkStop]
                            ++ [ChatDisplay ("[SYSTEM] Speech stopped by Admin" +:+ nl)].
Proof.
  intros s. split; [reflexivity|].
  assert (Hnb : m_username (chat "Admin" "!STOP ") ∉ blocked_listbox s)
    by (apply (proj1 (py_in_false _ _)); reflexivity).
  apply (admin_stop_queue (chat "Admin" "!STOP ") 0 s Hnb eq_refl eq_refl);
    [apply py_in_true; reflexivity | reflexivity | discriminate].
Defined.
